(** * GST reconciliation: normalisation, matching and summary of [app.py]

    A shallow embedding of the normalisation-and-reconciliation engine of the
    GST reconciliation tool ([clean_and_transform_data], [clean_gstin],
    [perform_reconciliation], [get_summary_text], [save_settings]) and of the
    commands around it (loading, manual entry, deletion and clearing of the
    ledgers, [run_reconciliation], [update_results_ui], the labels of the
    charts), together with the properties of these functions.

    Conventions of the embedding:
    - text is ASCII: a Python [str] is a [string] of bytes, and the character
      classes of the regular expressions are their ASCII parts;
    - a Python [float] is an IEEE 754 binary64 value, a [spec_float] handled
      with the operations of [SpecFloat] at precision 53 and [emax] 1024;
    - a pandas [Timestamp] is its number of nanoseconds since the epoch, the
      null timestamp [NaT] is [None];
    - a pandas [DataFrame] is the list of its named columns;
    - the two date parsers of pandas, the order in which Python visits a
      set and the sum of a column ([Series.sum]) are parameters; the messages
      passed to [log_message] are returned with the result. *)

From Stdlib Require Import ZArith List String Ascii Bool Lia.
From Stdlib Require Import Floats.SpecFloat.
From Stdlib Require QArith Qabs.
From stdpp Require Import base gmap strings list.

Local Open Scope Z_scope.

(** ** Text *)

Module Text.

Definition in_range (lo hi : nat) (c : ascii) : bool :=
  let n := nat_of_ascii c in (Nat.leb lo n && Nat.leb n hi)%bool.

Definition is_digit  : ascii -> bool := in_range 48 57.
Definition is_upper  : ascii -> bool := in_range 65 90.
Definition is_lower  : ascii -> bool := in_range 97 122.

(** [str.isspace] on the ASCII range: tab, line feed, vertical tab, form
    feed, carriage return, the four separators 28..31 and the space. *)
Definition is_space (c : ascii) : bool :=
  (in_range 9 13 c || in_range 28 32 c)%bool.

Definition to_upper (c : ascii) : ascii :=
  if is_lower c then ascii_of_nat (nat_of_ascii c - 32) else c.

Definition to_lower (c : ascii) : ascii :=
  if is_upper c then ascii_of_nat (nat_of_ascii c + 32) else c.

Fixpoint smap (f : ascii -> ascii) (s : string) : string :=
  match s with
  | EmptyString => EmptyString
  | String c r => String (f c) (smap f r)
  end.

Fixpoint sfilter (p : ascii -> bool) (s : string) : string :=
  match s with
  | EmptyString => EmptyString
  | String c r => if p c then String c (sfilter p r) else sfilter p r
  end.

Fixpoint sforall (p : ascii -> bool) (s : string) : bool :=
  match s with
  | EmptyString => true
  | String c r => (p c && sforall p r)%bool
  end.

(** [s.upper()] and [s.lower()]. *)
Definition upper : string -> string := smap to_upper.
Definition lower : string -> string := smap to_lower.

(** [s.lstrip()], [s.rstrip()] and [s.strip()]. *)
Fixpoint lstrip (s : string) : string :=
  match s with
  | EmptyString => EmptyString
  | String c r => if is_space c then lstrip r else s
  end.

Fixpoint rstrip (s : string) : string :=
  match s with
  | EmptyString => EmptyString
  | String c r =>
      match rstrip r with
      | EmptyString => if is_space c then EmptyString else String c EmptyString
      | r' => String c r'
      end
  end.

Definition strip (s : string) : string := rstrip (lstrip s).

(** [s.isdigit()]: non-empty and made of digits only. *)
Definition isdigit (s : string) : bool :=
  match s with
  | EmptyString => false
  | _ => sforall is_digit s
  end.

(** [s[:n]] and [s.ljust(n, c)]. *)
Definition take (n : nat) (s : string) : string := String.substring 0 n s.

Fixpoint replicate_char (n : nat) (c : ascii) : string :=
  match n with
  | O => EmptyString
  | S k => String c (replicate_char k c)
  end.

Definition ljust (n : nat) (c : ascii) (s : string) : string :=
  s +:+ replicate_char (n - String.length s) c.

(** [s.zfill(n)] for a string of digits. *)
Definition zfill (n : nat) (s : string) : string :=
  replicate_char (n - String.length s) "0" +:+ s.

(** [sub in s]. *)
Fixpoint contains (sub s : string) : bool :=
  if String.prefix sub s then true
  else match s with
       | EmptyString => false
       | String _ r => contains sub r
       end.

(** [sep.join(parts)]. *)
Fixpoint join (sep : string) (parts : list string) : string :=
  match parts with
  | [] => EmptyString
  | [p] => p
  | p :: rest => p +:+ sep +:+ join sep rest
  end.

(** [s in options] for a list of strings. *)
Definition isin (s : string) (options : list string) : bool :=
  existsb (String.eqb s) options.

(** [str(n)] for a Python integer. *)
Fixpoint digits_of_pos_fuel (fuel : nat) (n : Z) (acc : string) : string :=
  match fuel with
  | O => acc
  | S k =>
      let acc' := String (ascii_of_nat (48 + Z.to_nat (n mod 10))) acc in
      if n <? 10 then acc' else digits_of_pos_fuel k (n / 10) acc'
  end.

Definition digits_of_nonneg (n : Z) : string :=
  digits_of_pos_fuel (S (Z.to_nat (Z.log2 n))) n EmptyString.

Definition str_of_int (n : Z) : string :=
  if n <? 0 then String "-" (digits_of_nonneg (- n)) else digits_of_nonneg n.

(** [int(s)] for a string of ASCII digits. *)
Fixpoint int_of_digits_acc (s : string) (acc : Z) : Z :=
  match s with
  | EmptyString => acc
  | String c r => int_of_digits_acc r (10 * acc + (Z.of_nat (nat_of_ascii c) - 48))
  end.

Definition int_of_digits (s : string) : Z := int_of_digits_acc s 0.

(** [s.replace(old, new)] for a non-empty [old]: the occurrences are
    replaced from the left, without overlap; [skip] counts the characters of
    an occurrence just replaced that are still to be passed over. *)
Fixpoint replace_from (skip : nat) (old new s : string) : string :=
  match s with
  | EmptyString => EmptyString
  | String c r =>
      match skip with
      | S k => replace_from k old new r
      | O =>
          if String.prefix old s
          then new +:+ replace_from (String.length old - 1) old new r
          else String c (replace_from 0 old new r)
      end
  end.

Definition replace (old new s : string) : string := replace_from 0 old new s.

(** [s.split(sep)[0]] for a separator of one character: the text before
    its first occurrence, the whole text when there is none. *)
Fixpoint split_first (sep : ascii) (s : string) : string :=
  match s with
  | EmptyString => EmptyString
  | String c r => if Ascii.eqb c sep then EmptyString else String c (split_first sep r)
  end.

End Text.

(** ** Binary64 floating point *)

Module F64.

Definition float : Type := spec_float.

Definition prec : Z := 53.
Definition emax : Z := 1024.

Definition zero : float := S754_zero false.
Definition nan : float := S754_nan.

Definition add : float -> float -> float := SFadd prec emax.
Definition sub : float -> float -> float := SFsub prec emax.
Definition div : float -> float -> float := SFdiv prec emax.
Definition opp : float -> float := SFopp.
Definition abs : float -> float := SFabs.
Definition ltb : float -> float -> bool := SFltb.
Definition eqb : float -> float -> bool := SFeqb.

Definition is_nan (f : float) : bool :=
  match f with S754_nan => true | _ => false end.

(** The sign bit; [false] for NaN. *)
Definition sign (f : float) : bool :=
  match f with
  | S754_zero s | S754_infinity s | S754_finite s _ _ => s
  | S754_nan => false
  end.

(** The number that a finite float stands for, as a fraction; 0 for the
    other values. *)
Definition to_Q (f : float) : QArith_base.Q :=
  match f with
  | S754_finite s m e =>
      if 0 <=? e then QArith_base.Qmake (cond_Zopp s (Zpos m * 2 ^ e)) 1
      else QArith_base.Qmake (cond_Zopp s (Zpos m)) (Z.to_pos (2 ^ (- e)))
  | _ => QArith_base.Qmake 0 1
  end.

(** The float nearest to [(-1)^neg * n * 10^e10], for [0 <= n]: what reading
    a decimal numeral gives. *)
Definition of_decimal (neg : bool) (n e10 : Z) : float :=
  match n with
  | Zpos p =>
      match e10 with
      | Zneg k => div (S754_finite neg p 0) (S754_finite false (10 ^ k)%positive 0)
      | _ => binary_round prec emax neg (Z.to_pos (n * 10 ^ e10)) 0
      end
  | _ => S754_zero neg
  end.

Definition of_int (n : Z) : float := of_decimal (n <? 0) (Z.abs n) 0.

(** Half-even rounding of the quotient [a / b], for [0 <= a] and [0 < b]. *)
Definition div_half_even (a b : Z) : Z :=
  let q := a / b in
  let r := a mod b in
  match 2 * r ?= b with
  | Lt => q
  | Gt => q + 1
  | Eq => if Z.even q then q else q + 1
  end.

(** [m * 2^e * 10^s] as a fraction of two positive integers. *)
Definition scaled (m : positive) (e s : Z) : Z * Z :=
  (Zpos m * (if 0 <=? e then 2 ^ e else 1) * (if 0 <=? s then 10 ^ s else 1),
   (if 0 <=? e then 1 else 2 ^ (- e)) * (if 0 <=? s then 1 else 10 ^ (- s))).

(** The integer nearest to [m * 2^e * 10^s] (ties to even). *)
Definition scaled_round (m : positive) (e s : Z) : Z :=
  div_half_even (fst (scaled m e s)) (snd (scaled m e s)).

(** [f"{x:.2f}"]. *)
Definition format_2f (x : float) : string :=
  match x with
  | S754_nan => "nan"
  | S754_infinity s => if s then "-inf" else "inf"
  | S754_zero s => if s then "-0.00" else "0.00"
  | S754_finite s m e =>
      let c := scaled_round m e 2 in
      (if s then "-" else "") +:+ Text.digits_of_nonneg (c / 100) +:+ "." +:+
      Text.zfill 2 (Text.digits_of_nonneg (c mod 100))
  end.

(** Number of decimal digits of a positive integer. *)
Definition ndigits (n : Z) : Z := Z.of_nat (String.length (Text.digits_of_nonneg n)).

(** The position of the decimal point of [m * 2^e]: the [d] with
    [10^(d-1) <= m * 2^e < 10^d]. *)
Fixpoint decpt_below (fuel : nat) (m : positive) (e : Z) (s : Z) : Z :=
  match fuel with
  | O => - s
  | S k =>
      let num := Zpos m * 10 ^ s in
      if 2 ^ (- e) <=? num then ndigits (num / 2 ^ (- e)) - s
      else decpt_below k m e (s + 1)
  end.

Definition decpt (m : positive) (e : Z) : Z :=
  if 0 <=? e then ndigits (Zpos m * 2 ^ e) else decpt_below 400 m e 0.

Fixpoint strip_trailing_zeros (fuel : nat) (q : Z) : Z :=
  match fuel with
  | O => q
  | S k => if (q mod 10 =? 0) && negb (q =? 0) then strip_trailing_zeros k (q / 10) else q
  end.

(** The shortest digit string that reads back as [m * 2^e]: with 1, 2, ...
    17 significant digits, the decimal nearest to the value is tried, then
    its neighbour on the other side of the value; returns the digits and the
    position of the decimal point. *)
Fixpoint shortest_digits (fuel : nat) (n : Z) (m : positive) (e : Z) (d : Z) : Z * Z :=
  let num := fst (scaled m e (n - d)) in
  let den := snd (scaled m e (n - d)) in
  let near := div_half_even num den in
  let far := if near =? num / den then num / den + 1 else num / den in
  let reads_back q := SFeqb (of_decimal false q (d - n)) (S754_finite false m e) in
  let finish q := if q =? 10 ^ n then (1, d + 1) else (strip_trailing_zeros 17 q, d) in
  match fuel with
  | O => finish near
  | S k =>
      if reads_back near then finish near
      else if negb (num mod den =? 0) && reads_back far then finish far
      else shortest_digits k (n + 1) m e d
  end.

(** [repr(x)] of a Python float ([str(x)] is the same text): positional
    notation when the decimal point position is in [-3, 16], exponent notation
    otherwise. *)
Definition repr (x : float) : string :=
  match x with
  | S754_nan => "nan"
  | S754_infinity s => if s then "-inf" else "inf"
  | S754_zero s => if s then "-0.0" else "0.0"
  | S754_finite s m e =>
      let '(q, d) := shortest_digits 17 1 m e (decpt m e) in
      let ds := Text.digits_of_nonneg q in
      let nd := Z.of_nat (String.length ds) in
      let body :=
        if (d <=? -4) || (16 <? d) then
          let mant := match ds with
                      | String c EmptyString => ds
                      | String c r => String c ("." +:+ r)
                      | EmptyString => ds
                      end in
          let ex := d - 1 in
          mant +:+ "e" +:+ (if ex <? 0 then "-" else "+") +:+
          Text.zfill 2 (Text.digits_of_nonneg (Z.abs ex))
        else if d <=? 0 then
          "0." +:+ Text.replicate_char (Z.to_nat (- d)) "0" +:+ ds
        else if nd <=? d then
          ds +:+ Text.replicate_char (Z.to_nat (d - nd)) "0" +:+ ".0"
        else
          Text.take (Z.to_nat d) ds +:+ "." +:+
          String.substring (Z.to_nat d) (Z.to_nat (nd - d)) ds
      in (if s then "-" else "") +:+ body
  end.

(** The digits of an integer with a comma before every group of three
    counted from the right. *)
Fixpoint with_commas (digits : string) : string :=
  match digits with
  | EmptyString => EmptyString
  | String c r =>
      String c ((if Nat.ltb 0 (String.length r) && Nat.eqb (String.length r mod 3) 0
                 then "," else "") +:+ with_commas r)
  end.

(** [f"{x:,.2f}"]. *)
Definition format_comma_2f (x : float) : string :=
  match x with
  | S754_finite s m e =>
      let c := scaled_round m e 2 in
      (if s then "-" else "") +:+ with_commas (Text.digits_of_nonneg (c / 100)) +:+ "." +:+
      Text.zfill 2 (Text.digits_of_nonneg (c mod 100))
  | _ => format_2f x
  end.

End F64.

(** ** Python and pandas values *)

Module Py.

(** A run of digits in which single underscores may separate digits: its
    value on top of [acc], the number of its digits, and the rest of [s]. *)
Fixpoint digitpart (s : string) (acc : Z) (cnt : nat) (after_digit : bool)
  : Z * nat * string :=
  match s with
  | String c r =>
      if Text.is_digit c
      then digitpart r (10 * acc + (Z.of_nat (nat_of_ascii c) - 48)) (S cnt) true
      else if after_digit && Ascii.eqb c "_" &&
              match r with String d _ => Text.is_digit d | EmptyString => false end
      then digitpart r acc cnt false
      else (acc, cnt, s)
  | EmptyString => (acc, cnt, s)
  end.

(** An optional sign in front of [s]: whether it is a minus, and the rest. *)
Definition split_sign (s : string) : bool * string :=
  match s with
  | String c r =>
      if Ascii.eqb c "-" then (true, r)
      else if Ascii.eqb c "+" then (false, r)
      else (false, s)
  | EmptyString => (false, s)
  end.

Definition exponent (s : string) : option Z :=
  match s with
  | EmptyString => Some 0
  | String c r =>
      if Ascii.eqb c "e" || Ascii.eqb c "E" then
        let '(neg, r') := split_sign r in
        match digitpart r' 0 0 false with
        | (v, S _, EmptyString) => Some (if neg then - v else v)
        | _ => None
        end
      else None
  end.

(** The numeral after the sign. *)
Definition float_of_unsigned (neg : bool) (u : string) : option F64.float :=
  let w := Text.lower u in
  if String.eqb w "inf" || String.eqb w "infinity" then Some (S754_infinity neg)
  else if String.eqb w "nan" then Some S754_nan
  else
    let '(ip, ic, r1) := digitpart u 0 0 false in
    let '(n, fc, r2) :=
      match r1 with
      | String c r => if Ascii.eqb c "." then digitpart r ip 0 false else (ip, O, r1)
      | EmptyString => (ip, O, r1)
      end in
    match (ic + fc)%nat with
    | O => None
    | _ =>
        match exponent r2 with
        | Some ex => Some (F64.of_decimal neg n (ex - Z.of_nat fc))
        | None => None
        end
    end.

(** [float(s)]: surrounding white space, a sign, then [inf], [infinity] or
    [nan] in any case, or a decimal numeral with optional fraction and
    exponent; the result is the nearest binary64 value.  [None] stands for
    the [ValueError]. *)
Definition float_of_str (s : string) : option F64.float :=
  let '(neg, u) := split_sign (Text.strip s) in
  float_of_unsigned neg u.

(** A cell of a table as pandas hands it over: [None], a string, an
    integer, a float (NaN included) or a timestamp ([NaT] included). *)
Inductive cell : Type :=
| CNone
| CStr (s : string)
| CInt (z : Z)
| CFloat (f : F64.float)
| CTime (t : option Z).

(** [pd.isna(x)]. *)
Definition isna (c : cell) : bool :=
  match c with
  | CNone => true
  | CFloat f => F64.is_nan f
  | CTime None => true
  | _ => false
  end.

Definition ns_per_day : Z := 86400000000000.

(** The civil date of a day number counted from 1970-01-01. *)
Definition civil_from_days (days : Z) : Z * Z * Z :=
  let z := days + 719468 in
  let era := z / 146097 in
  let doe := z - era * 146097 in
  let yoe := (doe - doe / 1460 + doe / 36524 - doe / 146096) / 365 in
  let doy := doe - (365 * yoe + yoe / 4 - yoe / 100) in
  let mp := (5 * doy + 2) / 153 in
  let d := doy - (153 * mp + 2) / 5 + 1 in
  let m := if mp <? 10 then mp + 3 else mp - 9 in
  let y := yoe + era * 400 + (if m <=? 2 then 1 else 0) in
  (y, m, d).

(** The day number of a civil date. *)
Definition days_from_civil (y m d : Z) : Z :=
  let y' := if m <=? 2 then y - 1 else y in
  let era := y' / 400 in
  let yoe := y' - era * 400 in
  let doy := (153 * (if 2 <? m then m - 3 else m + 9) + 2) / 5 + d - 1 in
  let doe := yoe * 365 + yoe / 4 - yoe / 100 + doy in
  era * 146097 + doe - 719468.

Definition date_str (t : Z) : string :=
  let '(y, m, d) := civil_from_days (t / ns_per_day) in
  Text.zfill 4 (Text.str_of_int y) +:+ "-" +:+ Text.zfill 2 (Text.str_of_int m)
  +:+ "-" +:+ Text.zfill 2 (Text.str_of_int d).

(** [str(ts)] for a [Timestamp]. *)
Definition timestamp_str (t : Z) : string :=
  let r := t mod ns_per_day in
  let secs := r / 1000000000 in
  let frac := r mod 1000000000 in
  date_str t +:+ " " +:+ Text.zfill 2 (Text.str_of_int (secs / 3600)) +:+ ":" +:+
  Text.zfill 2 (Text.str_of_int (secs / 60 mod 60)) +:+ ":" +:+
  Text.zfill 2 (Text.str_of_int (secs mod 60)) +:+
  (if frac =? 0 then ""
   else if frac mod 1000 =? 0 then "." +:+ Text.zfill 6 (Text.str_of_int (frac / 1000))
   else "." +:+ Text.zfill 9 (Text.str_of_int frac)).

(** [str(x)]. *)
Definition str (c : cell) : string :=
  match c with
  | CNone => "None"
  | CStr s => s
  | CInt z => Text.str_of_int z
  | CFloat f => F64.repr f
  | CTime None => "NaT"
  | CTime (Some t) => timestamp_str t
  end.

Definition is_time (c : cell) : bool :=
  match c with CTime _ => true | _ => false end.

Definition is_midnight (c : cell) : bool :=
  match c with CTime (Some t) => t mod ns_per_day =? 0 | _ => true end.

(** [series.astype(str)]: [str] of every element, except that a column of
    timestamps which all fall on midnight is printed as dates only. *)
Definition astype_str (col : list cell) : list string :=
  if forallb is_time col && forallb is_midnight col
  then map (fun c => match c with CTime (Some t) => date_str t | _ => str c end) col
  else map str col.

(** [series.fillna(v)]. *)
Definition fillna (v : cell) (col : list cell) : list cell :=
  map (fun c => if isna c then v else c) col.

(** [ts.strftime('%d/%m/%Y')]. *)
Definition strftime_dmy (t : Z) : string :=
  let '(y, m, d) := civil_from_days (t / ns_per_day) in
  Text.zfill 2 (Text.str_of_int d) +:+ "/" +:+ Text.zfill 2 (Text.str_of_int m)
  +:+ "/" +:+ Text.zfill 4 (Text.str_of_int y).

End Py.

(** ** Data frames *)

Module Frame.
Import Py.

Definition DataFrame : Type := list (string * list cell).

Definition columns (df : DataFrame) : list string := map fst df.

Definition nrows (df : DataFrame) : nat :=
  match df with
  | [] => O
  | (_, c) :: _ => length c
  end.

(** [df.empty]: no column or no row. *)
Definition empty (df : DataFrame) : bool := Nat.eqb (nrows df) 0.

(** [name in df.columns]. *)
Definition has_col (name : string) (df : DataFrame) : bool :=
  existsb (String.eqb name) (columns df).

(** [df[name]], for a name carried by one column. *)
Fixpoint get_col (name : string) (df : DataFrame) : list cell :=
  match df with
  | [] => []
  | (n, c) :: rest => if String.eqb n name then c else get_col name rest
  end.

(** [df[name] = values]: replaces the column of that name, or appends it. *)
Fixpoint set_col (name : string) (values : list cell) (df : DataFrame) : DataFrame :=
  match df with
  | [] => [(name, values)]
  | (n, c) :: rest =>
      if String.eqb n name then (n, values) :: rest
      else (n, c) :: set_col name values rest
  end.

(** Renaming of every column label. *)
Definition rename (f : string -> string) (df : DataFrame) : DataFrame :=
  map (fun nc => (f (fst nc), snd nc)) df.

Definition count_col (name : string) (df : DataFrame) : nat :=
  length (filter (fun n => String.eqb n name = true) (columns df)).

(** [series[mask]]: the entries at which the mask holds. *)
Fixpoint mask_filter {A : Type} (mask : list bool) (l : list A) : list A :=
  match mask, l with
  | b :: mask', x :: l' => if b then x :: mask_filter mask' l' else mask_filter mask' l'
  | _, _ => []
  end.

(** [df[mask].reset_index(drop=True)]: the rows at which the mask holds. *)
Definition select_rows (mask : list bool) (df : DataFrame) : DataFrame :=
  map (fun nc => (fst nc, mask_filter mask (snd nc))) df.

(** [pd.concat([a, b], ignore_index=True)]: the rows of [b] below the rows
    of [a]; a column that one of the two frames lacks is NaN in its rows. *)
Definition pd_concat (a b : DataFrame) : DataFrame :=
  map (fun nc => (fst nc,
                  snd nc ++ (if has_col (fst nc) b then get_col (fst nc) b
                             else repeat (CFloat F64.nan) (nrows b)))) a ++
  map (fun nc => (fst nc, repeat (CFloat F64.nan) (nrows a) ++ snd nc))
      (List.filter (fun nc => negb (has_col (fst nc) a)) b).

(** The frame without its first row. *)
Definition tail_frame (df : DataFrame) : DataFrame :=
  map (fun nc => (fst nc, tl (snd nc))) df.

End Frame.

(** ** The application: settings, normalisation, reconciliation, summary *)

Module App.
Import Py Frame.

(** What makes [clean_and_transform_data] raise: a custom mapping, whose
    first entry reaches [str.replace(..., regex=True)], a [TypeError]; or two
    columns of the table that receive the same standard name, on which the
    steps that expect a single series under that name fail.  The messages
    logged before the failure are not kept. *)
Inductive failure : Type :=
| CustomMappingTypeError
| DuplicateStandardColumn.

Inductive result (A : Type) : Type :=
| Ok (a : A)
| Raise (e : failure).
Arguments Ok {A} a.
Arguments Raise {A} e.

(** [self.date_tolerance], [self.amount_tolerance], [self.auto_clean_gstin]. *)
Record Settings : Type := {
  date_tolerance : Z;
  amount_tolerance : F64.float;
  auto_clean_gstin : bool
}.

(** The settings of [__init__]: 3 days, 1.0 rupee, cleaning on. *)
Definition default_settings : Settings :=
  {| date_tolerance := 3;
     amount_tolerance := F64.of_int 1;
     auto_clean_gstin := true |}.

(** The two calls of [pd.to_datetime] made on a date column, with
    [errors='coerce']: the day-first one and the one with [format='mixed'].
    Both are library functions on a whole column. *)
Record DateParsers : Type := {
  to_datetime_dayfirst : list cell -> list (option Z);
  to_datetime_mixed : list cell -> list (option Z)
}.

(** *** [clean_gstin] *)

(** [re.fullmatch] of a pattern made of one character class per position. *)
Fixpoint fullmatch (classes : list (ascii -> bool)) (s : string) : bool :=
  match classes, s with
  | [], EmptyString => true
  | p :: ps, String c r => p c && fullmatch ps r
  | _, _ => false
  end.

Definition is_alnum_upper (c : ascii) : bool := Text.is_digit c || Text.is_upper c.

(** [[0-9]{2}[A-Z]{5}[0-9]{4}[A-Z]{1}[1-9A-Z]{1}Z[0-9A-Z]{1}] *)
Definition gstin_pattern : list (ascii -> bool) :=
  repeat Text.is_digit 2 ++ repeat Text.is_upper 5 ++ repeat Text.is_digit 4 ++
  [Text.is_upper; (fun c => Text.in_range 49 57 c || Text.is_upper c);
   Ascii.eqb "Z"; is_alnum_upper].

Definition gstin_well_formed (gstin : string) : bool :=
  Nat.eqb (String.length gstin) 15 && Text.isdigit (Text.take 2 gstin) &&
  fullmatch gstin_pattern gstin.

(** Returns the cleaned identifier and the messages passed to [log_message]. *)
Definition clean_gstin (gstin : cell) : string * list string :=
  if isna gstin || Text.isin (Text.lower (Text.strip (str gstin))) [""; "nan"; "none"]
  then ("", [])
  else
    let gstin := Text.upper (Text.strip (str gstin)) in
    let gstin := Text.sfilter is_alnum_upper gstin in
    let gstin :=
      if Nat.ltb 15 (String.length gstin) then Text.take 15 gstin
      else if Nat.ltb (String.length gstin) 15 then Text.ljust 15 "X" gstin
      else gstin in
    if gstin_well_formed gstin then (gstin, [])
    else (gstin, ["Warning: GSTIN '" +:+ gstin +:+ "' appears to be invalid after cleaning."]).

(** *** [clean_and_transform_data] *)

Definition books : string := "Books".

Definition standard_columns_map (source : string) : list (string * list string) :=
  [ ("invoice_no", ["invoice no"; "invoiceno"; "bill no"; "billno"; "invoice"]);
    ("invoice_date", ["invoice date"; "invoicedate"; "bill date"; "billdate"; "date"]);
    ("supplier_gstin", ["supplier gstin"; "suppliergstin"; "gstin"; "party gstin"; "receiver gstin"]);
    ("taxable_value", ["taxable value"; "taxablevalue"; "value"; "net amount"]);
    ("cgst", ["cgst"; "central tax"]);
    ("sgst", ["sgst"; "state tax"]);
    ("igst", ["igst"; "integrated tax"]);
    ("total_amount", ["total amount"; "totalamount"; "amount"; "gross amount"]);
    ("place_of_supply", ["place of supply"; "placeofsupply"; "pos"]) ] ++
  (if String.eqb source books
   then [("book_entry_date", ["book entry date"; "bookentrydate"; "entry date"; "accounting date"])]
   else []).

(** The columns of the frame returned for an empty input. *)
Definition standard_columns (source : string) : list string :=
  ["invoice_no"; "invoice_date"; "supplier_gstin"; "taxable_value";
   "cgst"; "sgst"; "igst"; "total_amount"; "place_of_supply"] ++
  (if String.eqb source books then ["book_entry_date"] else []) ++ ["match_key"].

(** [s.replace(' ', '')]. *)
Definition remove_spaces (s : string) : string :=
  Text.sfilter (fun c => negb (Ascii.eqb c " ")) s.

(** [columns.str.strip().str.lower().str.replace(r'[^a-z0-9]', '', regex=True)] *)
Definition normalize_colname (c : string) : string :=
  Text.sfilter (fun ch => Text.is_lower ch || Text.is_digit ch) (Text.lower (Text.strip c)).

Definition reverse_standard_map (source : string) : gmap string string :=
  foldl (fun m entry =>
           foldl (fun m var => <[Text.lower (remove_spaces var) := fst entry]> m)
                 m (snd entry))
        ∅ (standard_columns_map source).

Definition standard_name (source : string) (col : string) : string :=
  default col (reverse_standard_map source !! Text.lower (remove_spaces col)).

(** [df.loc[mask, col] = values], the mask being the null entries of the
    column and [values] being indexed by the masked rows. *)
Fixpoint loc_assign_na (col values : list (option Z)) : list (option Z) :=
  match col with
  | [] => []
  | Some t :: rest => Some t :: loc_assign_na rest values
  | None :: rest =>
      match values with
      | v :: vs => v :: loc_assign_na rest vs
      | [] => None :: loc_assign_na rest []
      end
  end.

(** The conversion of one date column: the day-first parse is stored in the
    column, then the entries of the column that are null are parsed again
    with the mixed format and stored back. *)
Definition convert_date_column (P : DateParsers) (col : list cell) : list cell :=
  let parsed := to_datetime_dayfirst P col in
  let still_nat := filter (fun c => isna c = true) (map CTime parsed) in
  map CTime (loc_assign_na parsed (to_datetime_mixed P still_nat)).

(** [.str.replace(r'[^\d.]', '', regex=True)] *)
Definition numeric_char (c : ascii) : bool := Text.is_digit c || Ascii.eqb c ".".

Definition strip_non_numeric (s : string) : string := Text.sfilter numeric_char s.

(** [pd.to_numeric(s, errors='coerce')] on a string of digits and points:
    the nearest binary64 value of the numeral, NaN when it is not one. *)
Definition to_numeric (s : string) : F64.float :=
  match float_of_str s with
  | Some f => f
  | None => F64.nan
  end.

(** One cell of a numeric column, given its text:
    [to_numeric(...).fillna(0.0).astype(float)]. *)
Definition clean_number (s : string) : F64.float :=
  let f := to_numeric (strip_non_numeric s) in
  if F64.is_nan f then F64.zero else f.

Definition convert_numeric_column (col : list cell) : list cell :=
  map (fun s => CFloat (clean_number s)) (astype_str col).

Definition null_keys : list string := [""; "None"; "nan"].

(** One cell of [match_key] from the texts of the invoice number and of the
    identifier; [None] is the NaN that marks an undefined key. *)
Definition build_match_key (invoice_no supplier_gstin : string) : option string :=
  if Text.isin invoice_no null_keys || Text.isin supplier_gstin null_keys
  then None
  else Some (invoice_no +:+ "_" +:+ supplier_gstin).

Definition key_cell (k : option string) : cell :=
  match k with
  | Some s => CStr s
  | None => CFloat F64.nan
  end.

Definition date_cols (source : string) : list string :=
  ["invoice_date"] ++ (if String.eqb source books then ["book_entry_date"] else []).

Definition numeric_cols : list string :=
  ["taxable_value"; "cgst"; "sgst"; "igst"; "total_amount"].

(** [for std_name in ...: if std_name not in df.columns: df[std_name] = None] *)
Definition ensure_columns (n : nat) (names : list string) (df : DataFrame) : DataFrame :=
  foldl (fun df std => if has_col std df then df else set_col std (repeat CNone n) df)
        df names.

(** The identifier column: [apply(self.clean_gstin)] when cleaning is on,
    [fillna('').astype(str)] otherwise; each value comes with the messages
    logged for it. *)
Definition gstin_column (cfg : Settings) (col : list cell) : list (string * list string) :=
  if auto_clean_gstin cfg then map clean_gstin col
  else map (fun s => (s, [])) (astype_str (fillna (CStr "") col)).

Definition match_key_column (invoice_no supplier_gstin : list string) : list cell :=
  map (fun p => key_cell (build_match_key (fst p) (snd p))) (zip invoice_no supplier_gstin).

(** The steps of [clean_and_transform_data] after the columns are named. *)
Definition convert_dates (P : DateParsers) (source : string) (df : DataFrame) : DataFrame :=
  foldl (fun df col => set_col col (convert_date_column P (get_col col df)) df)
        df (date_cols source).

Definition convert_numbers (df : DataFrame) : DataFrame :=
  foldl (fun df col => set_col col (convert_numeric_column (get_col col df)) df)
        df numeric_cols.

Definition clean_identifiers (cfg : Settings) (df : DataFrame) : DataFrame :=
  set_col "supplier_gstin"
    (map (fun r => CStr (fst r)) (gstin_column cfg (get_col "supplier_gstin" df))) df.

Definition add_match_key (df : DataFrame) : DataFrame :=
  let invoice_no := astype_str (get_col "invoice_no" df) in
  let supplier_gstin := astype_str (get_col "supplier_gstin" df) in
  let df := set_col "invoice_no" (map CStr invoice_no) df in
  let df := set_col "supplier_gstin" (map CStr supplier_gstin) df in
  set_col "match_key" (match_key_column invoice_no supplier_gstin) df.

Definition fill_place_of_supply (df : DataFrame) : DataFrame :=
  set_col "place_of_supply"
    (map CStr (astype_str (fillna (CStr "") (get_col "place_of_supply" df)))) df.

(** [df[[c for c in names if c in df.columns]].reindex(columns=names)], every
    name being a column of [df]. *)
Definition select_columns (names : list string) (df : DataFrame) : DataFrame :=
  map (fun c => (c, get_col c df)) names.

(** Returns the normalised frame and the messages logged on the way, or
    raises.  [custom_mapping] is the list of the entries of the dictionary,
    empty for [None]. *)
Definition clean_and_transform_data (P : DateParsers) (cfg : Settings)
    (df : DataFrame) (source : string) (custom_mapping : list (string * string))
  : result (DataFrame * list string) :=
  if empty df then Ok (map (fun n => (n, [])) (standard_columns source), [])
  else
    let std_names := map fst (standard_columns_map source) in
    let n := nrows df in
    let df := rename normalize_colname df in
    match custom_mapping with
    | _ :: _ => Raise CustomMappingTypeError
    | [] =>
        let df := rename (standard_name source) df in
        if existsb (fun std => Nat.ltb 1 (count_col std df)) std_names
        then Raise DuplicateStandardColumn
        else
          let df := ensure_columns n std_names df in
          let df := convert_dates P source df in
          let df := convert_numbers df in
          let log := concat (map snd (gstin_column cfg (get_col "supplier_gstin" df))) in
          let df := clean_identifiers cfg df in
          let df := add_match_key df in
          let df := fill_place_of_supply df in
          Ok (select_columns (std_names ++ ["match_key"]) df, log)
    end.

(** The frame on which the conversions of [clean_and_transform_data] work:
    labels normalised and mapped to the standard names, missing standard
    columns added. *)
Definition prepare (source : string) (df : DataFrame) : DataFrame :=
  ensure_columns (nrows df) (map fst (standard_columns_map source))
    (rename (standard_name source) (rename normalize_colname df)).

(** The columns of the result, written out one by one from the prepared
    frame. *)
Definition normalized_columns (P : DateParsers) (cfg : Settings) (source : string)
    (df : DataFrame) : DataFrame :=
  let invoice_no := astype_str (get_col "invoice_no" df) in
  let supplier_gstin :=
    astype_str (map (fun r => CStr (fst r))
                    (gstin_column cfg (get_col "supplier_gstin" df))) in
  [ ("invoice_no", map CStr invoice_no);
    ("invoice_date", convert_date_column P (get_col "invoice_date" df));
    ("supplier_gstin", map CStr supplier_gstin);
    ("taxable_value", convert_numeric_column (get_col "taxable_value" df));
    ("cgst", convert_numeric_column (get_col "cgst" df));
    ("sgst", convert_numeric_column (get_col "sgst" df));
    ("igst", convert_numeric_column (get_col "igst" df));
    ("total_amount", convert_numeric_column (get_col "total_amount" df));
    ("place_of_supply",
     map CStr (astype_str (fillna (CStr "") (get_col "place_of_supply" df)))) ] ++
  (if String.eqb source books
   then [("book_entry_date", convert_date_column P (get_col "book_entry_date" df))]
   else []) ++
  [ ("match_key", match_key_column invoice_no supplier_gstin) ].


Definition mixed_keeps_nat (P : DateParsers) : Prop :=
  forall n, to_datetime_mixed P (repeat (CTime None) n) = repeat None n.

(** The float is read back from its own text by the numeric conversion. *)
Definition reads_back (f : F64.float) : Prop := clean_number (F64.repr f) = f.

(** Every column has [n] rows. *)
Definition well_formed (n : nat) (df : DataFrame) : Prop :=
  Forall (fun c => length (snd c) = n) df.

(** *** The ledgers *)

(** One row of [self.gstr2a_data] or [self.books_data]; [match_key] is
    [None] where the column holds NaN.  The column [book_entry_date] of the
    Books ledger is not read by the reconciliation and is left out. *)
Record Invoice : Type := {
  invoice_no : string;
  invoice_date : option Z;
  supplier_gstin : string;
  taxable_value : F64.float;
  cgst : F64.float;
  sgst : F64.float;
  igst : F64.float;
  total_amount : F64.float;
  place_of_supply : string;
  match_key : option string
}.

Definition cell_text (c : cell) : string :=
  match c with CStr s => s | _ => "" end.
Definition cell_time (c : cell) : option Z :=
  match c with CTime t => t | _ => None end.
Definition cell_float (c : cell) : F64.float :=
  match c with CFloat f => f | _ => F64.nan end.
Definition cell_key (c : cell) : option string :=
  match c with CStr s => Some s | _ => None end.

(** The rows of a normalised frame, in order ([iterrows]). *)
Definition rows (df : DataFrame) : list Invoice :=
  map (fun i =>
         let at_ (name : string) := default CNone (get_col name df !! i) in
         {| invoice_no := cell_text (at_ "invoice_no");
            invoice_date := cell_time (at_ "invoice_date");
            supplier_gstin := cell_text (at_ "supplier_gstin");
            taxable_value := cell_float (at_ "taxable_value");
            cgst := cell_float (at_ "cgst");
            sgst := cell_float (at_ "sgst");
            igst := cell_float (at_ "igst");
            total_amount := cell_float (at_ "total_amount");
            place_of_supply := cell_text (at_ "place_of_supply");
            match_key := cell_key (at_ "match_key") |})
      (seq 0 (nrows df)).

(** *** [perform_reconciliation] *)

(** One dictionary appended to [results]. *)
Record Discrepancy : Type := {
  d_invoice_no : string;
  d_source : string;
  d_issue_type : string;
  d_gstr2a_date : option Z;
  d_books_date : option Z;
  d_gstr2a_gstin : string;
  d_books_gstin : string;
  d_amount_diff : F64.float;
  d_tax_diff : F64.float;
  d_details : string
}.

(** [data.dropna(subset=['match_key'])]: the rows that have a key, with it. *)
Definition dropna (data : list Invoice) : list (string * Invoice) :=
  omap (fun r => match match_key r with
                 | Some k => Some (k, r)
                 | None => None
                 end) data.

Definition count_key (k : string) (data : list (string * Invoice)) : nat :=
  length (filter (fun kr => String.eqb (fst kr) k = true) data).

(** [data[data.duplicated(subset=['match_key'], keep=False)]] *)
Definition duplicated_rows (data : list (string * Invoice)) : list (string * Invoice) :=
  filter (fun kr => Nat.ltb 1 (count_key (fst kr) data) = true) data.

(** [data.drop_duplicates(subset=['match_key'], keep='first')] *)
Fixpoint drop_duplicates_from (seen : list string) (data : list (string * Invoice))
  : list (string * Invoice) :=
  match data with
  | [] => []
  | kr :: rest =>
      if Text.isin (fst kr) seen then drop_duplicates_from seen rest
      else kr :: drop_duplicates_from (fst kr :: seen) rest
  end.

Definition drop_duplicates : list (string * Invoice) -> list (string * Invoice) :=
  drop_duplicates_from [].

(** [set(data['match_key'])] *)
Definition key_set (data : list (string * Invoice)) : gset string :=
  list_to_set (map fst data).

(** [data[data['match_key'] == key].iloc[0]]; [None] stands for the
    [IndexError] of an absent key. *)
Definition first_row (key : string) (data : list (string * Invoice)) : option Invoice :=
  match filter (fun kr => String.eqb (fst kr) key = true) data with
  | kr :: _ => Some (snd kr)
  | [] => None
  end.

Definition tax_total (r : Invoice) : F64.float :=
  F64.add (F64.add (cgst r) (sgst r)) (igst r).

Definition duplicate_gstr2a (r : Invoice) : Discrepancy :=
  {| d_invoice_no := invoice_no r;
     d_source := "GSTR-2A";
     d_issue_type := "Duplicate in GSTR-2A";
     d_gstr2a_date := invoice_date r;
     d_books_date := None;
     d_gstr2a_gstin := supplier_gstin r;
     d_books_gstin := "";
     d_amount_diff := F64.zero;
     d_tax_diff := F64.zero;
     d_details := "Duplicate invoice found in GSTR-2A data." |}.

Definition duplicate_books (r : Invoice) : Discrepancy :=
  {| d_invoice_no := invoice_no r;
     d_source := "Books";
     d_issue_type := "Duplicate in Books";
     d_gstr2a_date := None;
     d_books_date := invoice_date r;
     d_gstr2a_gstin := "";
     d_books_gstin := supplier_gstin r;
     d_amount_diff := F64.zero;
     d_tax_diff := F64.zero;
     d_details := "Duplicate invoice found in Books data." |}.

Definition missing_in_books (r : Invoice) : Discrepancy :=
  {| d_invoice_no := invoice_no r;
     d_source := "GSTR-2A";
     d_issue_type := "Missing in Books";
     d_gstr2a_date := invoice_date r;
     d_books_date := None;
     d_gstr2a_gstin := supplier_gstin r;
     d_books_gstin := "";
     d_amount_diff := total_amount r;
     d_tax_diff := tax_total r;
     d_details := "Invoice found in GSTR-2A but not in Books." |}.

Definition missing_in_gstr2a (r : Invoice) : Discrepancy :=
  {| d_invoice_no := invoice_no r;
     d_source := "Books";
     d_issue_type := "Missing in GSTR-2A";
     d_gstr2a_date := None;
     d_books_date := invoice_date r;
     d_gstr2a_gstin := "";
     d_books_gstin := supplier_gstin r;
     d_amount_diff := F64.opp (total_amount r);
     d_tax_diff := F64.opp (tax_total r);
     d_details := "Invoice found in Books but not in GSTR-2A." |}.

(** The text of the exception that pandas raises when the difference of two
    timestamps does not fit a [Timedelta]. *)
Definition out_of_bounds_timedelta : string :=
  "Result is too large for pandas.Timedelta. Convert inputs to datetime.datetime with 'Timestamp.to_pydatetime()' before subtracting.".

(** The date check of a common key.  Both dates are timestamps already, so
    the inner [pd.to_datetime] returns them and the branch of a failed
    conversion is not taken.  A timestamp and a [Timedelta] hold a signed
    64-bit count of nanoseconds: a difference outside that range makes the
    subtraction raise, which the [except] branch reports; the least 64-bit
    value is the null [Timedelta], whose [.days] is NaN and exceeds no
    tolerance; otherwise [.days] is the floor of the difference in days. *)
Definition date_issues (cfg : Settings) (gstr_date book_date : option Z) : list string :=
  match gstr_date, book_date with
  | Some g, Some b =>
      let diff := g - b in
      if (diff <? - 2 ^ 63) || (2 ^ 63 - 1 <? diff)
      then ["Date comparison error: " +:+ out_of_bounds_timedelta]
      else if diff =? - 2 ^ 63 then []
      else
        let date_diff := diff / ns_per_day in
        if date_tolerance cfg <? Z.abs date_diff
        then ["Date diff: " +:+ Text.str_of_int (Z.abs date_diff) +:+ " days"]
        else []
  | None, None => []
  | _, _ => ["One invoice date missing"]
  end.

Definition compared_gstin (r : Invoice) : string :=
  Text.upper (Text.strip (supplier_gstin r)).

Definition gstin_issues (gstr_row book_row : Invoice) : list string :=
  if String.eqb (compared_gstin gstr_row) (compared_gstin book_row) then []
  else ["GSTIN mismatch"].

Definition amount_diff (gstr_row book_row : Invoice) : F64.float :=
  F64.sub (total_amount gstr_row) (total_amount book_row).

Definition amount_issues (cfg : Settings) (gstr_row book_row : Invoice) : list string :=
  let d := amount_diff gstr_row book_row in
  if F64.ltb (amount_tolerance cfg) (F64.abs d)
  then ["Amount diff: ₹" +:+ F64.format_2f d]
  else [].

Definition tax_diff (gstr_row book_row : Invoice) : F64.float :=
  F64.sub (tax_total gstr_row) (tax_total book_row).

Definition tax_issues (cfg : Settings) (gstr_row book_row : Invoice) : list string :=
  let d := tax_diff gstr_row book_row in
  if F64.ltb (amount_tolerance cfg) (F64.abs d)
  then ["Tax diff: ₹" +:+ F64.format_2f d]
  else [].

Definition issues_of (cfg : Settings) (gstr_row book_row : Invoice) : list string :=
  date_issues cfg (invoice_date gstr_row) (invoice_date book_row) ++
  gstin_issues gstr_row book_row ++
  amount_issues cfg gstr_row book_row ++
  tax_issues cfg gstr_row book_row.

(** The body of the loop over the common keys: the rows appended for one
    pair of rows. *)
Definition compare_rows (cfg : Settings) (gstr_row book_row : Invoice) : list Discrepancy :=
  match issues_of cfg gstr_row book_row with
  | [] => []
  | issues =>
      [ {| d_invoice_no := invoice_no gstr_row;
           d_source := "Both";
           d_issue_type := Text.join ", " issues;
           d_gstr2a_date := invoice_date gstr_row;
           d_books_date := invoice_date book_row;
           d_gstr2a_gstin := compared_gstin gstr_row;
           d_books_gstin := compared_gstin book_row;
           d_amount_diff := amount_diff gstr_row book_row;
           d_tax_diff := tax_diff gstr_row book_row;
           d_details := Text.join "; " issues |} ]
  end.

(** [for key in keys: row = data[...].iloc[0]; results.append(make(row))] *)
Definition for_keys (keys : list string) (data : list (string * Invoice))
    (make : Invoice -> list Discrepancy) : list Discrepancy :=
  concat (map (fun key => match first_row key data with
                          | Some row => make row
                          | None => []
                          end) keys).

Section Reconciliation.

(** The order in which a [for] loop visits a Python set; the language leaves
    it unspecified. *)
Variable set_iter : gset string -> list string.

Definition gstr2a_duplicates (gstr2a_data : list Invoice) : list Discrepancy :=
  map (fun kr => duplicate_gstr2a (snd kr)) (duplicated_rows (dropna gstr2a_data)).

Definition books_duplicates (books_data : list Invoice) : list Discrepancy :=
  map (fun kr => duplicate_books (snd kr)) (duplicated_rows (dropna books_data)).

Definition missing_in_books_results (gstr2a_data books_data : list Invoice)
  : list Discrepancy :=
  let gstr_data_unique := drop_duplicates (dropna gstr2a_data) in
  let books_data_unique := drop_duplicates (dropna books_data) in
  let missing_in_books_keys := key_set gstr_data_unique ∖ key_set books_data_unique in
  for_keys (set_iter missing_in_books_keys) gstr_data_unique
           (fun row => [missing_in_books row]).

Definition missing_in_gstr2a_results (gstr2a_data books_data : list Invoice)
  : list Discrepancy :=
  let gstr_data_unique := drop_duplicates (dropna gstr2a_data) in
  let books_data_unique := drop_duplicates (dropna books_data) in
  let missing_in_gstr2a_keys := key_set books_data_unique ∖ key_set gstr_data_unique in
  for_keys (set_iter missing_in_gstr2a_keys) books_data_unique
           (fun row => [missing_in_gstr2a row]).

Definition mismatch_results (cfg : Settings) (gstr2a_data books_data : list Invoice)
  : list Discrepancy :=
  let gstr_data_unique := drop_duplicates (dropna gstr2a_data) in
  let books_data_unique := drop_duplicates (dropna books_data) in
  let common_keys := key_set gstr_data_unique ∩ key_set books_data_unique in
  concat (map (fun key =>
                 match first_row key gstr_data_unique, first_row key books_data_unique with
                 | Some gstr_row, Some book_row => compare_rows cfg gstr_row book_row
                 | _, _ => []
                 end) (set_iter common_keys)).

Definition perform_reconciliation (cfg : Settings) (gstr2a_data books_data : list Invoice)
  : list Discrepancy :=
  gstr2a_duplicates gstr2a_data ++
  books_duplicates books_data ++
  missing_in_books_results gstr2a_data books_data ++
  missing_in_gstr2a_results gstr2a_data books_data ++
  mismatch_results cfg gstr2a_data books_data.

End Reconciliation.

(** An issue of the given kind is among [issues]: the texts of the date,
    amount and tax issues start with "Date diff", "Amount diff", "Tax diff". *)
Definition flagged (kind : string) (issues : list string) : bool :=
  existsb (String.prefix kind) issues.

(** The same discrepancy seen with the two sources exchanged: labels, dates
    and identifiers change sides and the signed differences change sign. *)
Definition swap_text (a b s : string) : string :=
  if String.eqb s a then b else if String.eqb s b then a else s.

Definition mirror (d : Discrepancy) : Discrepancy :=
  {| d_invoice_no := d_invoice_no d;
     d_source := swap_text "GSTR-2A" "Books" (d_source d);
     d_issue_type := swap_text "Missing in Books" "Missing in GSTR-2A" (d_issue_type d);
     d_gstr2a_date := d_books_date d;
     d_books_date := d_gstr2a_date d;
     d_gstr2a_gstin := d_books_gstin d;
     d_books_gstin := d_gstr2a_gstin d;
     d_amount_diff := F64.opp (d_amount_diff d);
     d_tax_diff := F64.opp (d_tax_diff d);
     d_details := swap_text "Invoice found in GSTR-2A but not in Books."
                            "Invoice found in Books but not in GSTR-2A." (d_details d) |}.

(** The ledger rows carry the key that [clean_and_transform_data] builds. *)
Definition keyed (data : list Invoice) : Prop :=
  Forall (fun r => match_key r = build_match_key (invoice_no r) (supplier_gstin r)) data.

(** How many rows of a ledger carry the key [k]. *)
Definition occurrences (k : string) (data : list Invoice) : nat :=
  length (filter (fun r => match_key r = Some k) data).

(** [r] is the first row of the ledger that carries the key [k]. *)
Definition first_with_key (k : string) (r : Invoice) (data : list Invoice) : Prop :=
  exists before after,
    data = before ++ r :: after /\
    match_key r = Some k /\
    Forall (fun x => match_key x <> Some k) before.

(** The key of the row a duplicate was reported for, from the fields of the
    report. *)
Definition gstr2a_key (d : Discrepancy) : string :=
  d_invoice_no d +:+ "_" +:+ d_gstr2a_gstin d.

Definition books_key (d : Discrepancy) : string :=
  d_invoice_no d +:+ "_" +:+ d_books_gstin d.

(** *** [get_summary_text] *)

(** [series.str.contains(pat, case=False, na=False)] for a literal pattern. *)
Definition contains_nocase (pat s : string) : bool :=
  Text.contains (Text.lower pat) (Text.lower s).

Definition count_where (p : string -> bool) (results : list Discrepancy) : nat :=
  length (filter (fun d => p (d_issue_type d) = true) results).

(** What [Series.sum()] does on a column of floats is the library's: pandas
    puts 0.0 in the place of the NaN entries and numpy adds the entries up in
    binary64, from zero, in an order of its own (a column of eight entries or
    more is added in eight interleaved partial sums, in blocks and pairwise).
    [adds_up values total] says that [total] is a sum of the entries of
    [values], in some order and under some bracketing, a NaN entry counting
    as a zero and zeros being added anywhere. *)
Definition is_zero (f : F64.float) : bool :=
  match f with S754_zero _ => true | _ => false end.

Inductive adds_up : list F64.float -> F64.float -> Prop :=
| adds_zero (z : F64.float) : is_zero z = true -> adds_up [] z
| adds_entry (v : F64.float) : F64.is_nan v = false -> adds_up [v] v
| adds_nan (v z : F64.float) : F64.is_nan v = true -> is_zero z = true -> adds_up [v] z
| adds_both (l1 l2 : list F64.float) (t1 t2 : F64.float) :
    adds_up l1 t1 -> adds_up l2 t2 -> adds_up (l1 ++ l2) (F64.add t1 t2)
| adds_reordered (l1 l2 : list F64.float) (t : F64.float) :
    l1 ≡ₚ l2 -> adds_up l1 t -> adds_up l2 t.

(** The sum of a list of whole numbers. *)
Definition sum_of (zs : list Z) : Z := foldr Z.add 0 zs.

(** The figures that [get_summary_text] prints. *)
Record Summary : Type := {
  total_discrepancies : nat;
  n_missing_in_books : nat;
  n_missing_in_gstr2a : nat;
  n_date_mismatch : nat;
  n_amount_tax_mismatch : nat;
  n_gstin_mismatch : nat;
  n_duplicates : nat;
  total_amount_diff : F64.float;
  total_tax_diff : F64.float;
  used_date_tolerance : Z;
  used_amount_tolerance : F64.float
}.

Section Summary.

(** [Series.sum()], a function of the library. *)
Variable series_sum : list F64.float -> F64.float.

Definition get_summary_text (cfg : Settings) (results : list Discrepancy) : Summary :=
  {| total_discrepancies := length results;
     n_missing_in_books := count_where (contains_nocase "Missing in Books") results;
     n_missing_in_gstr2a := count_where (contains_nocase "Missing in GSTR-2A") results;
     n_date_mismatch := count_where (contains_nocase "Date diff") results;
     n_amount_tax_mismatch :=
       count_where (fun s => contains_nocase "Amount diff" s || contains_nocase "Tax diff" s)
                   results;
     n_gstin_mismatch := count_where (contains_nocase "GSTIN mismatch") results;
     n_duplicates := count_where (contains_nocase "Duplicate") results;
     total_amount_diff :=
       match results with [] => F64.zero | _ => series_sum (map d_amount_diff results) end;
     total_tax_diff :=
       match results with [] => F64.zero | _ => series_sum (map d_tax_diff results) end;
     used_date_tolerance := date_tolerance cfg;
     used_amount_tolerance := amount_tolerance cfg |}.

End Summary.

(** *** [save_settings] *)

(** What the user is told: the success box, or the error box with its text. *)
Inductive Report : Type :=
| Saved
| Invalid (reason : string).

(** [max(0.0, x)]: the first argument unless the second is greater. *)
Definition max_zero (x : F64.float) : F64.float :=
  if F64.ltb F64.zero x then x else F64.zero.

Definition save_settings (st : Settings) (date_tol_str amount_tol_str : string)
    (auto_clean_var : Z) : Settings * Report :=
  if negb (Text.isdigit date_tol_str)
  then (st, Invalid "Date tolerance must be a whole number.")
  else
    let st := {| date_tolerance := Z.max 0 (Text.int_of_digits date_tol_str);
                 amount_tolerance := amount_tolerance st;
                 auto_clean_gstin := auto_clean_gstin st |} in
    match float_of_str amount_tol_str with
    | None => (st, Invalid "Amount/Tax tolerance must be a number.")
    | Some x =>
        ({| date_tolerance := date_tolerance st;
            amount_tolerance := max_zero x;
            auto_clean_gstin := negb (auto_clean_var =? 0) |}, Saved)
    end.

(** *** The ledgers as frames: [__init__], [clear_gstr2a_import], [clear_books_import] *)

(** The row of index [i] of a ledger frame, as [rows] reads it. *)
Definition row_at (df : DataFrame) (i : nat) : Invoice :=
  let at_ (name : string) := default CNone (get_col name df !! i) in
  {| invoice_no := cell_text (at_ "invoice_no");
     invoice_date := cell_time (at_ "invoice_date");
     supplier_gstin := cell_text (at_ "supplier_gstin");
     taxable_value := cell_float (at_ "taxable_value");
     cgst := cell_float (at_ "cgst");
     sgst := cell_float (at_ "sgst");
     igst := cell_float (at_ "igst");
     total_amount := cell_float (at_ "total_amount");
     place_of_supply := cell_text (at_ "place_of_supply");
     match_key := cell_key (at_ "match_key") |}.

(** [pd.DataFrame(columns=[...])]: the ledger that [__init__] creates and
    that clearing restores, with the columns of the schema and no row. *)
Definition empty_ledger (source : string) : DataFrame :=
  map (fun n => (n, [])) (standard_columns source).

(** A ledger frame as the commands keep it: the columns of the schema, all
    of the same length, and on every row the key built from its invoice
    number and its identifier. *)
Definition ledger_ok (source : string) (data : DataFrame) : Prop :=
  columns data = standard_columns source /\
  well_formed (nrows data) data /\
  keyed (rows data).

(** The answer to [messagebox.askyesno] is [confirmed]. *)
Definition clear_import (source : string) (confirmed : bool) (data : DataFrame) : DataFrame :=
  if confirmed then empty_ledger source else data.

Definition clear_gstr2a_import : bool -> DataFrame -> DataFrame := clear_import "GSTR-2A".
Definition clear_books_import : bool -> DataFrame -> DataFrame := clear_import books.

(** What a command shows in its message box: success, the refusal of an
    entry without data, or the exception caught. *)
Inductive Outcome : Type :=
| Done
| NoValidData
| Failed (e : failure).

(** *** [load_gstr2a_data], [load_books_data] *)

(** [{key: var.get().strip() for key, var in vars.items() if var.get().strip()}] *)
Definition custom_mapping_of (mapping_vars : list (string * string)) : list (string * string) :=
  List.filter (fun kv => negb (String.eqb (snd kv) ""))
              (map (fun kv => (fst kv, Text.strip (snd kv))) mapping_vars).

(** The part of the command that follows the reading of the file: [df] is
    the table read, [data] the ledger, to which the normalised table is
    appended. *)
Definition load_data (P : DateParsers) (cfg : Settings) (source : string)
    (data df : DataFrame) (mapping_vars : list (string * string)) : DataFrame * Outcome :=
  match clean_and_transform_data P cfg df source (custom_mapping_of mapping_vars) with
  | Ok (df, _) => (pd_concat data df, Done)
  | Raise e => (data, Failed e)
  end.

Definition load_gstr2a_data (P : DateParsers) (cfg : Settings) :=
  load_data P cfg "GSTR-2A".
Definition load_books_data (P : DateParsers) (cfg : Settings) :=
  load_data P cfg books.

(** *** [add_gstr2a_manual], [add_books_manual] *)

(** The keys of the entry widgets with their placeholders, in the order in
    which the form was built. *)
Definition gstr2a_fields : list (string * string) :=
  [ ("invoice_no", "e.g. INV-2023-001");
    ("invoice_date", "e.g. 15/07/2023");
    ("supplier_gstin", "e.g. 22AAAAA0000A1Z5");
    ("taxable_value", "e.g. 10000.00");
    ("cgst", "e.g. 900.00");
    ("sgst", "e.g. 900.00");
    ("igst", "e.g. 0.00");
    ("total_amount", "e.g. 11800.00");
    ("place_of_supply", "e.g. 07") ].

Definition books_fields : list (string * string) :=
  gstr2a_fields ++ [("book_entry_date", "e.g. 18/07/2023")].

(** [pd.DataFrame([entry_data])]: one row, with under each key the text of
    its widget, stripped, or the empty text when that is the placeholder. *)
Definition entry_data (fields : list (string * string)) (entries : string -> string)
  : DataFrame :=
  map (fun f =>
         let value := Text.strip (entries (fst f)) in
         (fst f, [CStr (if String.eqb value (snd f) then "" else value)]))
      fields.

(** [df.iloc[0].isnull().all()] *)
Definition first_row_all_null (df : DataFrame) : bool :=
  forallb (fun nc => isna (default CNone (snd nc !! 0%nat))) df.

Definition add_manual (P : DateParsers) (cfg : Settings) (source : string)
    (fields : list (string * string)) (data : DataFrame) (entries : string -> string)
  : DataFrame * Outcome :=
  match clean_and_transform_data P cfg (entry_data fields entries) source [] with
  | Ok (df, _) =>
      if empty df || first_row_all_null df then (data, NoValidData)
      else (pd_concat data df, Done)
  | Raise e => (data, Failed e)
  end.

Definition add_gstr2a_manual (P : DateParsers) (cfg : Settings) :=
  add_manual P cfg "GSTR-2A" gstr2a_fields.
Definition add_books_manual (P : DateParsers) (cfg : Settings) :=
  add_manual P cfg books books_fields.

(** *** [delete_gstr2a_manual], [delete_books_manual] *)

(** What the command shows: nothing was selected, the confirmation was
    declined, so many entries were deleted, or none matched. *)
Inductive Deletion : Type :=
| NoSelection
| Declined
| Deleted (deleted_count : nat)
| NoMatch.

(** The key rebuilt from two of the values that the tree shows for a
    selected item: the first, the invoice number, and the third, the
    identifier. *)
Definition selected_match_key (invoice_no supplier_gstin : string) : string :=
  let cleaned_gstin :=
    fst (clean_gstin (CStr (Text.strip (Text.replace "₹" "" supplier_gstin)))) in
  Text.strip invoice_no +:+ "_" +:+ cleaned_gstin.

(** [series.isin(values)] for a list of strings, on one cell. *)
Definition cell_isin (values : list string) (c : cell) : bool :=
  match c with
  | CStr s => Text.isin s values
  | _ => false
  end.

(** [selected] holds, for each selected item, the invoice number and the
    identifier shown; [confirmed] is the answer to [messagebox.askyesno]. *)
Definition delete_manual (data : DataFrame) (selected : list (string * string))
    (confirmed : bool) : DataFrame * Deletion :=
  match selected with
  | [] => (data, NoSelection)
  | _ :: _ =>
      if confirmed then
        let match_keys_to_delete :=
          map (fun v => selected_match_key (fst v) (snd v)) selected in
        let prev_count := nrows data in
        let data :=
          select_rows (map (fun c => negb (cell_isin match_keys_to_delete c))
                           (get_col "match_key" data)) data in
        let deleted_count := (prev_count - nrows data)%nat in
        (data, if Nat.ltb 0 deleted_count then Deleted deleted_count else NoMatch)
      else (data, Declined)
  end.

Definition delete_gstr2a_manual : DataFrame -> list (string * string) -> bool ->
                                  DataFrame * Deletion := delete_manual.
Definition delete_books_manual : DataFrame -> list (string * string) -> bool ->
                                 DataFrame * Deletion := delete_manual.

(** *** [run_reconciliation] *)

Definition required_cols : list string :=
  ["invoice_no"; "supplier_gstin"; "invoice_date"; "taxable_value"; "cgst"; "sgst"; "igst";
   "total_amount"; "match_key"].

(** How a run ends: refused because a ledger is empty, refused because a
    ledger lacks required columns, or completed with its results. *)
Inductive Run : Type :=
| DataMissing
| ColumnsMissing (source : string) (missing_cols : list string)
| Completed (results : list Discrepancy).

Definition run_reconciliation (set_iter : gset string -> list string) (cfg : Settings)
    (gstr2a_data books_data : DataFrame) : Run :=
  if empty gstr2a_data || empty books_data then DataMissing
  else
    let gstr2a_missing_cols :=
      List.filter (fun col => negb (has_col col gstr2a_data)) required_cols in
    let books_missing_cols :=
      List.filter (fun col => negb (has_col col books_data)) required_cols in
    match gstr2a_missing_cols, books_missing_cols with
    | _ :: _, _ => ColumnsMissing "GSTR-2A" gstr2a_missing_cols
    | [], _ :: _ => ColumnsMissing "Books" books_missing_cols
    | [], [] =>
        Completed (perform_reconciliation set_iter cfg (rows gstr2a_data) (rows books_data))
    end.

(** *** [update_results_ui] *)

(** The values of one line of a tree. *)
Definition tree_values (d : Discrepancy) : list string :=
  let date_text (t : option Z) :=
    match t with Some ts => strftime_dmy ts | None => "" end in
  [ d_invoice_no d; d_source d; d_issue_type d;
    date_text (d_gstr2a_date d); date_text (d_books_date d);
    d_gstr2a_gstin d; d_books_gstin d;
    "₹" +:+ F64.format_comma_2f (d_amount_diff d);
    "₹" +:+ F64.format_comma_2f (d_tax_diff d);
    d_details d ].

(** The tree, besides the one of all discrepancies, that receives a
    discrepancy of the given issue type. *)
Definition specific_tree (issue_type : string) : option string :=
  let issue_type_lower := Text.lower issue_type in
  if Text.contains "missing in books" issue_type_lower then Some "missing_in_books"
  else if Text.contains "missing in gstr2a" issue_type_lower then Some "missing_in_gstr2a"
  else if Text.contains "date" issue_type_lower && Text.contains "mismatch" issue_type_lower
  then Some "date_mismatch"
  else if (Text.contains "amount" issue_type_lower || Text.contains "tax" issue_type_lower)
          && Text.contains "mismatch" issue_type_lower
  then Some "amount_mismatch"
  else if Text.contains "gstin mismatch" issue_type_lower then Some "gstin_mismatch"
  else if Text.contains "duplicate" issue_type_lower then Some "duplicates"
  else None.

(** The lines inserted, in order, each with the name of its tree; the
    trees were emptied before. *)
Definition update_results_ui (results : list Discrepancy) : list (string * list string) :=
  concat (map (fun d =>
                 ("all", tree_values d) ::
                 match specific_tree (d_issue_type d) with
                 | Some tree => [(tree, tree_values d)]
                 | None => []
                 end) results).

(** *** [generate_visualizations_charts] *)

(** [x.split(',')[0].strip()], the label under which the charts of the
    discrepancy types and of their financial impact put a row. *)
Definition primary_issue_type (x : string) : string :=
  Text.strip (Text.split_first "," x).

End App.

(** ** Sample data *)

Module Sample.
Import Py Frame App.

(** Text of the form DD/MM/YYYY. *)
Definition parse_dmy (s : string) : option Z :=
  match s with
  | String d1 (String d2 (String "/" (String m1 (String m2 (String "/" y))))) =>
      let dd := String d1 (String d2 EmptyString) in
      let mm := String m1 (String m2 EmptyString) in
      if Text.isdigit dd && Text.isdigit mm && Text.isdigit y && Nat.eqb (String.length y) 4
      then Some (days_from_civil (Text.int_of_digits y) (Text.int_of_digits mm)
                                 (Text.int_of_digits dd) * ns_per_day)
      else None
  | _ => None
  end.

(** Text of the form YYYY-MM-DD. *)
Definition parse_ymd (s : string) : option Z :=
  match s with
  | String y1 (String y2 (String y3 (String y4 (String "-"
      (String m1 (String m2 (String "-" (String d1 (String d2 EmptyString))))))))) =>
      let yy := String y1 (String y2 (String y3 (String y4 EmptyString))) in
      let dd := String d1 (String d2 EmptyString) in
      let mm := String m1 (String m2 EmptyString) in
      if Text.isdigit dd && Text.isdigit mm && Text.isdigit yy
      then Some (days_from_civil (Text.int_of_digits yy) (Text.int_of_digits mm)
                                 (Text.int_of_digits dd) * ns_per_day)
      else None
  | _ => None
  end.

(** A small pair of date parsers for the examples: timestamps are kept, the
    day-first parser reads DD/MM/YYYY and the mixed one reads YYYY-MM-DD as
    well; anything else is coerced to the null timestamp. *)
Definition parsers : DateParsers :=
  {| to_datetime_dayfirst :=
       map (fun c => match c with
                     | CTime t => t
                     | CStr s => parse_dmy s
                     | _ => None
                     end);
     to_datetime_mixed :=
       map (fun c => match c with
                     | CTime t => t
                     | CStr s => match parse_dmy s with
                                 | Some t => Some t
                                 | None => parse_ymd s
                                 end
                     | _ => None
                     end) |}.


(** A table with one ordinary invoice. *)
Definition one_invoice_table : DataFrame :=
  [("Invoice No", [CStr "INV-001"]);
   ("Invoice Date", [CStr "15/07/2023"]);
   ("GSTIN", [CStr "22aaaaa0000a1z5"]);
   ("CGST", [CInt 900]);
   ("SGST", [CFloat (F64.of_int 900)]);
   ("Total Amount", [CStr "-11,800.00"])].

Definition day (y m d : Z) : option Z := Some (days_from_civil y m d * ns_per_day).

Definition rupees (n : Z) : F64.float := F64.of_int n.

Definition invoice (no : string) (date : option Z) (gstin : string)
    (taxable c s i total : F64.float) : Invoice :=
  {| invoice_no := no; invoice_date := date; supplier_gstin := gstin;
     taxable_value := taxable; cgst := c; sgst := s; igst := i;
     total_amount := total; place_of_supply := "";
     match_key := build_match_key no gstin |}.

Definition inv001 (date : option Z) (total : Z) : Invoice :=
  invoice "INV-001" date "22AAAAA0000A1Z5" (rupees 10000) (rupees 900) (rupees 900)
          (rupees 0) (rupees total).

(** A GSTR-2A ledger of three rows: two with the same key and one, between
    them, without invoice number, identifier and key. *)
Definition small_ledger : DataFrame :=
  [("invoice_no", [CStr "INV-001"; CStr ""; CStr "INV-001"]);
   ("invoice_date", [CTime (day 2023 7 15); CTime None; CTime (day 2023 7 16)]);
   ("supplier_gstin", [CStr "22AAAAA0000A1Z5"; CStr ""; CStr "22AAAAA0000A1Z5"]);
   ("taxable_value", [CFloat (rupees 10000); CFloat F64.zero; CFloat (rupees 10000)]);
   ("cgst", [CFloat (rupees 900); CFloat F64.zero; CFloat (rupees 900)]);
   ("sgst", [CFloat (rupees 900); CFloat F64.zero; CFloat (rupees 900)]);
   ("igst", [CFloat F64.zero; CFloat F64.zero; CFloat F64.zero]);
   ("total_amount", [CFloat (rupees 11800); CFloat F64.zero; CFloat (rupees 11800)]);
   ("place_of_supply", [CStr "07"; CStr ""; CStr "07"]);
   ("match_key", [CStr "INV-001_22AAAAA0000A1Z5"; CFloat F64.nan;
                  CStr "INV-001_22AAAAA0000A1Z5"])].

(** A Books ledger of two rows. *)
Definition small_books_ledger : DataFrame :=
  [("invoice_no", [CStr "INV-001"; CStr "INV-002"]);
   ("invoice_date", [CTime (day 2023 7 15); CTime (day 2023 7 20)]);
   ("supplier_gstin", [CStr "22AAAAA0000A1Z5"; CStr "22AAAAA0000A1Z5"]);
   ("taxable_value", [CFloat (rupees 10000); CFloat (rupees 500)]);
   ("cgst", [CFloat (rupees 900); CFloat F64.zero]);
   ("sgst", [CFloat (rupees 900); CFloat F64.zero]);
   ("igst", [CFloat F64.zero; CFloat (rupees 90)]);
   ("total_amount", [CFloat (rupees 11800); CFloat (rupees 590)]);
   ("place_of_supply", [CStr "07"; CStr "27"]);
   ("book_entry_date", [CTime (day 2023 7 18); CTime None]);
   ("match_key", [CStr "INV-001_22AAAAA0000A1Z5"; CStr "INV-002_22AAAAA0000A1Z5"])].

(** The sum in the order of the rows, from 0.0, a NaN entry counting as
    0.0: one of the sums that [Series.sum()] may be, and the one that numpy
    computes, up to the sign of a zero, on fewer than eight rows. *)
Definition sum_in_order (values : list F64.float) : F64.float :=
  foldl F64.add F64.zero (map (fun v => if F64.is_nan v then F64.zero else v) values).

End Sample.

(** * Properties *)

Import Py Frame App.

(** ** The model at sample values *)

Example strip_sample : Text.strip "  INV 1	 " = "INV 1".
Proof. reflexivity. Qed.

Example str_of_int_sample :
  Text.str_of_int 1203 = "1203" /\ Text.str_of_int (-45) = "-45" /\ Text.str_of_int 0 = "0".
Proof. repeat split; reflexivity. Qed.

Example float_of_str_sample :
  float_of_str " 11800.50 " = Some (F64.of_decimal false 1180050 (-2)) /\
  float_of_str "-5" = Some (F64.of_int (-5)) /\
  float_of_str "1e3" = Some (F64.of_int 1000) /\
  float_of_str "1.2.3" = None /\ float_of_str "" = None /\ float_of_str "." = None.
Proof. repeat split; vm_compute; reflexivity. Qed.

Example repr_sample :
  F64.repr (F64.of_decimal false 1 (-1)) = "0.1" /\
  F64.repr (F64.add (F64.of_decimal false 1 (-1)) (F64.of_decimal false 2 (-1)))
  = "0.30000000000000004" /\
  F64.repr (F64.of_int 11800) = "11800.0" /\
  F64.repr (F64.of_decimal false 1 15) = "1000000000000000.0" /\
  F64.repr (F64.of_decimal false 1 16) = "1e+16" /\
  F64.repr (F64.of_decimal false 1 (-4)) = "0.0001" /\
  F64.repr (F64.of_decimal false 1 (-5)) = "1e-05".
Proof. repeat split; vm_compute; reflexivity. Qed.

Example format_2f_sample :
  F64.format_2f (F64.of_decimal false 125 (-3)) = "0.12" /\
  F64.format_2f (F64.of_decimal false 1015 (-3)) = "1.01" /\
  F64.format_2f (F64.of_decimal true 1180000 (-2)) = "-11800.00".
Proof. repeat split; vm_compute; reflexivity. Qed.

Example timestamp_sample :
  Sample.day 2023 7 15 = Some 1689379200000000000 /\
  str (CTime (Sample.day 2023 7 15)) = "2023-07-15 00:00:00" /\
  astype_str [CTime (Sample.day 2023 7 15); CTime None] = ["2023-07-15"; "NaT"].
Proof. repeat split; vm_compute; reflexivity. Qed.

Example clean_gstin_sample :
  clean_gstin (CStr " 22aaaaa0000a1z5 ") = ("22AAAAA0000A1Z5", []) /\
  clean_gstin (CStr "22-AAAAA-0000-A1Z5-EXTRA") = ("22AAAAA0000A1Z5", []) /\
  clean_gstin (CStr "NaN") = ("", []) /\
  clean_gstin CNone = ("", []).
Proof. repeat split; vm_compute; reflexivity. Qed.

(** The invoice INV-001 of 15/07/2023 against the same invoice dated
    20/07/2023, tolerance 3 days: one discrepancy, for the dates only. *)
Example date_mismatch_sample :
  perform_reconciliation elements default_settings
    [Sample.inv001 (Sample.day 2023 7 15) 11800]
    [Sample.inv001 (Sample.day 2023 7 20) 11800]
  = [ {| d_invoice_no := "INV-001"; d_source := "Both";
         d_issue_type := "Date diff: 5 days";
         d_gstr2a_date := Sample.day 2023 7 15; d_books_date := Sample.day 2023 7 20;
         d_gstr2a_gstin := "22AAAAA0000A1Z5"; d_books_gstin := "22AAAAA0000A1Z5";
         d_amount_diff := F64.zero; d_tax_diff := F64.zero;
         d_details := "Date diff: 5 days" |} ].
Proof. vm_compute. reflexivity. Qed.

(** An invoice entered twice in the first ledger and present in the second:
    two duplicate discrepancies and nothing else. *)
Example duplicate_sample :
  map (fun d => (d_invoice_no d, d_issue_type d))
    (perform_reconciliation elements default_settings
       [Sample.inv001 (Sample.day 2023 7 15) 11800;
        Sample.inv001 (Sample.day 2023 7 15) 11800]
       [Sample.inv001 (Sample.day 2023 7 15) 11800])
  = [("INV-001", "Duplicate in GSTR-2A"); ("INV-001", "Duplicate in GSTR-2A")].
Proof. vm_compute. reflexivity. Qed.

(** ** Binary64 comparisons *)

Lemma ltb_irrefl (x : F64.float) : F64.ltb x x = false.
Proof.
  unfold F64.ltb, SFltb, SFcompare.
  destruct x as [s | s | | s m e]; try destruct s; try reflexivity;
    rewrite Z.compare_refl, Pos.compare_cont_refl; reflexivity.
Qed.

Lemma eqb_not_ltb (a b : F64.float) : F64.eqb a b = true -> F64.ltb b a = false.
Proof.
  unfold F64.eqb, F64.ltb, SFeqb, SFltb, SFcompare.
  destruct a as [sa | sa | | sa ma ea], b as [sb | sb | | sb mb eb];
    try destruct sa; try destruct sb; try reflexivity; try discriminate.
  - destruct (ea ?= eb) eqn:He; try discriminate.
    apply Z.compare_eq in He. subst eb.
    destruct (Pos.compare_cont Eq ma mb) eqn:Hm; try discriminate.
    apply Pos.compare_eq in Hm. subst mb.
    rewrite Z.compare_refl, Pos.compare_cont_refl. reflexivity.
  - destruct (ea ?= eb) eqn:He; try discriminate.
    apply Z.compare_eq in He. subst eb.
    destruct (Pos.compare_cont Eq ma mb) eqn:Hm; try discriminate.
    apply Pos.compare_eq in Hm. subst mb.
    rewrite Z.compare_refl, Pos.compare_cont_refl. reflexivity.
Qed.

(** ** Tolerance checks *)

Lemma flagged_app kind (l1 l2 : list string) :
  flagged kind (l1 ++ l2) = flagged kind l1 || flagged kind l2.
Proof. unfold flagged. apply existsb_app. Qed.

Lemma date_issues_not_amount cfg g b :
  flagged "Amount diff" (date_issues cfg g b) = false /\
  flagged "Tax diff" (date_issues cfg g b) = false.
Proof.
  unfold date_issues. destruct g as [g |], b as [b |]; try (split; reflexivity).
  cbv zeta. destruct (_ || _); [split; reflexivity |].
  destruct (_ =? _); [split; reflexivity |].
  destruct (_ <? _); split; reflexivity.
Qed.
Lemma gstin_issues_unflagged gr br :
  flagged "Date diff" (gstin_issues gr br) = false /\
  flagged "Amount diff" (gstin_issues gr br) = false /\
  flagged "Tax diff" (gstin_issues gr br) = false.
Proof. unfold gstin_issues. destruct (String.eqb _ _); repeat split; reflexivity. Qed.

Lemma amount_issues_flag cfg gr br :
  flagged "Amount diff" (amount_issues cfg gr br)
  = F64.ltb (amount_tolerance cfg) (F64.abs (amount_diff gr br)) /\
  flagged "Date diff" (amount_issues cfg gr br) = false /\
  flagged "Tax diff" (amount_issues cfg gr br) = false.
Proof.
  unfold amount_issues. destruct (F64.ltb _ _); repeat split; reflexivity.
Qed.

Lemma tax_issues_flag cfg gr br :
  flagged "Tax diff" (tax_issues cfg gr br)
  = F64.ltb (amount_tolerance cfg) (F64.abs (tax_diff gr br)) /\
  flagged "Date diff" (tax_issues cfg gr br) = false /\
  flagged "Amount diff" (tax_issues cfg gr br) = false.
Proof.
  unfold tax_issues. destruct (F64.ltb _ _); repeat split; reflexivity.
Qed.

Lemma date_issues_flag cfg g b :
  - 2 ^ 63 < g - b < 2 ^ 63 ->
  flagged "Date diff" (date_issues cfg (Some g) (Some b))
  = (date_tolerance cfg <? Z.abs ((g - b) / ns_per_day)).
Proof.
  intros Hr. unfold date_issues. cbv zeta.
  assert (H1 : ((g - b <? - 2 ^ 63) || (2 ^ 63 - 1 <? g - b)) = false).
  { apply orb_false_iff. split; apply Z.ltb_ge; lia. }
  assert (H2 : (g - b =? - 2 ^ 63) = false) by (apply Z.eqb_neq; lia).
  rewrite H1, H2.
  destruct (date_tolerance cfg <? Z.abs ((g - b) / ns_per_day)); reflexivity.
Qed.

(** Two dates further apart than a [Timedelta] can hold, 9 * 10^18 ns to
    either side of 1970: the subtraction raises and the pair is reported
    with the text of the exception. *)
Example date_overflow_sample :
  date_issues default_settings (Some 9000000000000000000) (Some (- 9000000000000000000))
  = ["Date comparison error: Result is too large for pandas.Timedelta. Convert inputs to datetime.datetime with 'Timestamp.to_pydatetime()' before subtracting."].
Proof. vm_compute. reflexivity. Qed.

(** The three flags of a compared pair, read off the list of issues. *)
Lemma issues_of_flags cfg gr br :
  flagged "Date diff" (issues_of cfg gr br)
  = flagged "Date diff" (date_issues cfg (invoice_date gr) (invoice_date br)) /\
  flagged "Amount diff" (issues_of cfg gr br)
  = F64.ltb (amount_tolerance cfg) (F64.abs (amount_diff gr br)) /\
  flagged "Tax diff" (issues_of cfg gr br)
  = F64.ltb (amount_tolerance cfg) (F64.abs (tax_diff gr br)).
Proof.
  unfold issues_of. rewrite !flagged_app.
  destruct (date_issues_not_amount cfg (invoice_date gr) (invoice_date br)) as [Hda Hdt].
  destruct (gstin_issues_unflagged gr br) as (Hgd & Hga & Hgt).
  destruct (amount_issues_flag cfg gr br) as (Haa & Had & Hat).
  destruct (tax_issues_flag cfg gr br) as (Htt & Htd & Hta).
  rewrite Hda, Hdt, Hgd, Hga, Hgt, Haa, Had, Hat, Htt, Htd, Hta.
  rewrite !orb_false_r. repeat split; reflexivity.
Qed.

(** The boundary on the sample invoice, with the default tolerances of 3 days
    and 1.00 rupee: 3 days and 1.00 rupee apart raise nothing, 4 days and
    1.01 rupee apart are reported. *)
Example tolerance_boundary_sample :
  compare_rows default_settings
    (Sample.inv001 (Sample.day 2023 7 15) 11801)
    (Sample.inv001 (Sample.day 2023 7 18) 11800) = [] /\
  map d_issue_type
    (compare_rows default_settings
       (Sample.invoice "INV-001" (Sample.day 2023 7 15) "22AAAAA0000A1Z5"
          (Sample.rupees 10000) (Sample.rupees 900) (Sample.rupees 900) F64.zero
          (F64.of_decimal false 1180101 (-2)))
       (Sample.inv001 (Sample.day 2023 7 19) 11800))
  = ["Date diff: 4 days, Amount diff: ₹1.01"].
Proof. split; vm_compute; reflexivity. Qed.

(** ** Numeric cells *)

Lemma binary_round_aux_sign sx mx ex lx :
  F64.is_nan (binary_round_aux F64.prec F64.emax sx mx ex lx) = true \/
  F64.sign (binary_round_aux F64.prec F64.emax sx mx ex lx) = sx.
Proof.
  unfold binary_round_aux.
  destruct (shr_fexp _ _ _ _ _) as [mrs' e'].
  destruct (shr_fexp _ _ _ _ _) as [mrs'' e''].
  destruct (shr_m mrs''); [right; reflexivity | | left; reflexivity].
  destruct (_ <=? _)%Z; right; reflexivity.
Qed.

Lemma of_decimal_sign neg n e10 :
  F64.is_nan (F64.of_decimal neg n e10) = true \/
  F64.sign (F64.of_decimal neg n e10) = neg.
Proof.
  unfold F64.of_decimal.
  destruct n as [| p | p]; try (right; reflexivity).
  destruct e10 as [| k | k].
  - unfold binary_round. destruct (shl_align _ _ _). apply binary_round_aux_sign.
  - unfold binary_round. destruct (shl_align _ _ _). apply binary_round_aux_sign.
  - unfold F64.div, SFdiv.
    destruct (SFdiv_core_binary _ _ _ _ _ _) as [[mz ez] lz].
    destruct (binary_round_aux_sign (xorb neg false) mz ez lz) as [H | H];
      [left; exact H | right; rewrite H; apply xorb_false_r].
Qed.

Lemma float_of_unsigned_sign neg u f :
  float_of_unsigned neg u = Some f ->
  F64.is_nan f = true \/ F64.sign f = neg.
Proof.
  unfold float_of_unsigned.
  destruct (_ || _). { intros [= <-]. right. reflexivity. }
  destruct (String.eqb _ "nan"). { intros [= <-]. left. reflexivity. }
  destruct (digitpart u 0 0 false) as [[ip ic] r1].
  destruct (match r1 with EmptyString => _ | String _ _ => _ end) as [[n fc] r2].
  destruct (ic + fc)%nat; [discriminate |].
  destruct (exponent r2); [| discriminate].
  intros [= <-]. apply of_decimal_sign.
Qed.


Lemma sforall_sfilter p s : Text.sforall p (Text.sfilter p s) = true.
Proof.
  induction s as [| c r IH]; simpl; [reflexivity |].
  destruct (p c) eqn:Hc; simpl; [rewrite Hc |]; exact IH.
Qed.

Lemma sforall_lstrip p s : Text.sforall p s = true -> Text.sforall p (Text.lstrip s) = true.
Proof.
  induction s as [| c r IH]; simpl; [reflexivity |].
  intros H. apply andb_true_iff in H as [Hc Hr].
  destruct (Text.is_space c); [auto |]. simpl. rewrite Hc. exact Hr.
Qed.

Lemma sforall_rstrip p s : Text.sforall p s = true -> Text.sforall p (Text.rstrip s) = true.
Proof.
  induction s as [| c r IH]; simpl; [reflexivity |].
  intros H. apply andb_true_iff in H as [Hc Hr]. specialize (IH Hr).
  destruct (Text.rstrip r) as [| c' r'].
  - destruct (Text.is_space c); simpl; [reflexivity |]. rewrite Hc. reflexivity.
  - simpl. rewrite Hc. exact IH.
Qed.

Lemma sforall_strip p s : Text.sforall p s = true -> Text.sforall p (Text.strip s) = true.
Proof. intros H. apply sforall_rstrip, sforall_lstrip, H. Qed.

Lemma split_sign_numeric s :
  Text.sforall numeric_char s = true -> fst (split_sign s) = false.
Proof.
  destruct s as [| c r]; [reflexivity |]. simpl.
  intros H. apply andb_true_iff in H as [Hc _].
  destruct (Ascii.eqb c "-") eqn:E.
  - apply Ascii.eqb_eq in E. subst c. discriminate.
  - destruct (Ascii.eqb c "+"); reflexivity.
Qed.

Lemma to_numeric_sign s :
  F64.is_nan (to_numeric (strip_non_numeric s)) = true \/
  F64.sign (to_numeric (strip_non_numeric s)) = false.
Proof.
  unfold to_numeric, float_of_str.
  pose proof (split_sign_numeric (Text.strip (strip_non_numeric s))) as Hs.
  destruct (split_sign _) as [neg u]. simpl in Hs.
  rewrite Hs by (apply sforall_strip, sforall_sfilter).
  destruct (float_of_unsigned false u) eqn:E; [| left; reflexivity].
  apply float_of_unsigned_sign in E. exact E.
Qed.

Lemma nonneg_not_below_zero (v : F64.float) :
  F64.sign v = false -> F64.ltb v F64.zero = false.
Proof.
  destruct v as [[] | [] | | [] m e]; simpl; intros H; try discriminate; reflexivity.
Qed.

Lemma clean_number_nonneg s :
  F64.is_nan (clean_number s) = false /\ F64.sign (clean_number s) = false.
Proof.
  unfold clean_number. cbv zeta.
  destruct (to_numeric_sign s) as [H | H].
  - rewrite H. split; reflexivity.
  - destruct (F64.is_nan (to_numeric (strip_non_numeric s))) eqn:E.
    + split; reflexivity.
    + split; [exact E | exact H].
Qed.

(** ** Frames *)

Lemma get_set_col_eq a v df : get_col a (set_col a v df) = v.
Proof.
  induction df as [| [n c] rest IH]; simpl.
  - rewrite String.eqb_refl. reflexivity.
  - destruct (String.eqb n a) eqn:E; simpl; rewrite E; [reflexivity | exact IH].
Qed.

Lemma get_set_col_ne a b v df :
  String.eqb b a = false -> get_col a (set_col b v df) = get_col a df.
Proof.
  intros Hne. induction df as [| [n c] rest IH]; simpl.
  - rewrite Hne. reflexivity.
  - destruct (String.eqb n b) eqn:E; simpl.
    + apply String.eqb_eq in E. subst n. rewrite Hne. reflexivity.
    + destruct (String.eqb n a); [reflexivity | exact IH].
Qed.

Ltac get_set :=
  repeat first [ rewrite get_set_col_eq
               | rewrite get_set_col_ne by reflexivity ].

(** The result of [clean_and_transform_data] on a frame with rows, column by
    column. *)
Lemma clean_and_transform_data_columns P cfg df source :
  empty df = false ->
  clean_and_transform_data P cfg df source [] =
    if existsb (fun std => Nat.ltb 1 (count_col std
                  (rename (standard_name source) (rename normalize_colname df))))
               (map fst (standard_columns_map source))
    then Raise DuplicateStandardColumn
    else Ok (normalized_columns P cfg source (prepare source df),
             concat (map snd (gstin_column cfg
                                (get_col "supplier_gstin" (prepare source df))))).
Proof.
  intros Hne. unfold clean_and_transform_data. rewrite Hne.
  cbv zeta. destruct (existsb _ _); [reflexivity |].
  unfold prepare, normalized_columns.
  generalize (ensure_columns (nrows df) (map fst (standard_columns_map source))
                (rename (standard_name source) (rename normalize_colname df))).
  intros d. f_equal. f_equal.
  - unfold select_columns, standard_columns_map.
    destruct (String.eqb source books) eqn:E; cbn [app map fst];
      unfold fill_place_of_supply; get_set;
      unfold add_match_key; cbv zeta; get_set;
      unfold clean_identifiers; get_set;
      unfold convert_numbers, numeric_cols; cbn [foldl]; get_set;
      unfold convert_dates, date_cols; rewrite E; cbn [foldl app]; get_set;
      reflexivity.
  - unfold convert_numbers, numeric_cols; cbn [foldl]; get_set.
    unfold convert_dates, date_cols.
    destruct (String.eqb source books); cbn [foldl app]; get_set; reflexivity.
Qed.

(** ** Text of cleaned identifiers *)

Lemma alnum_upper_char c :
  is_alnum_upper c = true ->
  Text.is_space c = false /\ Text.to_upper c = c /\ is_alnum_upper (Text.to_upper c) = true.
Proof.
  destruct c as [[] [] [] [] [] [] [] []]; vm_compute; intros H;
    first [discriminate H | repeat split; reflexivity].
Qed.

Lemma sforall_impl (p q : ascii -> bool) s :
  (forall c, p c = true -> q c = true) ->
  Text.sforall p s = true -> Text.sforall q s = true.
Proof.
  intros Hpq. induction s as [| c r IH]; simpl; [reflexivity |].
  intros H. apply andb_true_iff in H as [Hc Hr].
  rewrite (Hpq c Hc). simpl. apply IH, Hr.
Qed.

Lemma lstrip_no_space s :
  Text.sforall (fun c => negb (Text.is_space c)) s = true -> Text.lstrip s = s.
Proof.
  destruct s as [| c r]; simpl; [reflexivity |].
  intros H. apply andb_true_iff in H as [Hc _].
  apply negb_true_iff in Hc. rewrite Hc. reflexivity.
Qed.

Lemma rstrip_no_space s :
  Text.sforall (fun c => negb (Text.is_space c)) s = true -> Text.rstrip s = s.
Proof.
  induction s as [| c r IH]; simpl; [reflexivity |].
  intros H. apply andb_true_iff in H as [Hc Hr].
  rewrite (IH Hr). apply negb_true_iff in Hc. rewrite Hc.
  destruct r; reflexivity.
Qed.

Lemma strip_alnum s : Text.sforall is_alnum_upper s = true -> Text.strip s = s.
Proof.
  intros H.
  assert (Hs : Text.sforall (fun c => negb (Text.is_space c)) s = true).
  { revert H. apply sforall_impl. intros c Hc.
    destruct (alnum_upper_char c Hc) as [-> _]. reflexivity. }
  unfold Text.strip. rewrite (lstrip_no_space s Hs). apply rstrip_no_space, Hs.
Qed.

Lemma upper_alnum s : Text.sforall is_alnum_upper s = true -> Text.upper s = s.
Proof.
  unfold Text.upper. induction s as [| c r IH]; simpl; [reflexivity |].
  intros H. apply andb_true_iff in H as [Hc Hr].
  destruct (alnum_upper_char c Hc) as (_ & -> & _). rewrite (IH Hr). reflexivity.
Qed.

Lemma sfilter_all p s : Text.sforall p s = true -> Text.sfilter p s = s.
Proof.
  induction s as [| c r IH]; simpl; [reflexivity |].
  intros H. apply andb_true_iff in H as [Hc Hr]. rewrite Hc, (IH Hr). reflexivity.
Qed.

Lemma length_lower s : String.length (Text.lower s) = String.length s.
Proof.
  unfold Text.lower. induction s as [| c r IH]; simpl; [reflexivity |].
  rewrite IH. reflexivity.
Qed.

Lemma sforall_append p s t :
  Text.sforall p (s +:+ t) = Text.sforall p s && Text.sforall p t.
Proof.
  induction s as [| c r IH]; simpl; [reflexivity |].
  rewrite IH. apply andb_assoc.
Qed.

Lemma sforall_replicate p n c : p c = true -> Text.sforall p (Text.replicate_char n c) = true.
Proof. intros Hc. induction n; simpl; [reflexivity |]. rewrite Hc. exact IHn. Qed.

Lemma length_replicate n c : String.length (Text.replicate_char n c) = n.
Proof. induction n as [| n IH]; simpl; [reflexivity |]. rewrite IH. reflexivity. Qed.

Lemma length_append s t :
  String.length (s +:+ t) = (String.length s + String.length t)%nat.
Proof. induction s as [| c r IH]; simpl; [reflexivity |]. rewrite IH. reflexivity. Qed.

Lemma sforall_substring p n m s :
  Text.sforall p s = true -> Text.sforall p (String.substring n m s) = true.
Proof.
  revert n m. induction s as [| c r IH]; intros n m H.
  - destruct n, m; reflexivity.
  - simpl in H. apply andb_true_iff in H as [Hc Hr].
    destruct n; simpl.
    + destruct m; simpl; [reflexivity |]. rewrite Hc. apply IH, Hr.
    + apply IH, Hr.
Qed.

Lemma length_take n s :
  (n <= String.length s)%nat -> String.length (Text.take n s) = n.
Proof.
  unfold Text.take. revert n. induction s as [| c r IH]; intros n Hn; simpl in *.
  - destruct n; [reflexivity | lia].
  - destruct n; simpl; [reflexivity |]. rewrite IH; [reflexivity | lia].
Qed.

Lemma isin_other_length s options :
  Forall (fun o => String.length o <> String.length s) options ->
  Text.isin s options = false.
Proof.
  unfold Text.isin. induction 1 as [| o rest Ho _ IH]; simpl; [reflexivity |].
  rewrite IH, orb_false_r. apply String.eqb_neq. intros ->. apply Ho. reflexivity.
Qed.

Lemma clean_gstin_value c :
  fst (clean_gstin c) = "" \/
  (String.length (fst (clean_gstin c)) = 15%nat /\
   Text.sforall is_alnum_upper (fst (clean_gstin c)) = true).
Proof.
  unfold clean_gstin.
  destruct (_ || _); [left; reflexivity | right].
  set (core := Text.sfilter is_alnum_upper (Text.upper (Text.strip (str c)))).
  assert (Hcore : Text.sforall is_alnum_upper core = true) by apply sforall_sfilter.
  set (g := if Nat.ltb 15 (String.length core) then Text.take 15 core
            else if Nat.ltb (String.length core) 15 then Text.ljust 15 "X" core
            else core).
  assert (Hg : String.length g = 15%nat /\ Text.sforall is_alnum_upper g = true).
  { subst g. destruct (Nat.ltb 15 (String.length core)) eqn:E1.
    - apply Nat.ltb_lt in E1. split.
      + apply length_take. lia.
      + apply sforall_substring, Hcore.
    - apply Nat.ltb_ge in E1.
      destruct (Nat.ltb (String.length core) 15) eqn:E2.
      + apply Nat.ltb_lt in E2. unfold Text.ljust. split.
        * rewrite length_append, length_replicate. lia.
        * rewrite sforall_append, Hcore. apply sforall_replicate. reflexivity.
      + apply Nat.ltb_ge in E2. split; [lia | exact Hcore]. }
  destruct (gstin_well_formed g); exact Hg.
Qed.


(** ** Columns that are normalised already *)

Lemma astype_str_CStr l : astype_str (map CStr l) = l.
Proof.
  unfold astype_str. destruct l as [| s l]; [reflexivity |].
  simpl. rewrite map_map. simpl. f_equal. apply map_id.
Qed.



Lemma filter_isna_CTime (ts : list (option Z)) :
  exists n, filter (fun c => isna c = true) (map CTime ts) = repeat (CTime None) n.
Proof.
  induction ts as [| t ts [n IH]]; [exists O; reflexivity |].
  destruct t as [t |]; simpl.
  - exists n. rewrite filter_cons_False by (simpl; discriminate). exact IH.
  - exists (S n). rewrite filter_cons_True by reflexivity. rewrite IH. reflexivity.
Qed.

Lemma loc_assign_na_nulls ts n : loc_assign_na ts (repeat None n) = ts.
Proof.
  revert n. induction ts as [| t ts IH]; intros n; [reflexivity |].
  destruct t as [t |]; simpl.
  - rewrite IH. reflexivity.
  - destruct n; simpl.
    + f_equal. apply (IH O).
    + rewrite IH. reflexivity.
Qed.

(** The second parse changes nothing: it is given the null entries of the
    converted column, which stay null. *)
Lemma convert_date_column_dayfirst P col :
  mixed_keeps_nat P ->
  convert_date_column P col = map CTime (to_datetime_dayfirst P col).
Proof.
  intros Hmixed. unfold convert_date_column.
  destruct (filter_isna_CTime (to_datetime_dayfirst P col)) as [n ->].
  rewrite Hmixed, loc_assign_na_nulls. reflexivity.
Qed.





(** ** Normalising a normalised frame *)

Lemma length_astype_str col : length (astype_str col) = length col.
Proof. unfold astype_str. destruct (_ && _); apply length_map. Qed.

Lemma well_formed_rename n f df : well_formed n df -> well_formed n (rename f df).
Proof.
  unfold well_formed, rename. intros H. apply Forall_map.
  eapply Forall_impl; [exact H |]. intros [a c] Hc. exact Hc.
Qed.

Lemma well_formed_set_col n a v df :
  length v = n -> well_formed n df -> well_formed n (set_col a v df).
Proof.
  unfold well_formed. intros Hv. induction 1 as [| [b c] rest Hc Hrest IH]; simpl.
  - repeat constructor. exact Hv.
  - destruct (String.eqb b a); constructor; assumption.
Qed.

Lemma has_col_set_col a b v df :
  has_col a (set_col b v df) = String.eqb a b || has_col a df.
Proof.
  unfold has_col, columns. induction df as [| [n c] rest IH]; simpl.
  - rewrite orb_false_r. reflexivity.
  - destruct (String.eqb n b) eqn:E; simpl.
    + apply String.eqb_eq in E. subst n.
      destruct (String.eqb a b); reflexivity.
    + rewrite IH. destruct (String.eqb a b), (String.eqb a n); reflexivity.
Qed.

Lemma ensure_columns_spec n names df :
  well_formed n df ->
  well_formed n (ensure_columns n names df) /\
  (forall a, In a names \/ has_col a df = true ->
             has_col a (ensure_columns n names df) = true).
Proof.
  unfold ensure_columns. revert df.
  induction names as [| b names IH]; intros df Hwf; simpl.
  - split; [exact Hwf |]. intros a [[] | H]; exact H.
  - set (df' := if has_col b df then df else set_col b (repeat CNone n) df).
    assert (Hwf' : well_formed n df').
    { subst df'. destruct (has_col b df); [exact Hwf |].
      apply well_formed_set_col; [apply repeat_length | exact Hwf]. }
    assert (Hb : has_col b df' = true).
    { subst df'. destruct (has_col b df) eqn:E; [exact E |].
      rewrite has_col_set_col, String.eqb_refl. reflexivity. }
    assert (Hmono : forall a, has_col a df = true -> has_col a df' = true).
    { intros a Ha. subst df'. destruct (has_col b df); [exact Ha |].
      rewrite has_col_set_col, Ha. apply orb_true_r. }
    destruct (IH df' Hwf') as [Hw Hh]. split; [exact Hw |].
    intros a [[-> | Hin] | Ha]; apply Hh; auto.
Qed.

Lemma length_get_col n a df :
  well_formed n df -> has_col a df = true -> length (get_col a df) = n.
Proof.
  unfold well_formed, has_col, columns.
  induction 1 as [| [b c] rest Hc _ IH]; simpl; [discriminate |].
  rewrite (String.eqb_sym a b). destruct (String.eqb b a); simpl; [intros _; exact Hc | exact IH].
Qed.




Lemma nrows_normalized_columns P cfg source d :
  nrows (normalized_columns P cfg source d) = length (get_col "invoice_no" d).
Proof.
  unfold normalized_columns. simpl. rewrite length_map. apply length_astype_str.
Qed.

(** The columns of a normalised frame, read by label. *)
Lemma get_col_normalized_columns P cfg source d :
  let out := normalized_columns P cfg source d in
  get_col "invoice_no" out = map CStr (astype_str (get_col "invoice_no" d)) /\
  get_col "invoice_date" out = convert_date_column P (get_col "invoice_date" d) /\
  get_col "supplier_gstin" out
    = map CStr (map fst (gstin_column cfg (get_col "supplier_gstin" d))) /\
  Forall (fun c => get_col c out = convert_numeric_column (get_col c d)) numeric_cols /\
  get_col "place_of_supply" out
    = map CStr (astype_str (fillna (CStr "") (get_col "place_of_supply" d))) /\
  (String.eqb source books = true ->
   get_col "book_entry_date" out = convert_date_column P (get_col "book_entry_date" d)) /\
  get_col "match_key" out
    = match_key_column (astype_str (get_col "invoice_no" d))
        (map fst (gstin_column cfg (get_col "supplier_gstin" d))).
Proof.
  unfold normalized_columns. rewrite <- (map_map fst CStr), astype_str_CStr.
  destruct (String.eqb source books);
    repeat split; try reflexivity; try discriminate; repeat constructor.
Qed.

Lemma standard_names_in source :
  Forall (fun c => In c (map fst (standard_columns_map source)))
    ["invoice_no"; "invoice_date"; "supplier_gstin"; "taxable_value"; "cgst"; "sgst";
     "igst"; "total_amount"; "place_of_supply"] /\
  (String.eqb source books = true ->
   In "book_entry_date" (map fst (standard_columns_map source))).
Proof.
  unfold standard_columns_map. rewrite map_app. split.
  - repeat (apply List.Forall_cons; [apply in_or_app; left; simpl; tauto |]).
    apply List.Forall_nil.
  - intros ->. apply in_or_app. right. simpl. tauto.
Qed.


(** ** C7: normalising twice *)



Lemma sample_parsers_mixed : mixed_keeps_nat Sample.parsers.
Proof.
  intros n. simpl. induction n as [| n IH]; simpl; [reflexivity |].
  rewrite IH. reflexivity.
Defined.

(** ** C6: the fallback parse of dates *)

(** C6, as the code runs.  The mixed-format parse is applied to the entries of
    the column that are null after the day-first parse was stored in it, not
    to the values of the input; as [pd.to_datetime] keeps a null timestamp
    null, the converted column is the day-first parse alone, and a value that
    fails it is null whatever the mixed-format parse makes of the input. *)
Theorem date_fallback_reads_converted_column (P : DateParsers) (col : list cell) :
  mixed_keeps_nat P ->
  convert_date_column P col = map CTime (to_datetime_dayfirst P col).
Proof. apply convert_date_column_dayfirst. Qed.

(** On the column 15/07/2023, 2023-07-20 the second value fails the day-first
    parse and is left null, although the mixed-format parse reads it. *)
Lemma date_fallback_sample :
  convert_date_column Sample.parsers [CStr "15/07/2023"; CStr "2023-07-20"]
  = [CTime (Sample.day 2023 7 15); CTime None] /\
  to_datetime_mixed Sample.parsers [CStr "2023-07-20"] = [Sample.day 2023 7 20].
Proof.
  split.
  - rewrite (date_fallback_reads_converted_column Sample.parsers _ sample_parsers_mixed).
    vm_compute. reflexivity.
  - vm_compute. reflexivity.
Defined.

(** ** C10: numeric fields are not negative *)

(** C10.  Whatever the text of a cell of a numeric column, the normalised
    value is a number with a clear sign bit, so it is not below zero; the text
    -100 gives +100.0; and every cell of the five numeric columns of a
    normalised table is such a float. *)
Theorem numeric_fields_non_negative :
  (forall s : string,
     F64.is_nan (clean_number s) = false /\
     F64.sign (clean_number s) = false /\
     F64.ltb (clean_number s) F64.zero = false) /\
  clean_number "-100" = F64.of_int 100 /\
  (forall P cfg df source out log c x,
     clean_and_transform_data P cfg df source [] = Ok (out, log) ->
     In c numeric_cols -> In x (get_col c out) ->
     exists v, x = CFloat v /\ F64.is_nan v = false /\ F64.sign v = false).
Proof.
  split; [| split].
  - intros s. destruct (clean_number_nonneg s) as [Hn Hs].
    repeat split; try assumption. apply nonneg_not_below_zero, Hs.
  - vm_compute. reflexivity.
  - intros P cfg df source out log c x Hclean Hc Hx.
    destruct (empty df) eqn:Hempty.
    + unfold clean_and_transform_data in Hclean. rewrite Hempty in Hclean.
      injection Hclean as <- _. exfalso.
      unfold numeric_cols in Hc. simpl in Hc. unfold standard_columns in Hx.
      destruct Hc as [<- | [<- | [<- | [<- | [<- | []]]]]]; exact Hx.
    + rewrite clean_and_transform_data_columns in Hclean by exact Hempty.
      destruct (existsb _ _); [discriminate |].
      injection Hclean as <- _.
      destruct (get_col_normalized_columns P cfg source (prepare source df))
        as (_ & _ & _ & Hnums & _).
      rewrite Forall_forall in Hnums.
      rewrite (Hnums c) in Hx by (apply list_elem_of_In, Hc).
      unfold convert_numeric_column in Hx. apply in_map_iff in Hx as [s [<- _]].
      exists (clean_number s). split; [reflexivity | apply clean_number_nonneg].
Qed.

(** ** C4: the match key *)

Lemma dropna_app l1 l2 : dropna (l1 ++ l2) = dropna l1 ++ dropna l2.
Proof. unfold dropna. apply omap_app. Qed.

Lemma dropna_skips l1 r l2 :
  match_key r = None -> dropna (l1 ++ r :: l2) = dropna (l1 ++ l2).
Proof.
  intros Hr. rewrite !dropna_app. f_equal.
  unfold dropna. simpl. rewrite Hr. reflexivity.
Qed.

Lemma map_cell_text_CStr l : map cell_text (map CStr l) = l.
Proof. rewrite map_map. simpl. apply map_id. Qed.

Lemma normalised_match_key_column P cfg df source out log :
  clean_and_transform_data P cfg df source [] = Ok (out, log) ->
  get_col "match_key" out
  = map (fun p => key_cell (build_match_key (fst p) (snd p)))
        (zip (map cell_text (get_col "invoice_no" out))
             (map cell_text (get_col "supplier_gstin" out))).
Proof.
  intros Hclean. destruct (empty df) eqn:Hempty.
  - unfold clean_and_transform_data in Hclean. rewrite Hempty in Hclean.
    injection Hclean as <- _. unfold standard_columns.
    destruct (String.eqb source books); reflexivity.
  - rewrite clean_and_transform_data_columns in Hclean by exact Hempty.
    destruct (existsb _ _); [discriminate |].
    injection Hclean as <- _.
    destruct (get_col_normalized_columns P cfg source (prepare source df))
      as (Hinv & _ & Hgst & _ & _ & _ & Hkey).
    rewrite Hinv, Hgst, Hkey, !map_cell_text_CStr. reflexivity.
Qed.

(** C4, as found: an invoice number made of one space is empty once trimmed,
    yet the record gets the key " _22AAAAA0000A1Z5"; the number is compared
    with the null texts as it stands. *)
Lemma blank_invoice_number_has_key :
  Text.strip " " = "" /\
  exists out log,
    clean_and_transform_data Sample.parsers default_settings
      [("Invoice No", [CStr " "]); ("GSTIN", [CStr "22AAAAA0000A1Z5"])] "GSTR-2A" []
    = Ok (out, log) /\
    get_col "invoice_no" out = [CStr " "] /\
    get_col "match_key" out = [CStr " _22AAAAA0000A1Z5"].
Proof.
  split; [reflexivity |]. eexists _, _.
  split; [vm_compute; reflexivity |]. split; reflexivity.
Qed.

(** C4, amended.  The key of a record is defined exactly when neither the
    text of the invoice number nor the text of the identifier is one of the
    null texts (empty, None, nan), compared as they stand, and it is then the
    invoice number, an underscore and the identifier; the key column of a
    normalised table is built this way from its invoice-number and identifier
    columns; and a record without key has no part in the reconciliation. *)
Theorem match_key_defined_unless_null_text :
  (forall invoice_no supplier_gstin : string,
     (Text.isin invoice_no [""; "None"; "nan"] = false ->
      Text.isin supplier_gstin [""; "None"; "nan"] = false ->
      build_match_key invoice_no supplier_gstin
      = Some (invoice_no +:+ "_" +:+ supplier_gstin)) /\
     (Text.isin invoice_no [""; "None"; "nan"] = true \/
      Text.isin supplier_gstin [""; "None"; "nan"] = true ->
      build_match_key invoice_no supplier_gstin = None)) /\
  (forall P cfg df source out log,
     clean_and_transform_data P cfg df source [] = Ok (out, log) ->
     get_col "match_key" out
     = map (fun p => key_cell (build_match_key (fst p) (snd p)))
           (zip (map cell_text (get_col "invoice_no" out))
                (map cell_text (get_col "supplier_gstin" out)))) /\
  (forall set_iter cfg l1 r l2 other,
     match_key r = None ->
     perform_reconciliation set_iter cfg (l1 ++ r :: l2) other
     = perform_reconciliation set_iter cfg (l1 ++ l2) other /\
     perform_reconciliation set_iter cfg other (l1 ++ r :: l2)
     = perform_reconciliation set_iter cfg other (l1 ++ l2)).
Proof.
  split; [| split].
  - intros inv gst. unfold build_match_key, null_keys. split.
    + intros -> ->. reflexivity.
    + intros [-> | ->]; [reflexivity | rewrite orb_true_r; reflexivity].
  - apply normalised_match_key_column.
  - intros set_iter cfg l1 r l2 other Hr.
    unfold perform_reconciliation, gstr2a_duplicates, books_duplicates,
      missing_in_books_results, missing_in_gstr2a_results, mismatch_results.
    rewrite !(dropna_skips l1 r l2 Hr). split; reflexivity.
Qed.

(** ** C9: padded identifiers *)

Lemma fullmatch_false_at classes s (i : nat) p c :
  nth_error classes i = Some p -> String.get i s = Some c -> p c = false ->
  fullmatch classes s = false.
Proof.
  revert classes s. induction i as [| i IH]; intros classes s Hp Hc Hpc.
  - destruct classes as [| q qs]; [discriminate |]. destruct s as [| d r]; [discriminate |].
    simpl in *. injection Hp as ->. injection Hc as ->. rewrite Hpc. reflexivity.
  - destruct classes as [| q qs]; [discriminate |]. destruct s as [| d r]; [discriminate |].
    simpl in *. rewrite (IH qs r Hp Hc Hpc). apply andb_false_r.
Qed.

Lemma get_replicate (i n : nat) c :
  (i < n)%nat -> String.get i (Text.replicate_char n c) = Some c.
Proof.
  revert n. induction i as [| i IH]; intros [| n] H; try lia; simpl; [reflexivity |].
  apply IH. lia.
Qed.

Lemma get_ljust (i n : nat) c s :
  (String.length s <= i)%nat -> (i < n)%nat -> String.get i (Text.ljust n c s) = Some c.
Proof.
  unfold Text.ljust. revert i n. induction s as [| d r IH]; intros i n Hs Hi; simpl in *.
  - rewrite Nat.sub_0_r. apply get_replicate, Hi.
  - destruct i as [| i]; [lia |]. destruct n as [| n]; [lia |].
    simpl. apply IH; lia.
Qed.

(** A value padded with two or more fillers carries the filler where the
    pattern wants the letter Z. *)
Lemma padded_short_not_well_formed s :
  (String.length s < 14)%nat -> gstin_well_formed (Text.ljust 15 "X" s) = false.
Proof.
  intros H. unfold gstin_well_formed.
  rewrite (fullmatch_false_at gstin_pattern (Text.ljust 15 "X" s) 13 (Ascii.eqb "Z") "X").
  - apply andb_false_r.
  - reflexivity.
  - apply get_ljust; lia.
  - reflexivity.
Qed.

Lemma fullmatch_app ps qs s t :
  length ps = String.length s ->
  fullmatch (ps ++ qs) (s +:+ t) = fullmatch ps s && fullmatch qs t.
Proof.
  revert s. induction ps as [| p ps IH]; intros [| c r] Hlen; try discriminate Hlen.
  - reflexivity.
  - simpl in *. injection Hlen as Hlen. rewrite (IH r Hlen). apply andb_assoc.
Qed.

Lemma fullmatch_starts_with_digits s :
  fullmatch gstin_pattern s = true -> Text.isdigit (Text.take 2 s) = true.
Proof.
  unfold gstin_pattern, Text.isdigit, Text.take.
  destruct s as [| c0 [| c1 r]]; simpl; intros H.
  - discriminate H.
  - rewrite andb_false_r in H. discriminate H.
  - apply andb_true_iff in H as [H0 H]. apply andb_true_iff in H as [H1 _].
    destruct r; simpl; rewrite H0, H1; reflexivity.
Qed.

Lemma ljust_one_short s :
  String.length s = 14%nat -> Text.ljust 15 "X" s = s +:+ "X".
Proof. intros H. unfold Text.ljust. rewrite H. reflexivity. Qed.

(** A value padded with one filler fits the pattern exactly when its 14
    characters fit the first 14 positions. *)
Lemma padded_by_one_well_formed s :
  String.length s = 14%nat ->
  gstin_well_formed (Text.ljust 15 "X" s) = fullmatch (firstn 14 gstin_pattern) s.
Proof.
  intros H. rewrite (ljust_one_short s H). unfold gstin_well_formed.
  rewrite length_append, H. simpl Nat.eqb. rewrite andb_true_l.
  assert (Hfull : fullmatch gstin_pattern (s +:+ "X") = fullmatch (firstn 14 gstin_pattern) s).
  { change gstin_pattern with (firstn 14 gstin_pattern ++ [is_alnum_upper]) at 1.
    rewrite fullmatch_app by (rewrite H; reflexivity).
    replace (fullmatch [is_alnum_upper] "X") with true by reflexivity.
    apply andb_true_r. }
  rewrite <- Hfull.
  destruct (fullmatch gstin_pattern (s +:+ "X")) eqn:E.
  - rewrite (fullmatch_starts_with_digits _ E). reflexivity.
  - apply andb_false_r.
Qed.

(** C9, as found: the 14 characters 22AAAAA0000A1Z are padded with one
    filler, which lands on the last position of the pattern, where any letter
    or digit is accepted; the padded value is well-formed and no warning is
    logged. *)
Lemma padded_identifier_well_formed :
  String.length "22AAAAA0000A1Z" = 14%nat /\
  clean_gstin (CStr "22AAAAA0000A1Z") = ("22AAAAA0000A1ZX", []) /\
  gstin_well_formed "22AAAAA0000A1ZX" = true.
Proof. repeat split; reflexivity. Qed.

(** C9, amended.  For a raw identifier that is not null, with [core] its
    trimmed, upper-cased text reduced to letters and digits: if [core] is
    shorter than 15 characters the value returned is [core] padded with X to
    15 characters, never a rejection; if [core] is shorter than 14 the padded
    value does not fit the pattern, which wants the letter Z at its 14th
    position, and the warning is logged with the value; if [core] has exactly
    14 characters the padded value fits the pattern exactly when these fit
    its first 14 positions, the filler being accepted at the last one. *)
Theorem short_identifier_padded_and_flagged (gstin : cell) :
  isna gstin = false ->
  Text.isin (Text.lower (Text.strip (str gstin))) [""; "nan"; "none"] = false ->
  let core := Text.sfilter is_alnum_upper (Text.upper (Text.strip (str gstin))) in
  ((String.length core < 15)%nat ->
   fst (clean_gstin gstin) = Text.ljust 15 "X" core) /\
  ((String.length core < 14)%nat ->
   gstin_well_formed (Text.ljust 15 "X" core) = false /\
   clean_gstin gstin
   = (Text.ljust 15 "X" core,
      ["Warning: GSTIN '" +:+ Text.ljust 15 "X" core +:+
       "' appears to be invalid after cleaning."])) /\
  (String.length core = 14%nat ->
   gstin_well_formed (Text.ljust 15 "X" core) = fullmatch (firstn 14 gstin_pattern) core).
Proof.
  intros Hna Hnull core. unfold clean_gstin. rewrite Hna, Hnull. simpl orb. cbv iota.
  fold core. split; [| split].
  - intros Hlen.
    assert (E1 : Nat.ltb 15 (String.length core) = false) by (apply Nat.ltb_ge; lia).
    assert (E2 : Nat.ltb (String.length core) 15 = true) by (apply Nat.ltb_lt; lia).
    rewrite E1, E2. destruct (gstin_well_formed _); reflexivity.
  - intros Hlen.
    assert (E1 : Nat.ltb 15 (String.length core) = false) by (apply Nat.ltb_ge; lia).
    assert (E2 : Nat.ltb (String.length core) 15 = true) by (apply Nat.ltb_lt; lia).
    rewrite E1, E2, (padded_short_not_well_formed core Hlen). split; reflexivity.
  - apply padded_by_one_well_formed.
Qed.

Lemma short_identifier_witness :
  clean_gstin (CStr " 22aaaaa-0000 ")
  = ("22AAAAA0000XXXX",
     ["Warning: GSTIN '22AAAAA0000XXXX' appears to be invalid after cleaning."]).
Proof.
  exact (proj2 (proj1 (proj2 (short_identifier_padded_and_flagged (CStr " 22aaaaa-0000 ")
                                eq_refl eq_refl)) ltac:(vm_compute; lia))).
Defined.

(** ** C8: saving the settings *)

Lemma isdigit_minus s : Text.isdigit (String "-" s) = false.
Proof. reflexivity. Qed.

(** C8, as found: the amount tolerance -5 is not rejected; the settings are
    saved with the tolerance 0.0 in place of the former 1.0 and the success
    report is shown. *)
Lemma negative_amount_tolerance_clamped :
  save_settings default_settings "3" "-5" 1
  = ({| date_tolerance := 3; amount_tolerance := F64.zero; auto_clean_gstin := true |},
     Saved) /\
  float_of_str "-5" = Some (F64.of_int (-5)) /\
  amount_tolerance default_settings = F64.of_int 1.
Proof. repeat split; vm_compute; reflexivity. Qed.

(** C8, amended.  A date tolerance that is not a string of digits (a negative
    one starts with a minus sign) is rejected with the error report and all
    settings keep their values.  With a date tolerance made of digits, an
    amount tolerance that is not a number is rejected with the error report
    and the amount tolerance and the cleaning flag keep their values, while
    an amount tolerance that is a number not above zero (a negative one
    included) is accepted: the settings are saved with the amount tolerance
    0.0 and the success report is shown. *)
Theorem invalid_tolerances_rejected_or_clamped
    (st : Settings) (date_tol_str amount_tol_str : string) (auto_clean_var : Z) :
  (Text.isdigit date_tol_str = false ->
   save_settings st date_tol_str amount_tol_str auto_clean_var
   = (st, Invalid "Date tolerance must be a whole number.")) /\
  (forall s, Text.isdigit (String "-" s) = false) /\
  (Text.isdigit date_tol_str = true ->
   (float_of_str amount_tol_str = None ->
    snd (save_settings st date_tol_str amount_tol_str auto_clean_var)
    = Invalid "Amount/Tax tolerance must be a number." /\
    amount_tolerance (fst (save_settings st date_tol_str amount_tol_str auto_clean_var))
    = amount_tolerance st /\
    auto_clean_gstin (fst (save_settings st date_tol_str amount_tol_str auto_clean_var))
    = auto_clean_gstin st) /\
   (forall x, float_of_str amount_tol_str = Some x -> F64.ltb F64.zero x = false ->
    save_settings st date_tol_str amount_tol_str auto_clean_var
    = ({| date_tolerance := Z.max 0 (Text.int_of_digits date_tol_str);
          amount_tolerance := F64.zero;
          auto_clean_gstin := negb (auto_clean_var =? 0) |}, Saved))).
Proof.
  unfold save_settings. split; [| split].
  - intros ->. reflexivity.
  - exact isdigit_minus.
  - intros ->. simpl negb. cbv iota. split.
    + intros ->. repeat split; reflexivity.
    + intros x -> Hx. unfold max_zero. rewrite Hx. reflexivity.
Qed.

(** ** C3: presence matching *)

Lemma opp_involutive (x : F64.float) : F64.opp (F64.opp x) = x.
Proof. destruct x as [[] | [] | | [] m e]; reflexivity. Qed.

Lemma mirror_missing_in_books r : mirror (missing_in_books r) = missing_in_gstr2a r.
Proof. reflexivity. Qed.

Lemma mirror_missing_in_gstr2a r : mirror (missing_in_gstr2a r) = missing_in_books r.
Proof.
  unfold mirror, missing_in_gstr2a, missing_in_books. simpl.
  rewrite !opp_involutive. reflexivity.
Qed.

Lemma map_for_keys (f : Discrepancy -> Discrepancy) keys data make :
  map f (for_keys keys data make) = for_keys keys data (fun r => map f (make r)).
Proof.
  unfold for_keys. induction keys as [| k keys IH]; [reflexivity |].
  simpl. rewrite map_app, IH. f_equal. destruct (first_row k data); reflexivity.
Qed.

Lemma in_for_keys d keys data make :
  In d (for_keys keys data make) <->
  exists k r, In k keys /\ first_row k data = Some r /\ In d (make r).
Proof.
  unfold for_keys. induction keys as [| k keys IH]; simpl.
  - split; [intros [] | intros (k & r & [] & _)].
  - rewrite in_app_iff, IH. split.
    + intros [H | (k' & r & Hk & Hr & Hd)].
      * destruct (first_row k data) as [r |] eqn:E; [| destruct H].
        exists k, r. auto.
      * exists k', r. auto.
    + intros (k' & r & [<- | Hk] & Hr & Hd).
      * left. rewrite Hr. exact Hd.
      * right. exists k', r. auto.
Qed.

Lemma first_row_cons k kr data :
  first_row k (kr :: data)
  = if String.eqb (fst kr) k then Some (snd kr) else first_row k data.
Proof.
  unfold first_row. destruct (String.eqb (fst kr) k) eqn:E.
  - rewrite filter_cons_True by exact E. reflexivity.
  - rewrite filter_cons_False by (rewrite E; discriminate). reflexivity.
Qed.

Lemma first_row_none k data : first_row k data = None <-> ~ In k (map fst data).
Proof.
  induction data as [| kr data IH]; [simpl; unfold first_row; tauto |].
  rewrite first_row_cons. simpl. destruct (String.eqb (fst kr) k) eqn:E.
  - apply String.eqb_eq in E. split; [discriminate | intros H; exfalso; apply H; auto].
  - apply String.eqb_neq in E. rewrite IH. tauto.
Qed.

Lemma isin_In k l : Text.isin k l = true <-> In k l.
Proof.
  unfold Text.isin. rewrite existsb_exists. split.
  - intros (x & Hx & E). apply String.eqb_eq in E. subst x. exact Hx.
  - intros H. exists k. split; [exact H | apply String.eqb_refl].
Qed.

(** The reduced view keeps, for every key, the first row that carries it. *)
Lemma first_row_drop_duplicates_from seen k data :
  first_row k (drop_duplicates_from seen data)
  = if Text.isin k seen then None else first_row k data.
Proof.
  revert seen. induction data as [| kr data IH]; intros seen; simpl.
  - destruct (Text.isin k seen); reflexivity.
  - destruct (Text.isin (fst kr) seen) eqn:Es.
    + rewrite IH, first_row_cons. destruct (String.eqb (fst kr) k) eqn:E; [| reflexivity].
      apply String.eqb_eq in E. rewrite <- E, Es. reflexivity.
    + rewrite !first_row_cons, IH.
      destruct (String.eqb (fst kr) k) eqn:E.
      * apply String.eqb_eq in E. rewrite <- E, Es. reflexivity.
      * simpl. rewrite (String.eqb_sym k (fst kr)), E. reflexivity.
Qed.

Lemma first_row_drop_duplicates k data :
  first_row k (drop_duplicates data) = first_row k data.
Proof. unfold drop_duplicates. rewrite first_row_drop_duplicates_from. reflexivity. Qed.

Lemma elem_of_key_set k data : k ∈ key_set data <-> first_row k data <> None.
Proof.
  unfold key_set. rewrite elem_of_list_to_set, list_elem_of_In, first_row_none.
  destruct (in_dec string_dec k (map fst data)); tauto.
Qed.

Lemma for_keys_permutation keys1 keys2 data make :
  keys1 ≡ₚ keys2 -> for_keys keys1 data make ≡ₚ for_keys keys2 data make.
Proof.
  unfold for_keys. induction 1 as [| k l1 l2 _ IH | k1 k2 l | l1 l2 l3 _ IH1 _ IH2]; simpl.
  - reflexivity.
  - apply Permutation_app_head, IH.
  - apply Permutation_app_swap_app.
  - etransitivity; eassumption.
Qed.

(** A key found in the first ledger only: one discrepancy, carrying the full
    total and tax of the invoice. *)
Example missing_in_books_sample :
  perform_reconciliation elements default_settings
    [Sample.invoice "INV-002" (Sample.day 2023 7 15) "22AAAAA0000A1Z5"
       (Sample.rupees 10000) (Sample.rupees 900) (Sample.rupees 900) F64.zero
       (Sample.rupees 11800);
     Sample.inv001 (Sample.day 2023 7 15) 11800]
    [Sample.inv001 (Sample.day 2023 7 15) 11800]
  = [ {| d_invoice_no := "INV-002"; d_source := "GSTR-2A";
         d_issue_type := "Missing in Books";
         d_gstr2a_date := Sample.day 2023 7 15; d_books_date := None;
         d_gstr2a_gstin := "22AAAAA0000A1Z5"; d_books_gstin := "";
         d_amount_diff := Sample.rupees 11800; d_tax_diff := Sample.rupees 1800;
         d_details := "Invoice found in GSTR-2A but not in Books." |} ].
Proof. vm_compute. reflexivity. Qed.

(** ** C2: duplicates *)

Lemma in_dropna k r data :
  In (k, r) (dropna data) <-> In r data /\ match_key r = Some k.
Proof.
  unfold dropna. rewrite <- !list_elem_of_In, list_elem_of_omap. split.
  - intros (x & Hx & E). destruct (match_key x) eqn:Ek; [| discriminate].
    injection E as <- <-. auto.
  - intros [Hr Hk]. exists r. rewrite Hk. auto.
Qed.

Lemma dropna_cons r data :
  dropna (r :: data)
  = match match_key r with
    | Some k => (k, r) :: dropna data
    | None => dropna data
    end.
Proof. unfold dropna. simpl. destruct (match_key r); reflexivity. Qed.

Lemma count_key_dropna k data : count_key k (dropna data) = occurrences k data.
Proof.
  unfold count_key, occurrences.
  induction data as [| r data IH]; [reflexivity |].
  rewrite dropna_cons. destruct (match_key r) as [k' |] eqn:Ek.
  - destruct (String.eqb k' k) eqn:E.
    + apply String.eqb_eq in E. subst k'.
      rewrite filter_cons_True by apply String.eqb_refl.
      rewrite (filter_cons_True (fun r => match_key r = Some k)) by exact Ek.
      simpl. rewrite IH. reflexivity.
    + rewrite filter_cons_False by (simpl; rewrite E; discriminate).
      rewrite (filter_cons_False (fun r => match_key r = Some k)).
      * exact IH.
      * rewrite Ek. intros [= ->]. rewrite String.eqb_refl in E. discriminate.
  - rewrite (filter_cons_False (fun r => match_key r = Some k))
      by (rewrite Ek; discriminate).
    exact IH.
Qed.

Lemma count_key_cons k kr rows :
  count_key k (kr :: rows)
  = if String.eqb (fst kr) k then S (count_key k rows) else count_key k rows.
Proof.
  unfold count_key. destruct (String.eqb (fst kr) k) eqn:E.
  - rewrite filter_cons_True by exact E. reflexivity.
  - rewrite filter_cons_False by (rewrite E; discriminate). reflexivity.
Qed.

Lemma count_key_duplicated k (data rows : list (string * Invoice)) :
  count_key k (filter (fun kr => Nat.ltb 1 (count_key (fst kr) data) = true) rows)
  = if Nat.ltb 1 (count_key k data) then count_key k rows else O.
Proof.
  induction rows as [| kr rows IH]; [destruct (Nat.ltb _ _); reflexivity |].
  rewrite count_key_cons.
  destruct (Nat.ltb 1 (count_key (fst kr) data)) eqn:Ec.
  - rewrite filter_cons_True by exact Ec. rewrite count_key_cons, IH.
    destruct (String.eqb (fst kr) k) eqn:E; [| reflexivity].
    apply String.eqb_eq in E. rewrite <- E, Ec. reflexivity.
  - rewrite filter_cons_False by (rewrite Ec; discriminate). rewrite IH.
    destruct (String.eqb (fst kr) k) eqn:E; [| reflexivity].
    apply String.eqb_eq in E. rewrite <- E, Ec. reflexivity.
Qed.

Lemma keyed_row_key data k r :
  keyed data -> In (k, r) (dropna data) ->
  k = invoice_no r +:+ "_" +:+ supplier_gstin r.
Proof.
  intros Hkeyed Hin. apply in_dropna in Hin as [Hr Hk].
  unfold keyed in Hkeyed. rewrite List.Forall_forall in Hkeyed.
  specialize (Hkeyed r Hr). rewrite Hk in Hkeyed. unfold build_match_key in Hkeyed.
  destruct (_ || _); [discriminate |]. injection Hkeyed as ->. reflexivity.
Qed.

Lemma in_duplicated_rows kr data : In kr (duplicated_rows data) -> In kr data.
Proof.
  unfold duplicated_rows. rewrite <- !list_elem_of_In, list_elem_of_filter. tauto.
Qed.

(** ** C5: the summary *)

Lemma count_where_snoc p results d :
  count_where p (results ++ [d])
  = (count_where p results + (if p (d_issue_type d) then 1 else 0))%nat.
Proof.
  unfold count_where. rewrite filter_app, length_app. f_equal.
  destruct (p (d_issue_type d)) eqn:E.
  - rewrite filter_cons_True by exact E. reflexivity.
  - rewrite filter_cons_False by (rewrite E; discriminate). reflexivity.
Qed.

(** C5, as found: the report of one invoice that differs by 5 days and by 10
    rupees holds one discrepancy, whose issue type starts with the date tag;
    the summary counts it under the date mismatches and also under the
    amount/tax mismatches. *)
Lemma discrepancy_counted_in_two_categories :
  map d_issue_type
    (perform_reconciliation elements default_settings
       [Sample.inv001 (Sample.day 2023 7 15) 11810]
       [Sample.inv001 (Sample.day 2023 7 20) 11800])
  = ["Date diff: 5 days, Amount diff: ₹10.00"] /\
  total_discrepancies
    (get_summary_text Sample.sum_in_order default_settings
       (perform_reconciliation elements default_settings
          [Sample.inv001 (Sample.day 2023 7 15) 11810]
          [Sample.inv001 (Sample.day 2023 7 20) 11800])) = 1%nat /\
  n_date_mismatch
    (get_summary_text Sample.sum_in_order default_settings
       (perform_reconciliation elements default_settings
          [Sample.inv001 (Sample.day 2023 7 15) 11810]
          [Sample.inv001 (Sample.day 2023 7 20) 11800])) = 1%nat /\
  n_amount_tax_mismatch
    (get_summary_text Sample.sum_in_order default_settings
       (perform_reconciliation elements default_settings
          [Sample.inv001 (Sample.day 2023 7 15) 11810]
          [Sample.inv001 (Sample.day 2023 7 20) 11800])) = 1%nat.
Proof. repeat split; vm_compute; reflexivity. Qed.

(** ** Whole numbers in binary64 *)

Lemma digits2_pos_bounds (p : positive) :
  2 ^ (Zpos (digits2_pos p) - 1) <= Zpos p < 2 ^ Zpos (digits2_pos p).
Proof.
  induction p as [p IH | p IH |]; cbn [digits2_pos].
  - rewrite Pos2Z.inj_succ, (Pos2Z.inj_xI p).
    replace (Z.succ (Zpos (digits2_pos p)) - 1) with (Z.succ (Zpos (digits2_pos p) - 1)) by lia.
    rewrite !Z.pow_succ_r by lia.
    generalize dependent (2 ^ (Zpos (digits2_pos p) - 1)).
    generalize (2 ^ Zpos (digits2_pos p)). intros; lia.
  - rewrite Pos2Z.inj_succ, (Pos2Z.inj_xO p).
    replace (Z.succ (Zpos (digits2_pos p)) - 1) with (Z.succ (Zpos (digits2_pos p) - 1)) by lia.
    rewrite !Z.pow_succ_r by lia.
    generalize dependent (2 ^ (Zpos (digits2_pos p) - 1)).
    generalize (2 ^ Zpos (digits2_pos p)). intros; lia.
  - simpl. lia.
Qed.

Lemma digits2_pos_unique (p : positive) (d : Z) :
  2 ^ (d - 1) <= Zpos p < 2 ^ d -> Zpos (digits2_pos p) = d.
Proof.
  intros [Hl Hu]. pose proof (digits2_pos_bounds p) as [Hl' Hu'].
  assert (Hd : 0 < d).
  { destruct (Z_lt_le_dec 0 d) as [H | H]; [exact H |].
    exfalso. destruct (Z.eq_dec d 0) as [-> | Hne]; [simpl in Hu; lia |].
    rewrite Z.pow_neg_r in Hu by lia. lia. }
  destruct (Z.lt_trichotomy (Zpos (digits2_pos p)) d) as [H | [H | H]]; [| exact H |]; exfalso.
  - assert (2 ^ Zpos (digits2_pos p) <= 2 ^ (d - 1)) by (apply Z.pow_le_mono_r; lia). lia.
  - assert (2 ^ d <= 2 ^ (Zpos (digits2_pos p) - 1)) by (apply Z.pow_le_mono_r; lia). lia.
Qed.

Lemma iter_xO_value (m d : positive) : Zpos (Pos.iter xO m d) = Zpos m * 2 ^ Zpos d.
Proof.
  induction d as [| d IH] using Pos.peano_ind.
  - simpl. lia.
  - rewrite Pos.iter_succ, Pos2Z.inj_xO, IH, Pos2Z.inj_succ, Z.pow_succ_r by lia. lia.
Qed.

Lemma digits2_pos_shifted (m : positive) (k : Z) (M : positive) :
  0 <= k -> Zpos M = Zpos m * 2 ^ k -> Zpos (digits2_pos M) = Zpos (digits2_pos m) + k.
Proof.
  intros Hk HM. apply digits2_pos_unique. pose proof (digits2_pos_bounds m) as [Hl Hu].
  rewrite HM.
  replace (Zpos (digits2_pos m) + k - 1) with ((Zpos (digits2_pos m) - 1) + k) by lia.
  rewrite !Z.pow_add_r by lia.
  assert (0 < 2 ^ k) by (apply Z.pow_pos_nonneg; lia).
  split; [apply Z.mul_le_mono_nonneg_r; lia | apply Z.mul_lt_mono_pos_r; lia].
Qed.

Lemma iter_pos_nat {A} (f : A -> A) (p : positive) (x : A) :
  SpecFloat.iter_pos f p x = Nat.iter (Pos.to_nat p) f x.
Proof.
  revert x. induction p as [p IH | p IH |]; intros x; cbn [SpecFloat.iter_pos].
  - rewrite !IH, Pos2Nat.inj_xI. cbn [Nat.mul]. rewrite Nat.add_0_r.
    rewrite <- Nat.iter_add, <- Nat.iter_succ_r. reflexivity.
  - rewrite !IH, Pos2Nat.inj_xO. cbn [Nat.mul]. rewrite Nat.add_0_r.
    rewrite <- Nat.iter_add. reflexivity.
  - reflexivity.
Qed.

Lemma shr_1_exact (n : nat) (M : positive) :
  Nat.iter n shr_1 {| shr_m := Zpos (Nat.iter n xO M); shr_r := false; shr_s := false |}
  = {| shr_m := Zpos M; shr_r := false; shr_s := false |}.
Proof.
  induction n as [| n IH]; [reflexivity |].
  rewrite Nat.iter_succ_r. cbn [Nat.iter shr_1 orb]. exact IH.
Qed.

Lemma iter_pos_shr_1_exact (p M : positive) :
  SpecFloat.iter_pos shr_1 p {| shr_m := Zpos (Pos.iter xO M p); shr_r := false; shr_s := false |}
  = {| shr_m := Zpos M; shr_r := false; shr_s := false |}.
Proof. rewrite iter_pos_nat, Pos2Nat.inj_iter. apply shr_1_exact. Qed.

Lemma binary_round_aux_canonical s (M : positive) (t : Z) :
  fexp F64.prec F64.emax (Zpos (digits2_pos M) + t) = t ->
  t <= F64.emax - F64.prec ->
  binary_round_aux F64.prec F64.emax s (Zpos M) t loc_Exact = S754_finite s M t.
Proof.
  intros Hc Ht. unfold binary_round_aux, shr_fexp.
  cbn [Zdigits2 shr_record_of_loc]. rewrite Hc, Z.sub_diag.
  cbn [shr shr_m loc_of_shr_record round_nearest_even Zdigits2 shr_record_of_loc].
  rewrite Hc, Z.sub_diag. cbn [shr shr_m].
  apply Z.leb_le in Ht. rewrite Ht. reflexivity.
Qed.

(** Rounding a whole number below 2^53, however it is written as a
    mantissa and an exponent, gives the number itself, with its mantissa
    shifted to 53 bits. *)
Lemma binary_round_exact s (m : positive) (e : Z) (N M : positive) (t : Z) :
  Zpos N < 2 ^ 53 ->
  t = Zpos (digits2_pos N) - 53 ->
  Zpos M = Zpos N * 2 ^ (- t) ->
  (0 <= e -> Zpos N = Zpos m * 2 ^ e) ->
  (e < 0 -> Zpos m = Zpos N * 2 ^ (- e)) ->
  binary_round F64.prec F64.emax s m e = S754_finite s M t.
Proof.
  intros HN Ht HM Hpos Hneg.
  pose proof (digits2_pos_bounds N) as [HNl HNu].
  assert (Hd : Zpos (digits2_pos N) <= 53).
  { destruct (Z_le_gt_dec (Zpos (digits2_pos N)) 53) as [H | H]; [exact H |].
    assert (2 ^ 53 <= 2 ^ (Zpos (digits2_pos N) - 1)) by (apply Z.pow_le_mono_r; lia). lia. }
  assert (Ht0 : t <= 0) by lia.
  assert (HdM : Zpos (digits2_pos M) = 53).
  { pose proof (digits2_pos_shifted N (- t) M ltac:(lia) HM). lia. }
  assert (Hcan : fexp F64.prec F64.emax (Zpos (digits2_pos M) + t) = t).
  { unfold fexp, emin, F64.prec, F64.emax. rewrite HdM. lia. }
  assert (Hdm : Zpos (digits2_pos m) + e = Zpos (digits2_pos M) + t).
  { destruct (Z_le_gt_dec 0 e) as [He | He].
    - pose proof (digits2_pos_shifted m e N He (Hpos He)). lia.
    - assert (He' : e < 0) by lia.
      pose proof (digits2_pos_shifted N (- e) m ltac:(lia) (Hneg He')). lia. }
  unfold binary_round. rewrite Hdm, Hcan. unfold shl_align.
  destruct (t - e) as [| p | d] eqn:Ete.
  - (* e = t *)
    assert (e = t) by lia. subst e.
    assert (m = M).
    { apply Pos2Z.inj. destruct (Z_le_gt_dec 0 t) as [H0 | H0].
      - assert (Hz : t = 0) by lia. pose proof (Hpos H0) as HN'.
        rewrite Hz in HN', HM. change (2 ^ 0) with 1 in HN'. change (2 ^ (- 0)) with 1 in HM.
        lia.
      - rewrite HM. apply Hneg. lia. }
    subst m. apply binary_round_aux_canonical; [exact Hcan | unfold F64.emax, F64.prec; lia].
  - (* e < t: the mantissa is shifted right, by zeros only *)
    assert (He : e < 0) by lia.
    assert (Hm : m = Pos.iter xO M p).
    { apply Pos2Z.inj. rewrite iter_xO_value, (Hneg He), HM, <- Ete.
      replace (- e) with (- t + (t - e)) by lia. rewrite Z.pow_add_r by lia. ring. }
    unfold binary_round_aux, shr_fexp. cbn [Zdigits2 shr_record_of_loc].
    rewrite Hdm, Hcan, Ete. cbn [shr]. rewrite Hm, iter_pos_shr_1_exact.
    cbn [shr_m loc_of_shr_record round_nearest_even Zdigits2 shr_record_of_loc].
    replace (e + Zpos p) with t by lia.
    rewrite Hcan, Z.sub_diag. cbn [shr shr_m].
    assert (Hle : (t <=? F64.emax - F64.prec) = true)
      by (apply Z.leb_le; unfold F64.emax, F64.prec; lia).
    rewrite Hle. reflexivity.
  - (* t < e: the mantissa is shifted left *)
    assert (HMm : Pos.iter xO m d = M).
    { apply Pos2Z.inj. rewrite iter_xO_value, HM.
      assert (Hd' : Zpos d = e - t) by lia. rewrite Hd'.
      destruct (Z_le_gt_dec 0 e) as [He | He].
      - rewrite (Hpos He). replace (e - t) with (e + - t) by lia.
        rewrite Z.pow_add_r by lia. ring.
      - assert (He' : e < 0) by lia. pose proof (Hneg He') as Hm.
        replace (- t) with (- e + (e - t)) by lia. rewrite Z.pow_add_r by lia.
        rewrite Hm. ring. }
    rewrite HMm. apply binary_round_aux_canonical; [exact Hcan | unfold F64.emax, F64.prec; lia].
Qed.

Lemma whole_mantissa (N : positive) :
  Zpos N < 2 ^ 53 ->
  exists M : positive, Zpos M = Zpos N * 2 ^ (- (Zpos (digits2_pos N) - 53)).
Proof.
  intros HN. exists (Z.to_pos (Zpos N * 2 ^ (- (Zpos (digits2_pos N) - 53)))).
  rewrite Z2Pos.id; [reflexivity |].
  apply Z.mul_pos_pos; [lia |]. apply Z.pow_pos_nonneg; [lia |].
  pose proof (digits2_pos_bounds N) as [Hl _].
  destruct (Z_le_gt_dec (Zpos (digits2_pos N)) 53) as [H | H]; [lia |].
  assert (2 ^ 53 <= 2 ^ (Zpos (digits2_pos N) - 1)) by (apply Z.pow_le_mono_r; lia). lia.
Qed.

Lemma of_int_zero : F64.of_int 0 = S754_zero false.
Proof. reflexivity. Qed.

(** The float of a whole number below 2^53 that is not zero. *)
Lemma of_int_finite (z : Z) (N M : positive) :
  Z.abs z = Zpos N -> Zpos N < 2 ^ 53 ->
  Zpos M = Zpos N * 2 ^ (- (Zpos (digits2_pos N) - 53)) ->
  F64.of_int z = S754_finite (z <? 0) M (Zpos (digits2_pos N) - 53).
Proof.
  intros Hz HN HM. unfold F64.of_int, F64.of_decimal. rewrite Hz.
  change (10 ^ 0) with 1. rewrite Z.mul_1_r. cbn [Z.to_pos].
  apply (binary_round_exact _ N 0 N M); try assumption; try reflexivity.
  - intros _. change (2 ^ 0) with 1. lia.
  - lia.
Qed.

(** A whole number below 2^53 written as a mantissa at an exponent that is
    not positive is normalised to the float of that number. *)
Lemma binary_normalize_whole (z ez : Z) :
  ez <= 0 -> Z.abs z < 2 ^ 53 ->
  binary_normalize F64.prec F64.emax (z * 2 ^ (- ez)) ez false = F64.of_int z.
Proof.
  intros Hez Hz.
  assert (Hp : 0 < 2 ^ (- ez)) by (apply Z.pow_pos_nonneg; lia).
  destruct z as [| N | N].
  - reflexivity.
  - destruct (whole_mantissa N Hz) as [M HM].
    rewrite (of_int_finite (Zpos N) N M eq_refl Hz HM).
    destruct (Zpos N * 2 ^ (- ez)) as [| m | m] eqn:Em; try lia.
    cbn [binary_normalize]. apply (binary_round_exact _ m ez N M); try assumption;
      try reflexivity.
    + intros H0. assert (ez = 0) by lia. subst ez. change (2 ^ (- 0)) with 1 in Em.
      change (2 ^ 0) with 1. lia.
    + intros _. lia.
  - destruct (whole_mantissa N Hz) as [M HM].
    rewrite (of_int_finite (Zneg N) N M eq_refl Hz HM).
    destruct (Zneg N * 2 ^ (- ez)) as [| m | m] eqn:Em; try lia.
    cbn [binary_normalize]. apply (binary_round_exact _ m ez N M); try assumption;
      try reflexivity.
    + intros H0. assert (ez = 0) by lia. subst ez. change (2 ^ (- 0)) with 1 in Em.
      change (2 ^ 0) with 1. lia.
    + intros _. lia.
Qed.

Lemma shl_align_value (M : positive) (t ez : Z) :
  ez <= t -> Zpos (fst (shl_align M t ez)) = Zpos M * 2 ^ (t - ez).
Proof.
  intros H. unfold shl_align. destruct (ez - t) as [| p | d] eqn:E; cbn [fst].
  - replace (t - ez) with 0 by lia. change (2 ^ 0) with 1. lia.
  - lia.
  - rewrite iter_xO_value. f_equal. f_equal. lia.
Qed.

(** The mantissa of the float of a whole number, aligned at a lower
    exponent, is the number scaled. *)
Lemma aligned_whole (z : Z) (N M : positive) (ez : Z) :
  Z.abs z = Zpos N -> Zpos N < 2 ^ 53 ->
  Zpos M = Zpos N * 2 ^ (- (Zpos (digits2_pos N) - 53)) ->
  ez <= Zpos (digits2_pos N) - 53 -> ez <= 0 ->
  cond_Zopp (z <? 0) (Zpos (fst (shl_align M (Zpos (digits2_pos N) - 53) ez)))
  = z * 2 ^ (- ez).
Proof.
  intros Hz HN HM Hez Hez0. rewrite (shl_align_value _ _ _ Hez), HM.
  pose proof (digits2_pos_bounds N) as [Hl _].
  assert (Hd : Zpos (digits2_pos N) <= 53).
  { destruct (Z_le_gt_dec (Zpos (digits2_pos N)) 53) as [H | H]; [exact H |].
    assert (2 ^ 53 <= 2 ^ (Zpos (digits2_pos N) - 1)) by (apply Z.pow_le_mono_r; lia). lia. }
  rewrite <- Z.mul_assoc, <- Z.pow_add_r by lia.
  replace (- (Zpos (digits2_pos N) - 53) + (Zpos (digits2_pos N) - 53 - ez)) with (- ez) by lia.
  destruct z as [| p | p]; try discriminate Hz; cbn [Z.ltb Z.compare cond_Zopp];
    simpl in Hz; injection Hz as ->; lia.
Qed.

Lemma whole_exponent_nonpositive (N : positive) :
  Zpos N < 2 ^ 53 -> Zpos (digits2_pos N) - 53 <= 0.
Proof.
  intros HN. pose proof (digits2_pos_bounds N) as [Hl _].
  destruct (Z_le_gt_dec (Zpos (digits2_pos N)) 53) as [H | H]; [lia |].
  assert (2 ^ 53 <= 2 ^ (Zpos (digits2_pos N) - 1)) by (apply Z.pow_le_mono_r; lia). lia.
Qed.

Lemma of_int_nonzero (z : Z) :
  z <> 0 -> Z.abs z < 2 ^ 53 ->
  exists N M, Z.abs z = Zpos N /\ Zpos N < 2 ^ 53 /\
    Zpos M = Zpos N * 2 ^ (- (Zpos (digits2_pos N) - 53)) /\
    F64.of_int z = S754_finite (z <? 0) M (Zpos (digits2_pos N) - 53).
Proof.
  intros Hz Hb.
  assert (HN : exists N, Z.abs z = Zpos N) by (destruct z; [lia | eexists .. ]; reflexivity).
  destruct HN as [N HN]. rewrite HN in Hb. destruct (whole_mantissa N Hb) as [M HM].
  exists N, M. repeat split; try assumption. apply of_int_finite; assumption.
Qed.

(** Sums and differences of whole numbers are exact as long as they stay
    below 2^53. *)
Lemma add_of_int (a b : Z) :
  Z.abs a < 2 ^ 53 -> Z.abs b < 2 ^ 53 -> Z.abs (a + b) < 2 ^ 53 ->
  F64.add (F64.of_int a) (F64.of_int b) = F64.of_int (a + b).
Proof.
  intros Ha Hb Hab.
  destruct (Z.eq_dec a 0) as [-> | Ha0].
  { rewrite of_int_zero, Z.add_0_l. destruct (Z.eq_dec b 0) as [-> | Hb0]; [reflexivity |].
    destruct (of_int_nonzero b Hb0 Hb) as (N & M & _ & _ & _ & ->). reflexivity. }
  destruct (of_int_nonzero a Ha0 Ha) as (Na & Ma & HNa & Ha' & HMa & Ea).
  destruct (Z.eq_dec b 0) as [-> | Hb0].
  { rewrite of_int_zero, Z.add_0_r, Ea. reflexivity. }
  destruct (of_int_nonzero b Hb0 Hb) as (Nb & Mb & HNb & Hb' & HMb & Eb).
  rewrite Ea, Eb.
  unfold F64.add, SFadd. cbv zeta.
  pose proof (whole_exponent_nonpositive Na Ha') as Hta.
  pose proof (whole_exponent_nonpositive Nb Hb') as Htb.
  rewrite (aligned_whole a Na Ma _ HNa Ha' HMa) by lia.
  rewrite (aligned_whole b Nb Mb _ HNb Hb' HMb) by lia.
  rewrite <- Z.mul_add_distr_r. apply binary_normalize_whole; lia.
Qed.

Lemma sub_of_int (a b : Z) :
  Z.abs a < 2 ^ 53 -> Z.abs b < 2 ^ 53 -> Z.abs (a - b) < 2 ^ 53 ->
  F64.sub (F64.of_int a) (F64.of_int b) = F64.of_int (a - b).
Proof.
  intros Ha Hb Hab.
  destruct (Z.eq_dec b 0) as [-> | Hb0].
  { rewrite of_int_zero, Z.sub_0_r. destruct (Z.eq_dec a 0) as [-> | Ha0]; [reflexivity |].
    destruct (of_int_nonzero a Ha0 Ha) as (N & M & _ & _ & _ & ->). reflexivity. }
  destruct (of_int_nonzero b Hb0 Hb) as (Nb & Mb & HNb & Hb' & HMb & Eb).
  destruct (Z.eq_dec a 0) as [-> | Ha0].
  { rewrite of_int_zero, Eb.
    assert (HNb' : Z.abs (0 - b) = Zpos Nb) by lia.
    rewrite (of_int_finite (0 - b) Nb Mb HNb' Hb' HMb).
    unfold F64.sub, SFsub. f_equal.
    destruct b; try contradiction; reflexivity. }
  destruct (of_int_nonzero a Ha0 Ha) as (Na & Ma & HNa & Ha' & HMa & Ea).
  rewrite Ea, Eb.
  unfold F64.sub, SFsub. cbv zeta.
  pose proof (whole_exponent_nonpositive Na Ha') as Hta.
  pose proof (whole_exponent_nonpositive Nb Hb') as Htb.
  rewrite (aligned_whole a Na Ma _ HNa Ha' HMa) by lia.
  rewrite (aligned_whole b Nb Mb _ HNb Hb' HMb) by lia.
  rewrite <- Z.mul_sub_distr_r. apply binary_normalize_whole; lia.
Qed.

Lemma abs_of_int (z : Z) :
  Z.abs z < 2 ^ 53 -> F64.abs (F64.of_int z) = F64.of_int (Z.abs z).
Proof.
  intros Hz. destruct z as [| p | p]; [reflexivity | |];
    change (Z.abs (Zneg p)) with (Zpos p) in *; change (Z.abs (Zpos p)) with (Zpos p) in *;
    destruct (whole_mantissa p Hz) as [M HM].
  - rewrite (of_int_finite (Zpos p) p M eq_refl Hz HM). reflexivity.
  - rewrite (of_int_finite (Zneg p) p M eq_refl Hz HM).
    rewrite (of_int_finite (Zpos p) p M eq_refl Hz HM). reflexivity.
Qed.

(** The order of the floats of two whole numbers below 2^53 that are not
    negative is the order of the numbers. *)
Lemma ltb_of_int (x y : Z) :
  0 <= x < 2 ^ 53 -> 0 <= y < 2 ^ 53 ->
  F64.ltb (F64.of_int x) (F64.of_int y) = (x <? y).
Proof.
  intros Hx Hy. destruct x as [| Nx | Nx]; [| | lia]; destruct y as [| Ny | Ny]; try lia.
  - reflexivity.
  - destruct (whole_mantissa Ny (proj2 Hy)) as [M HM].
    rewrite (of_int_finite (Zpos Ny) Ny M eq_refl (proj2 Hy) HM). reflexivity.
  - destruct (whole_mantissa Nx (proj2 Hx)) as [M HM].
    rewrite (of_int_finite (Zpos Nx) Nx M eq_refl (proj2 Hx) HM). reflexivity.
  - destruct (whole_mantissa Nx (proj2 Hx)) as [Mx HMx].
    destruct (whole_mantissa Ny (proj2 Hy)) as [My HMy].
    rewrite (of_int_finite (Zpos Nx) Nx Mx eq_refl (proj2 Hx) HMx).
    rewrite (of_int_finite (Zpos Ny) Ny My eq_refl (proj2 Hy) HMy).
    unfold F64.ltb, SFltb, SFcompare. cbn [Z.ltb Z.compare].
    pose proof (digits2_pos_bounds Nx) as [Hxl Hxu].
    pose proof (digits2_pos_bounds Ny) as [Hyl Hyu].
    pose proof (whole_exponent_nonpositive Nx (proj2 Hx)) as Htx.
    pose proof (whole_exponent_nonpositive Ny (proj2 Hy)) as Hty.
    unfold Z.ltb.
    destruct (Zpos (digits2_pos Nx) - 53 ?= Zpos (digits2_pos Ny) - 53) eqn:Ec.
    + apply Z.compare_eq in Ec.
      assert (Hd : Zpos (digits2_pos Nx) = Zpos (digits2_pos Ny)) by lia.
      rewrite Hd in HMx.
      change (Pos.compare_cont Eq Mx My) with (Zpos Mx ?= Zpos My).
      rewrite HMx, HMy.
      assert (Hc : 0 < 2 ^ (- (Zpos (digits2_pos Ny) - 53))) by (apply Z.pow_pos_nonneg; lia).
      change (Nx ?= Ny)%positive with (Zpos Nx ?= Zpos Ny).
      destruct (Z.compare_spec (Zpos Nx) (Zpos Ny)) as [He | Hl | Hg].
      * rewrite He, Z.compare_refl. reflexivity.
      * assert (Hm : Zpos Nx * 2 ^ (- (Zpos (digits2_pos Ny) - 53))
                     < Zpos Ny * 2 ^ (- (Zpos (digits2_pos Ny) - 53))) by nia.
        apply (proj2 (Z.compare_lt_iff _ _)) in Hm. rewrite Hm. reflexivity.
      * assert (Hm : Zpos Ny * 2 ^ (- (Zpos (digits2_pos Ny) - 53))
                     < Zpos Nx * 2 ^ (- (Zpos (digits2_pos Ny) - 53))) by nia.
        apply (proj2 (Z.compare_gt_iff _ _)) in Hm. rewrite Hm. reflexivity.
    + apply (proj1 (Z.compare_lt_iff _ _)) in Ec.
      assert (Hlt : Zpos Nx < Zpos Ny).
      { apply Z.lt_le_trans with (2 ^ Zpos (digits2_pos Nx)); [exact Hxu |].
        apply Z.le_trans with (2 ^ (Zpos (digits2_pos Ny) - 1)); [| exact Hyl].
        apply Z.pow_le_mono_r; lia. }
      apply (proj2 (Z.compare_lt_iff _ _)) in Hlt. change (Nx ?= Ny)%positive with (Zpos Nx ?= Zpos Ny).
      rewrite Hlt. reflexivity.
    + apply (proj1 (Z.compare_gt_iff _ _)) in Ec.
      assert (Hgt : Zpos Ny < Zpos Nx).
      { apply Z.lt_le_trans with (2 ^ Zpos (digits2_pos Ny)); [exact Hyu |].
        apply Z.le_trans with (2 ^ (Zpos (digits2_pos Nx) - 1)); [| exact Hxl].
        apply Z.pow_le_mono_r; lia. }
      apply (proj2 (Z.compare_gt_iff _ _)) in Hgt. change (Nx ?= Ny)%positive with (Zpos Nx ?= Zpos Ny).
      rewrite Hgt. reflexivity.
Qed.

(** ** The parts of a run *)

Lemma first_with_key_nil k r : ~ first_with_key k r [].
Proof. intros (before & after & H & _). destruct before; discriminate H. Qed.

Lemma first_with_key_cons k r x data :
  first_with_key k r (x :: data) <->
  (match_key x = Some k /\ r = x) \/ (match_key x <> Some k /\ first_with_key k r data).
Proof.
  split.
  - intros (before & after & Hd & Hk & Hb). destruct before as [| y before].
    + injection Hd as -> ->. left. split; [exact Hk | reflexivity].
    + injection Hd as -> ->. right. inversion Hb as [| ? ? Hy Hrest]; subst.
      split; [exact Hy |]. exists before, after. repeat split; assumption.
  - intros [[Hk ->] | [Hx (before & after & -> & Hk & Hb)]].
    + exists [], data. repeat split; [exact Hk | constructor].
    + exists (x :: before), after. repeat split; [exact Hk | constructor; assumption].
Qed.

(** The row that the run takes for a key is the first row of the ledger
    that carries it. *)
Lemma first_row_first_with_key k r data :
  first_row k (dropna data) = Some r <-> first_with_key k r data.
Proof.
  induction data as [| x data IH].
  - split; [discriminate | intros H; destruct (first_with_key_nil k r H)].
  - rewrite first_with_key_cons, dropna_cons.
    destruct (match_key x) as [k' |] eqn:Ek.
    + rewrite first_row_cons. cbn [fst snd]. destruct (String.eqb k' k) eqn:E.
      * apply String.eqb_eq in E. subst k'. split.
        -- intros [= <-]. left. split; reflexivity.
        -- intros [[_ ->] | [H _]]; [reflexivity | destruct (H eq_refl)].
      * apply String.eqb_neq in E. rewrite IH. split.
        -- intros H. right. split; [intros [= ->]; apply E; reflexivity | exact H].
        -- intros [[[= ->] _] | [_ H]]; [destruct (E eq_refl) | exact H].
    + rewrite IH. split.
      * intros H. right. split; [discriminate | exact H].
      * intros [[[=] _] | [_ H]]. exact H.
Qed.

Lemma first_row_absent k data :
  first_row k (dropna data) = None <-> occurrences k data = 0%nat.
Proof.
  rewrite <- count_key_dropna. unfold first_row, count_key.
  destruct (filter _ (dropna data)); simpl; split; try reflexivity; discriminate.
Qed.

Lemma in_perform_reconciliation set_iter cfg gstr2a_data books_data d :
  In d (perform_reconciliation set_iter cfg gstr2a_data books_data) <->
  In d (gstr2a_duplicates gstr2a_data) \/
  In d (books_duplicates books_data) \/
  In d (missing_in_books_results set_iter gstr2a_data books_data) \/
  In d (missing_in_gstr2a_results set_iter gstr2a_data books_data) \/
  In d (mismatch_results set_iter cfg gstr2a_data books_data).
Proof. unfold perform_reconciliation. rewrite !in_app_iff. tauto. Qed.

Lemma in_set_iter (set_iter : gset string -> list string) :
  (forall s, set_iter s ≡ₚ elements s) ->
  forall s k, In k (set_iter s) <-> k ∈ s.
Proof. intros Hiter s k. rewrite <- list_elem_of_In, Hiter. apply elem_of_elements. Qed.

Lemma in_gstr2a_duplicates d data :
  In d (gstr2a_duplicates data) ->
  exists r, In r data /\ d = duplicate_gstr2a r.
Proof.
  unfold gstr2a_duplicates. intros H. apply in_map_iff in H as ([k r] & <- & Hin).
  apply in_duplicated_rows, in_dropna in Hin as [Hr _]. exists r. auto.
Qed.

Lemma in_books_duplicates d data :
  In d (books_duplicates data) ->
  exists r, In r data /\ d = duplicate_books r.
Proof.
  unfold books_duplicates. intros H. apply in_map_iff in H as ([k r] & <- & Hin).
  apply in_duplicated_rows, in_dropna in Hin as [Hr _]. exists r. auto.
Qed.

(** The keys found in the first ledger only, each with its first row. *)
Lemma in_missing_in_books_results set_iter gstr2a_data books_data d :
  (forall s, set_iter s ≡ₚ elements s) ->
  In d (missing_in_books_results set_iter gstr2a_data books_data) <->
  exists k r, first_with_key k r gstr2a_data /\ occurrences k books_data = 0%nat /\
              d = missing_in_books r.
Proof.
  intros Hiter. unfold missing_in_books_results. rewrite in_for_keys. split.
  - intros (k & r & Hk & Hr & Hd).
    apply (in_set_iter set_iter Hiter) in Hk. apply elem_of_difference in Hk as [_ Hb].
    rewrite elem_of_key_set, !first_row_drop_duplicates in Hb.
    rewrite first_row_drop_duplicates in Hr.
    destruct Hd as [<- | []]. exists k, r.
    split; [apply first_row_first_with_key, Hr |]. split; [| reflexivity].
    apply first_row_absent.
    destruct (first_row k (dropna books_data)); [exfalso; apply Hb; discriminate | reflexivity].
  - intros (k & r & Hr & Hb & ->). apply first_row_first_with_key in Hr.
    apply first_row_absent in Hb. exists k, r.
    split; [| split; [| left; reflexivity]].
    + apply (in_set_iter set_iter Hiter), elem_of_difference.
      rewrite !elem_of_key_set, !first_row_drop_duplicates, Hr, Hb.
      split; [discriminate | intros H; apply H; reflexivity].
    + rewrite first_row_drop_duplicates. exact Hr.
Qed.

Lemma in_missing_in_gstr2a_results set_iter gstr2a_data books_data d :
  (forall s, set_iter s ≡ₚ elements s) ->
  In d (missing_in_gstr2a_results set_iter gstr2a_data books_data) <->
  exists k r, first_with_key k r books_data /\ occurrences k gstr2a_data = 0%nat /\
              d = missing_in_gstr2a r.
Proof.
  intros Hiter. unfold missing_in_gstr2a_results. rewrite in_for_keys. split.
  - intros (k & r & Hk & Hr & Hd).
    apply (in_set_iter set_iter Hiter) in Hk. apply elem_of_difference in Hk as [_ Hb].
    rewrite elem_of_key_set, !first_row_drop_duplicates in Hb.
    rewrite first_row_drop_duplicates in Hr.
    destruct Hd as [<- | []]. exists k, r.
    split; [apply first_row_first_with_key, Hr |]. split; [| reflexivity].
    apply first_row_absent.
    destruct (first_row k (dropna gstr2a_data)); [exfalso; apply Hb; discriminate | reflexivity].
  - intros (k & r & Hr & Hb & ->). apply first_row_first_with_key in Hr.
    apply first_row_absent in Hb. exists k, r.
    split; [| split; [| left; reflexivity]].
    + apply (in_set_iter set_iter Hiter), elem_of_difference.
      rewrite !elem_of_key_set, !first_row_drop_duplicates, Hr, Hb.
      split; [discriminate | intros H; apply H; reflexivity].
    + rewrite first_row_drop_duplicates. exact Hr.
Qed.

(** The keys found in both ledgers, each with the first row of either
    ledger. *)
Lemma in_mismatch_results set_iter cfg gstr2a_data books_data d :
  (forall s, set_iter s ≡ₚ elements s) ->
  In d (mismatch_results set_iter cfg gstr2a_data books_data) <->
  exists k gstr_row book_row,
    first_with_key k gstr_row gstr2a_data /\ first_with_key k book_row books_data /\
    In d (compare_rows cfg gstr_row book_row).
Proof.
  intros Hiter. unfold mismatch_results. cbv zeta.
  rewrite in_concat. split.
  - intros (l & Hl & Hd). apply in_map_iff in Hl as (k & <- & Hk).
    rewrite !first_row_drop_duplicates in Hd.
    destruct (first_row k (dropna gstr2a_data)) as [gr |] eqn:Eg; [| destruct Hd].
    destruct (first_row k (dropna books_data)) as [br |] eqn:Eb; [| destruct Hd].
    exists k, gr, br. rewrite <- !first_row_first_with_key. auto.
  - intros (k & gr & br & Hg & Hb & Hd).
    apply first_row_first_with_key in Hg, Hb.
    exists (compare_rows cfg gr br). split; [| exact Hd].
    apply in_map_iff. exists k. rewrite !first_row_drop_duplicates, Hg, Hb.
    split; [reflexivity |].
    apply (in_set_iter set_iter Hiter), elem_of_intersection.
    rewrite !elem_of_key_set, !first_row_drop_duplicates, Hg, Hb. split; discriminate.
Qed.

(** The issue type of a mismatch starts with the text of its first issue:
    a date issue, "One invoice date missing", "GSTIN mismatch", an amount
    or a tax difference. *)
Lemma take_two_join sep c1 c2 t rest :
  Text.take 2 (Text.join sep (String c1 (String c2 t) :: rest))
  = String c1 (String c2 EmptyString).
Proof.
  destruct rest as [| y rest]; cbn [Text.join]; unfold Text.take; simpl;
    destruct t; try reflexivity; destruct (_ +:+ _); reflexivity.
Qed.

Lemma issues_of_head cfg gr br x rest :
  issues_of cfg gr br = x :: rest ->
  exists c1 c2 t, x = String c1 (String c2 t) /\
    In (String c1 (String c2 EmptyString)) ["Da"; "On"; "GS"; "Am"; "Ta"].
Proof.
  unfold issues_of, date_issues, gstin_issues, amount_issues, tax_issues. cbv zeta.
  destruct (invoice_date gr) as [g |], (invoice_date br) as [b |];
    repeat match goal with
           | |- context [if ?c then _ else _] => destruct c
           end;
    cbn [app]; intros [= <- <-] || (intros H; discriminate H);
    eexists _, _, _; (split; [reflexivity |]); simpl; tauto.
Qed.

Lemma in_compare_rows cfg gr br d :
  In d (compare_rows cfg gr br) <->
  issues_of cfg gr br <> [] /\
  d = {| d_invoice_no := invoice_no gr;
         d_source := "Both";
         d_issue_type := Text.join ", " (issues_of cfg gr br);
         d_gstr2a_date := invoice_date gr;
         d_books_date := invoice_date br;
         d_gstr2a_gstin := Text.upper (Text.strip (supplier_gstin gr));
         d_books_gstin := Text.upper (Text.strip (supplier_gstin br));
         d_amount_diff := F64.sub (total_amount gr) (total_amount br);
         d_tax_diff := F64.sub (F64.add (F64.add (cgst gr) (sgst gr)) (igst gr))
                               (F64.add (F64.add (cgst br) (sgst br)) (igst br));
         d_details := Text.join "; " (issues_of cfg gr br) |}.
Proof.
  unfold compare_rows. destruct (issues_of cfg gr br) as [| x rest] eqn:E.
  - split; [intros [] | intros [H _]; destruct (H eq_refl)].
  - split.
    + intros [<- | []]. split; [discriminate | reflexivity].
    + intros [_ ->]. left. reflexivity.
Qed.

Lemma mismatch_issue_type cfg gr br d :
  In d (compare_rows cfg gr br) ->
  d_source d = "Both" /\
  In (Text.take 2 (d_issue_type d)) ["Da"; "On"; "GS"; "Am"; "Ta"].
Proof.
  intros H. apply in_compare_rows in H as [Hne ->]. split; [reflexivity |].
  cbn [d_issue_type]. destruct (issues_of cfg gr br) as [| x rest] eqn:E; [destruct (Hne eq_refl) |].
  destruct (issues_of_head cfg gr br x rest E) as (c1 & c2 & t & -> & Hin).
  rewrite take_two_join. exact Hin.
Qed.

(** The issue type of every row of a run, by the part of the run it is in. *)
Lemma run_issue_types set_iter cfg gstr2a_data books_data d :
  (In d (gstr2a_duplicates gstr2a_data) -> d_issue_type d = "Duplicate in GSTR-2A") /\
  (In d (books_duplicates books_data) -> d_issue_type d = "Duplicate in Books") /\
  (In d (missing_in_books_results set_iter gstr2a_data books_data) ->
   d_issue_type d = "Missing in Books") /\
  (In d (missing_in_gstr2a_results set_iter gstr2a_data books_data) ->
   d_issue_type d = "Missing in GSTR-2A") /\
  (In d (mismatch_results set_iter cfg gstr2a_data books_data) ->
   d_source d = "Both" /\
   In (Text.take 2 (d_issue_type d)) ["Da"; "On"; "GS"; "Am"; "Ta"]).
Proof.
  repeat split.
  - intros H. apply in_gstr2a_duplicates in H as (r & _ & ->). reflexivity.
  - intros H. apply in_books_duplicates in H as (r & _ & ->). reflexivity.
  - unfold missing_in_books_results. rewrite in_for_keys.
    intros (k & r & _ & _ & [<- | []]). reflexivity.
  - unfold missing_in_gstr2a_results. rewrite in_for_keys.
    intros (k & r & _ & _ & [<- | []]). reflexivity.
  - unfold mismatch_results in H. cbv zeta in H. apply in_concat in H as (l & Hl & Hd).
    apply in_map_iff in Hl as (k & <- & _).
    destruct (first_row k _) as [gr |]; [| destruct Hd].
    destruct (first_row k _) as [br |]; [| destruct Hd].
    apply (mismatch_issue_type cfg gr br d Hd).
  - unfold mismatch_results in H. cbv zeta in H. apply in_concat in H as (l & Hl & Hd).
    apply in_map_iff in Hl as (k & <- & _).
    destruct (first_row k _) as [gr |]; [| destruct Hd].
    destruct (first_row k _) as [br |]; [| destruct Hd].
    apply (mismatch_issue_type cfg gr br d Hd).
Qed.

(** ** C1: the tolerance checks *)

(** The tax total of a row whose three taxes are whole numbers. *)
Lemma tax_total_whole r c s i :
  0 <= c -> 0 <= s -> 0 <= i -> c + s + i < 2 ^ 53 ->
  cgst r = F64.of_int c -> sgst r = F64.of_int s -> igst r = F64.of_int i ->
  F64.add (F64.add (cgst r) (sgst r)) (igst r) = F64.of_int (c + s + i).
Proof.
  intros Hc Hs Hi Hb -> -> ->.
  rewrite add_of_int by lia. rewrite add_of_int by lia. reflexivity.
Qed.

(** C1, as found.  With the tolerance of 1.00 rupee: the totals read from
    the texts 4.4 and 3.4 differ by 1.0, the tolerance, and the run reports
    the pair with the tag of an amount difference of 1.00, because the
    difference of the two floats is 1.0000000000000004; the totals 2.0 and
    0.9999999999999999 differ by more than the tolerance, as the numbers the
    floats stand for show, and the run reports nothing, because the
    difference of the floats is rounded to 1.0. *)
Lemma amount_check_on_rounded_difference :
  map d_issue_type
    (perform_reconciliation elements default_settings
       [Sample.invoice "INV-001" None "22AAAAA0000A1Z5" F64.zero F64.zero F64.zero F64.zero
          (clean_number "4.4")]
       [Sample.invoice "INV-001" None "22AAAAA0000A1Z5" F64.zero F64.zero F64.zero F64.zero
          (clean_number "3.4")])
  = ["Amount diff: ₹1.00"] /\
  amount_tolerance default_settings = clean_number "1.0" /\
  QArith_base.Qlt
    (F64.to_Q (amount_tolerance default_settings))
    (Qabs.Qabs (QArith_base.Qminus (F64.to_Q (clean_number "2.0"))
                                   (F64.to_Q (clean_number "0.9999999999999999")))) /\
  perform_reconciliation elements default_settings
    [Sample.invoice "INV-001" None "22AAAAA0000A1Z5" F64.zero F64.zero F64.zero F64.zero
       (clean_number "2.0")]
    [Sample.invoice "INV-001" None "22AAAAA0000A1Z5" F64.zero F64.zero F64.zero F64.zero
       (clean_number "0.9999999999999999")]
  = [].
Proof. repeat split; vm_compute; reflexivity. Qed.

(** C1, amended.  The run visits its sets of keys in any order, each key
    once.  The rows of a run that come from both ledgers are the reports of
    the pairs of rows matched on a common key, each the first row of its
    ledger with that key, that have an issue; the issue type of a report is
    the list of the issues of its pair.  Among these issues: when both dates
    are present and their difference fits a [Timedelta], there is a date
    difference exactly when the floor of the difference in days exceeds, in
    absolute value, the date tolerance, so not at the tolerance and at the
    tolerance plus one; there is an amount difference exactly when the
    binary64 difference of the two totals exceeds, in absolute value, the
    currency tolerance, and a tax difference exactly when the binary64
    difference of the sums of the three taxes of each row does; when the two
    totals and the tolerance are whole numbers below 2^53, there is an amount
    difference exactly when the absolute difference of the totals exceeds the
    tolerance; when the taxes of both rows and the tolerance are whole
    numbers, with sums below 2^53, there is a tax difference exactly when the
    absolute difference of the sums of the three taxes exceeds the
    tolerance. *)
Theorem tolerance_checks_of_a_run
    (set_iter : gset string -> list string) (cfg : Settings)
    (gstr2a_data books_data : list Invoice) :
  (forall s, set_iter s ≡ₚ elements s) ->
  (forall d,
     In d (perform_reconciliation set_iter cfg gstr2a_data books_data) /\ d_source d = "Both"
     <->
     exists k gstr_row book_row,
       first_with_key k gstr_row gstr2a_data /\
       first_with_key k book_row books_data /\
       issues_of cfg gstr_row book_row <> [] /\
       d = {| d_invoice_no := invoice_no gstr_row;
              d_source := "Both";
              d_issue_type := Text.join ", " (issues_of cfg gstr_row book_row);
              d_gstr2a_date := invoice_date gstr_row;
              d_books_date := invoice_date book_row;
              d_gstr2a_gstin := Text.upper (Text.strip (supplier_gstin gstr_row));
              d_books_gstin := Text.upper (Text.strip (supplier_gstin book_row));
              d_amount_diff := F64.sub (total_amount gstr_row) (total_amount book_row);
              d_tax_diff :=
                F64.sub
                  (F64.add (F64.add (cgst gstr_row) (sgst gstr_row)) (igst gstr_row))
                  (F64.add (F64.add (cgst book_row) (sgst book_row)) (igst book_row));
              d_details := Text.join "; " (issues_of cfg gstr_row book_row) |}) /\
  (forall gstr_row book_row,
     (forall g b,
        invoice_date gstr_row = Some g -> invoice_date book_row = Some b ->
        - 2 ^ 63 < g - b < 2 ^ 63 ->
        flagged "Date diff" (issues_of cfg gstr_row book_row)
        = (date_tolerance cfg <? Z.abs ((g - b) / ns_per_day))) /\
     flagged "Amount diff" (issues_of cfg gstr_row book_row)
     = F64.ltb (amount_tolerance cfg)
               (F64.abs (F64.sub (total_amount gstr_row) (total_amount book_row))) /\
     flagged "Tax diff" (issues_of cfg gstr_row book_row)
     = F64.ltb (amount_tolerance cfg)
               (F64.abs
                  (F64.sub
                     (F64.add (F64.add (cgst gstr_row) (sgst gstr_row)) (igst gstr_row))
                     (F64.add (F64.add (cgst book_row) (sgst book_row)) (igst book_row)))) /\
     (forall a b t,
        0 <= a < 2 ^ 53 -> 0 <= b < 2 ^ 53 -> 0 <= t < 2 ^ 53 ->
        total_amount gstr_row = F64.of_int a -> total_amount book_row = F64.of_int b ->
        amount_tolerance cfg = F64.of_int t ->
        flagged "Amount diff" (issues_of cfg gstr_row book_row) = (t <? Z.abs (a - b))) /\
     (forall c1 s1 i1 c2 s2 i2 t,
        0 <= c1 -> 0 <= s1 -> 0 <= i1 -> c1 + s1 + i1 < 2 ^ 53 ->
        0 <= c2 -> 0 <= s2 -> 0 <= i2 -> c2 + s2 + i2 < 2 ^ 53 ->
        0 <= t < 2 ^ 53 ->
        cgst gstr_row = F64.of_int c1 -> sgst gstr_row = F64.of_int s1 ->
        igst gstr_row = F64.of_int i1 ->
        cgst book_row = F64.of_int c2 -> sgst book_row = F64.of_int s2 ->
        igst book_row = F64.of_int i2 ->
        amount_tolerance cfg = F64.of_int t ->
        flagged "Tax diff" (issues_of cfg gstr_row book_row)
        = (t <? Z.abs ((c1 + s1 + i1) - (c2 + s2 + i2))))).
Proof.
  intros Hiter. split.
  - intros d. split.
    + intros [Hin Hsrc]. apply in_perform_reconciliation in Hin.
      destruct Hin as [H | [H | [H | [H | H]]]].
      * apply in_gstr2a_duplicates in H as (r & _ & ->). discriminate Hsrc.
      * apply in_books_duplicates in H as (r & _ & ->). discriminate Hsrc.
      * apply (in_missing_in_books_results _ _ _ _ Hiter) in H as (k & r & _ & _ & ->).
        discriminate Hsrc.
      * apply (in_missing_in_gstr2a_results _ _ _ _ Hiter) in H as (k & r & _ & _ & ->).
        discriminate Hsrc.
      * apply (in_mismatch_results _ _ _ _ _ Hiter) in H as (k & gr & br & Hg & Hb & Hd).
        apply in_compare_rows in Hd as [Hne ->]. exists k, gr, br. auto.
    + intros (k & gr & br & Hg & Hb & Hne & ->). split; [| reflexivity].
      apply in_perform_reconciliation. do 4 right.
      apply (in_mismatch_results _ _ _ _ _ Hiter). exists k, gr, br.
      split; [exact Hg |]. split; [exact Hb |]. apply in_compare_rows. auto.
  - intros gr br. destruct (issues_of_flags cfg gr br) as (Hd & Ha & Ht).
    split; [| split; [| split; [| split]]].
    + intros g b Hg Hb Hr. rewrite Hd, Hg, Hb. apply date_issues_flag, Hr.
    + exact Ha.
    + exact Ht.
    + intros a b t Hxa Hxb Hxt Ea Eb Et. rewrite Ha. unfold amount_diff.
      rewrite Ea, Eb, Et, sub_of_int, abs_of_int by lia. apply ltb_of_int; lia.
    + intros c1 s1 i1 c2 s2 i2 t Hc1 Hs1 Hi1 H1 Hc2 Hs2 Hi2 H2 Hxt E1 E2 E3 E4 E5 E6 Et.
      rewrite Ht. unfold tax_diff, tax_total.
      rewrite (tax_total_whole gr c1 s1 i1), (tax_total_whole br c2 s2 i2) by assumption.
      rewrite Et, sub_of_int, abs_of_int by lia. apply ltb_of_int; lia.
Qed.

Lemma tolerance_checks_witness :
  In {| d_invoice_no := "INV-001";
        d_source := "Both";
        d_issue_type := "Date diff: 4 days, Amount diff: ₹2.00";
        d_gstr2a_date := Sample.day 2023 7 15;
        d_books_date := Sample.day 2023 7 19;
        d_gstr2a_gstin := "22AAAAA0000A1Z5";
        d_books_gstin := "22AAAAA0000A1Z5";
        d_amount_diff := F64.of_int 2;
        d_tax_diff := F64.zero;
        d_details := "Date diff: 4 days; Amount diff: ₹2.00" |}
     (perform_reconciliation elements default_settings
        [Sample.inv001 (Sample.day 2023 7 15) 11802]
        [Sample.inv001 (Sample.day 2023 7 19) 11800]) /\
  flagged "Date diff"
    (issues_of default_settings (Sample.inv001 (Sample.day 2023 7 15) 11800)
                                (Sample.inv001 (Sample.day 2023 7 18) 11800)) = false /\
  flagged "Amount diff"
    (issues_of default_settings (Sample.inv001 None 11801) (Sample.inv001 None 11800))
  = false /\
  flagged "Amount diff"
    (issues_of default_settings (Sample.inv001 None 11802) (Sample.inv001 None 11800))
  = true.
Proof.
  destruct (tolerance_checks_of_a_run elements default_settings
              [Sample.inv001 (Sample.day 2023 7 15) 11802]
              [Sample.inv001 (Sample.day 2023 7 19) 11800]
              (fun s => Permutation_refl (elements s))) as [Hrun Hflags].
  split; [| split; [| split]].
  - refine (proj1 (proj2 (Hrun _) _)).
    exists "INV-001_22AAAAA0000A1Z5", (Sample.inv001 (Sample.day 2023 7 15) 11802),
      (Sample.inv001 (Sample.day 2023 7 19) 11800).
    split; [exists [], []; repeat split; constructor |].
    split; [exists [], []; repeat split; constructor |].
    split; [vm_compute; discriminate | vm_compute; reflexivity].
  - destruct (Hflags (Sample.inv001 (Sample.day 2023 7 15) 11800)
                     (Sample.inv001 (Sample.day 2023 7 18) 11800)) as (Hd & _).
    rewrite (Hd _ _ eq_refl eq_refl); [reflexivity | vm_compute; split; reflexivity].
  - destruct (Hflags (Sample.inv001 None 11801) (Sample.inv001 None 11800))
      as (_ & _ & _ & Ha & _).
    rewrite (Ha 11801 11800 1); try reflexivity; lia.
  - destruct (Hflags (Sample.inv001 None 11802) (Sample.inv001 None 11800))
      as (_ & _ & _ & Ha & _).
    rewrite (Ha 11802 11800 1); try reflexivity; lia.
Defined.

(** ** C2: duplicates in a run *)

Lemma filter_none {A} (P : A -> Prop) `{!forall x, Decision (P x)} (l : list A) :
  (forall x, In x l -> ~ P x) -> filter P l = [].
Proof.
  induction l as [| x l IH]; intros Hno; [reflexivity |].
  rewrite filter_cons_False by (apply Hno; left; reflexivity).
  apply IH. intros y Hy. apply Hno. right. exact Hy.
Qed.

Lemma filter_all {A} (P : A -> Prop) `{!forall x, Decision (P x)} (l : list A) :
  (forall x, In x l -> P x) -> filter P l = l.
Proof.
  induction l as [| x l IH]; intros Hall; [reflexivity |].
  rewrite filter_cons_True by (apply Hall; left; reflexivity).
  f_equal. apply IH. intros y Hy. apply Hall. right. exact Hy.
Qed.

(** The rows of a run with a given issue type that is not the type of a
    mismatch are those of one part of the run. *)
Lemma filter_run set_iter cfg gstr2a_data books_data (P : Discrepancy -> Prop)
    `{!forall d, Decision (P d)} :
  (forall d, P d -> ~ In (Text.take 2 (d_issue_type d)) ["Da"; "On"; "GS"; "Am"; "Ta"]) ->
  filter P (perform_reconciliation set_iter cfg gstr2a_data books_data)
  = filter P (gstr2a_duplicates gstr2a_data) ++
    filter P (books_duplicates books_data) ++
    filter P (missing_in_books_results set_iter gstr2a_data books_data) ++
    filter P (missing_in_gstr2a_results set_iter gstr2a_data books_data).
Proof.
  intros HP. unfold perform_reconciliation. rewrite !filter_app.
  rewrite (filter_none P (mismatch_results _ _ _ _)).
  - rewrite app_nil_r. reflexivity.
  - intros d Hd Hp.
    destruct (run_issue_types set_iter cfg gstr2a_data books_data d)
      as (_ & _ & _ & _ & Hmis).
    apply (HP d Hp), Hmis, Hd.
Qed.

Lemma count_tagged_reports (tag : string) (key : Discrepancy -> string)
    (f : string * Invoice -> Discrepancy) k (rows : list (string * Invoice)) :
  (forall kr, In kr rows -> d_issue_type (f kr) = tag /\ key (f kr) = fst kr) ->
  length (filter (fun d => d_issue_type d = tag /\ key d = k) (map f rows))
  = count_key k rows.
Proof.
  unfold count_key. induction rows as [| kr rows IH]; intros Hkey; [reflexivity |].
  assert (Hrest : forall x, In x rows -> d_issue_type (f x) = tag /\ key (f x) = fst x)
    by (intros x Hx; apply Hkey; right; exact Hx).
  destruct (Hkey kr (or_introl eq_refl)) as [Htag Hk].
  simpl map. destruct (String.eqb (fst kr) k) eqn:E.
  - rewrite filter_cons_True by (split; [exact Htag | rewrite Hk; apply String.eqb_eq, E]).
    rewrite (filter_cons_True (fun x => String.eqb (fst x) k = true)) by exact E.
    simpl. rewrite (IH Hrest). reflexivity.
  - rewrite filter_cons_False
      by (intros [_ H]; rewrite Hk in H; apply String.eqb_neq in E; contradiction).
    rewrite (filter_cons_False (fun x => String.eqb (fst x) k = true))
      by (rewrite E; discriminate).
    exact (IH Hrest).
Qed.

Lemma count_duplicated_rows k data :
  count_key k (duplicated_rows (dropna data))
  = if Nat.leb 2 (occurrences k data) then occurrences k data else 0%nat.
Proof. unfold duplicated_rows. rewrite count_key_duplicated, count_key_dropna. reflexivity. Qed.

(** C2.  The rows of both ledgers carry the key built from their invoice
    number and identifier, so that the key of a reported row is read off the
    report.  In the report of a run, the rows tagged as duplicates in
    GSTR-2A that are those of a key [k] are as many as the rows of the
    GSTR-2A ledger with that key when these are two or more, and none when
    the key occurs once or not at all; the same holds of the rows tagged as
    duplicates in Books and of the Books ledger.  Every row of the report
    with one of the two tags has the source of its tag, the amount
    difference 0.0 and the tax difference 0.0. *)
Theorem duplicates_reported_by_a_run
    (set_iter : gset string -> list string) (cfg : Settings)
    (gstr2a_data books_data : list Invoice) (k : string) :
  keyed gstr2a_data -> keyed books_data ->
  let report := perform_reconciliation set_iter cfg gstr2a_data books_data in
  let reported (n : nat) := if Nat.leb 2 n then n else 0%nat in
  length (filter (fun d => d_issue_type d = "Duplicate in GSTR-2A" /\ gstr2a_key d = k) report)
  = reported (occurrences k gstr2a_data) /\
  length (filter (fun d => d_issue_type d = "Duplicate in Books" /\ books_key d = k) report)
  = reported (occurrences k books_data) /\
  (forall d, In d report -> d_issue_type d = "Duplicate in GSTR-2A" ->
     d_source d = "GSTR-2A" /\ d_amount_diff d = F64.zero /\ d_tax_diff d = F64.zero) /\
  (forall d, In d report -> d_issue_type d = "Duplicate in Books" ->
     d_source d = "Books" /\ d_amount_diff d = F64.zero /\ d_tax_diff d = F64.zero).
Proof.
  intros Hga Hbo. cbv zeta.
  assert (Htypes := run_issue_types set_iter cfg gstr2a_data books_data).
  split; [| split; [| split]].
  - rewrite filter_run.
    2:{ intros d [Hd _]. rewrite Hd. simpl. intuition discriminate. }
    rewrite (filter_none _ (books_duplicates _)).
    2:{ intros d Hd [Ht _]. destruct (Htypes d) as (_ & H & _). rewrite (H Hd) in Ht.
        discriminate Ht. }
    rewrite (filter_none _ (missing_in_books_results _ _ _)).
    2:{ intros d Hd [Ht _]. destruct (Htypes d) as (_ & _ & H & _). rewrite (H Hd) in Ht.
        discriminate Ht. }
    rewrite (filter_none _ (missing_in_gstr2a_results _ _ _)).
    2:{ intros d Hd [Ht _]. destruct (Htypes d) as (_ & _ & _ & H & _). rewrite (H Hd) in Ht.
        discriminate Ht. }
    rewrite !app_nil_r. rewrite <- count_duplicated_rows.
    unfold gstr2a_duplicates. apply count_tagged_reports.
    intros [k' r] Hin. apply in_duplicated_rows in Hin.
    rewrite (keyed_row_key gstr2a_data k' r Hga Hin). split; reflexivity.
  - rewrite filter_run.
    2:{ intros d [Hd _]. rewrite Hd. simpl. intuition discriminate. }
    rewrite (filter_none _ (gstr2a_duplicates _)).
    2:{ intros d Hd [Ht _]. destruct (Htypes d) as (H & _). rewrite (H Hd) in Ht.
        discriminate Ht. }
    rewrite (filter_none _ (missing_in_books_results _ _ _)).
    2:{ intros d Hd [Ht _]. destruct (Htypes d) as (_ & _ & H & _). rewrite (H Hd) in Ht.
        discriminate Ht. }
    rewrite (filter_none _ (missing_in_gstr2a_results _ _ _)).
    2:{ intros d Hd [Ht _]. destruct (Htypes d) as (_ & _ & _ & H & _). rewrite (H Hd) in Ht.
        discriminate Ht. }
    rewrite !app_nil_r. cbn [app]. rewrite <- count_duplicated_rows.
    unfold books_duplicates. apply count_tagged_reports.
    intros [k' r] Hin. apply in_duplicated_rows in Hin.
    rewrite (keyed_row_key books_data k' r Hbo Hin). split; reflexivity.
  - intros d Hin Ht. destruct (Htypes d) as (_ & H2 & H3 & H4 & H5).
    apply in_perform_reconciliation in Hin as [H | [H | [H | [H | H]]]].
    + apply in_gstr2a_duplicates in H as (r & _ & ->). repeat split; reflexivity.
    + rewrite (H2 H) in Ht. discriminate Ht.
    + rewrite (H3 H) in Ht. discriminate Ht.
    + rewrite (H4 H) in Ht. discriminate Ht.
    + destruct (H5 H) as [_ Hh]. rewrite Ht in Hh. simpl in Hh. intuition discriminate.
  - intros d Hin Ht. destruct (Htypes d) as (H1 & _ & H3 & H4 & H5).
    apply in_perform_reconciliation in Hin as [H | [H | [H | [H | H]]]].
    + rewrite (H1 H) in Ht. discriminate Ht.
    + apply in_books_duplicates in H as (r & _ & ->). repeat split; reflexivity.
    + rewrite (H3 H) in Ht. discriminate Ht.
    + rewrite (H4 H) in Ht. discriminate Ht.
    + destruct (H5 H) as [_ Hh]. rewrite Ht in Hh. simpl in Hh. intuition discriminate.
Qed.

Lemma duplicates_witness :
  length (filter (fun d => d_issue_type d = "Duplicate in GSTR-2A" /\
                           gstr2a_key d = "INV-003_22AAAAA0000A1Z5")
            (perform_reconciliation elements default_settings
               [Sample.invoice "INV-003" (Sample.day 2023 7 15) "22AAAAA0000A1Z5"
                  F64.zero F64.zero F64.zero F64.zero (Sample.rupees 500);
                Sample.invoice "INV-004" None "22AAAAA0000A1Z5"
                  F64.zero F64.zero F64.zero F64.zero (Sample.rupees 700);
                Sample.invoice "INV-003" (Sample.day 2023 7 16) "22AAAAA0000A1Z5"
                  F64.zero F64.zero F64.zero F64.zero (Sample.rupees 500)]
               [Sample.invoice "INV-003" (Sample.day 2023 7 15) "22AAAAA0000A1Z5"
                  F64.zero F64.zero F64.zero F64.zero (Sample.rupees 500);
                Sample.invoice "INV-004" None "22AAAAA0000A1Z5"
                  F64.zero F64.zero F64.zero F64.zero (Sample.rupees 700)]))
  = 2%nat.
Proof.
  refine (proj1 (duplicates_reported_by_a_run elements default_settings _ _
                   "INV-003_22AAAAA0000A1Z5" _ _)); repeat constructor.
Defined.

(** ** C3: presence matching in a run *)

Lemma filter_missing_in_books set_iter cfg gstr2a_data books_data :
  filter (fun d => d_issue_type d = "Missing in Books")
         (perform_reconciliation set_iter cfg gstr2a_data books_data)
  = missing_in_books_results set_iter gstr2a_data books_data.
Proof.
  assert (Htypes := run_issue_types set_iter cfg gstr2a_data books_data).
  rewrite filter_run.
  2:{ intros d Hd. rewrite Hd. simpl. intuition discriminate. }
  rewrite (filter_none _ (gstr2a_duplicates _)).
  2:{ intros d Hd Ht. destruct (Htypes d) as (H & _). rewrite (H Hd) in Ht. discriminate Ht. }
  rewrite (filter_none _ (books_duplicates _)).
  2:{ intros d Hd Ht. destruct (Htypes d) as (_ & H & _). rewrite (H Hd) in Ht.
      discriminate Ht. }
  rewrite (filter_none _ (missing_in_gstr2a_results _ _ _)).
  2:{ intros d Hd Ht. destruct (Htypes d) as (_ & _ & _ & H & _). rewrite (H Hd) in Ht.
      discriminate Ht. }
  rewrite app_nil_r. cbn [app]. apply filter_all.
  intros d Hd. destruct (Htypes d) as (_ & _ & H & _). exact (H Hd).
Qed.

Lemma filter_missing_in_gstr2a set_iter cfg gstr2a_data books_data :
  filter (fun d => d_issue_type d = "Missing in GSTR-2A")
         (perform_reconciliation set_iter cfg gstr2a_data books_data)
  = missing_in_gstr2a_results set_iter gstr2a_data books_data.
Proof.
  assert (Htypes := run_issue_types set_iter cfg gstr2a_data books_data).
  rewrite filter_run.
  2:{ intros d Hd. rewrite Hd. simpl. intuition discriminate. }
  rewrite (filter_none _ (gstr2a_duplicates _)).
  2:{ intros d Hd Ht. destruct (Htypes d) as (H & _). rewrite (H Hd) in Ht. discriminate Ht. }
  rewrite (filter_none _ (books_duplicates _)).
  2:{ intros d Hd Ht. destruct (Htypes d) as (_ & H & _). rewrite (H Hd) in Ht.
      discriminate Ht. }
  rewrite (filter_none _ (missing_in_books_results _ _ _)).
  2:{ intros d Hd Ht. destruct (Htypes d) as (_ & _ & H & _). rewrite (H Hd) in Ht.
      discriminate Ht. }
  cbn [app]. apply filter_all.
  intros d Hd. destruct (Htypes d) as (_ & _ & _ & H & _). exact (H Hd).
Qed.

(** C3.  The two runs may visit their sets of keys in any order, each key
    once.  Of the report of the run on the ledgers A and B and the report of
    the run on B and A: the rows tagged missing in GSTR-2A of the second are,
    up to their order, the rows tagged missing in Books of the first with
    the sides exchanged and the amount and tax differences negated, and the
    rows tagged missing in Books of the second are in the same way the rows
    tagged missing in GSTR-2A of the first.  A row of the first report is
    tagged missing in Books exactly when it is the row of a key that some row
    of A carries and no row of B: it has the invoice number, date and
    identifier of the first row of A with that key, the total amount of that
    row as its amount difference and the sum of its three taxes as its tax
    difference. *)
Theorem presence_matching_symmetric_in_runs
    (set_iter swapped_iter : gset string -> list string) (cfg : Settings)
    (ledger_a ledger_b : list Invoice) :
  (forall s, set_iter s ≡ₚ elements s) ->
  (forall s, swapped_iter s ≡ₚ elements s) ->
  let report := perform_reconciliation set_iter cfg ledger_a ledger_b in
  let swapped := perform_reconciliation swapped_iter cfg ledger_b ledger_a in
  filter (fun d => d_issue_type d = "Missing in GSTR-2A") swapped
  ≡ₚ map mirror (filter (fun d => d_issue_type d = "Missing in Books") report) /\
  filter (fun d => d_issue_type d = "Missing in Books") swapped
  ≡ₚ map mirror (filter (fun d => d_issue_type d = "Missing in GSTR-2A") report) /\
  (forall d,
     In d report /\ d_issue_type d = "Missing in Books" <->
     exists k r,
       first_with_key k r ledger_a /\
       occurrences k ledger_b = 0%nat /\
       d = {| d_invoice_no := invoice_no r;
              d_source := "GSTR-2A";
              d_issue_type := "Missing in Books";
              d_gstr2a_date := invoice_date r;
              d_books_date := None;
              d_gstr2a_gstin := supplier_gstin r;
              d_books_gstin := "";
              d_amount_diff := total_amount r;
              d_tax_diff := F64.add (F64.add (cgst r) (sgst r)) (igst r);
              d_details := "Invoice found in GSTR-2A but not in Books." |}).
Proof.
  intros Hiter Hswapped. cbv zeta.
  assert (Hsame : forall s, swapped_iter s ≡ₚ set_iter s)
    by (intros s; rewrite Hiter; apply Hswapped).
  rewrite !filter_missing_in_books, !filter_missing_in_gstr2a.
  split; [| split].
  - unfold missing_in_gstr2a_results, missing_in_books_results.
    rewrite map_for_keys. apply for_keys_permutation, Hsame.
  - unfold missing_in_gstr2a_results, missing_in_books_results.
    rewrite map_for_keys.
    etransitivity; [apply for_keys_permutation, Hsame |].
    unfold for_keys. apply Permutation_refl'. f_equal. apply map_ext.
    intros k. destruct (first_row k _); [| reflexivity].
    simpl. rewrite mirror_missing_in_gstr2a. reflexivity.
  - intros d. rewrite <- (in_missing_in_books_results set_iter ledger_a ledger_b d Hiter).
    rewrite <- (filter_missing_in_books set_iter cfg ledger_a ledger_b).
    rewrite <- !list_elem_of_In, list_elem_of_filter. tauto.
Qed.

Lemma presence_matching_witness :
  filter (fun d => d_issue_type d = "Missing in GSTR-2A")
    (perform_reconciliation elements default_settings
       [Sample.inv001 (Sample.day 2023 7 15) 11800]
       [Sample.inv001 (Sample.day 2023 7 15) 11800;
        Sample.invoice "INV-002" (Sample.day 2023 7 20) "22AAAAA0000A1Z5"
          (Sample.rupees 10000) (Sample.rupees 900) (Sample.rupees 900) F64.zero
          (Sample.rupees 11800)])
  ≡ₚ map mirror
       (filter (fun d => d_issue_type d = "Missing in Books")
          (perform_reconciliation elements default_settings
             [Sample.inv001 (Sample.day 2023 7 15) 11800;
              Sample.invoice "INV-002" (Sample.day 2023 7 20) "22AAAAA0000A1Z5"
                (Sample.rupees 10000) (Sample.rupees 900) (Sample.rupees 900) F64.zero
                (Sample.rupees 11800)]
             [Sample.inv001 (Sample.day 2023 7 15) 11800])).
Proof.
  exact (proj1 (presence_matching_symmetric_in_runs elements elements default_settings
                  [Sample.inv001 (Sample.day 2023 7 15) 11800;
                   Sample.invoice "INV-002" (Sample.day 2023 7 20) "22AAAAA0000A1Z5"
                     (Sample.rupees 10000) (Sample.rupees 900) (Sample.rupees 900) F64.zero
                     (Sample.rupees 11800)]
                  [Sample.inv001 (Sample.day 2023 7 15) 11800]
                  (fun s => Permutation_refl (elements s))
                  (fun s => Permutation_refl (elements s)))).
Defined.

(** ** C5: counts and totals of the summary *)

Lemma sum_in_order_adds_up (values : list F64.float) :
  adds_up values (Sample.sum_in_order values).
Proof.
  unfold Sample.sum_in_order.
  induction values as [| v values IH] using rev_ind.
  - apply adds_zero. reflexivity.
  - rewrite map_app, foldl_app. cbn [map foldl].
    apply adds_both; [exact IH |].
    destruct (F64.is_nan v) eqn:E.
    + apply adds_nan; [exact E | reflexivity].
    + apply adds_entry. exact E.
Qed.

Lemma sum_of_app (l1 l2 : list Z) : sum_of (l1 ++ l2) = sum_of l1 + sum_of l2.
Proof. unfold sum_of. induction l1 as [| z l1 IH]; simpl; [reflexivity | rewrite IH; lia]. Qed.

Lemma sum_of_permutation (l1 l2 : list Z) : l1 ≡ₚ l2 -> sum_of l1 = sum_of l2.
Proof. unfold sum_of. induction 1; simpl; lia. Qed.

Lemma sum_of_abs (l : list Z) : Z.abs (sum_of l) <= sum_of (map Z.abs l).
Proof. unfold sum_of. induction l as [| z l IH]; simpl; lia. Qed.

Lemma sum_of_abs_nonneg (l : list Z) : 0 <= sum_of (map Z.abs l).
Proof. unfold sum_of. induction l as [| z l IH]; simpl; lia. Qed.

Lemma of_int_not_nan (z : Z) : Z.abs z < 2 ^ 53 -> F64.is_nan (F64.of_int z) = false.
Proof.
  intros Hz. destruct (Z.eq_dec z 0) as [-> | Hne]; [reflexivity |].
  destruct (of_int_nonzero z Hne Hz) as (N & M & _ & _ & _ & ->). reflexivity.
Qed.

Lemma add_zero_of_int (x : F64.float) (z : Z) :
  is_zero x = true -> Z.abs z < 2 ^ 53 ->
  F64.add x (F64.of_int z) = F64.of_int z /\ F64.add (F64.of_int z) x = F64.of_int z.
Proof.
  intros Hx Hz. destruct x as [s | | |]; try discriminate Hx.
  destruct (Z.eq_dec z 0) as [-> | Hne].
  - rewrite of_int_zero. destruct s; split; reflexivity.
  - destruct (of_int_nonzero z Hne Hz) as (N & M & _ & _ & _ & ->). split; reflexivity.
Qed.

(** A sum of whole numbers whose absolute values add up to less than 2^53
    is exact, in whichever order and bracketing it is taken. *)
Lemma adds_up_whole (values : list F64.float) (total : F64.float) :
  adds_up values total ->
  forall zs, values = map F64.of_int zs -> sum_of (map Z.abs zs) < 2 ^ 53 ->
    (zs <> [] -> total = F64.of_int (sum_of zs)) /\
    (zs = [] -> is_zero total = true).
Proof.
  induction 1 as [z Hz | v Hv | v z Hv Hz | l1 l2 t1 t2 H1 IH1 H2 IH2 | l1 l2 t Hp H IH];
    intros zs Hzs Hb.
  - destruct zs; [| discriminate Hzs]. split; [intros Hne; destruct (Hne eq_refl) | auto].
  - destruct zs as [| z [| z' zs]]; try discriminate Hzs. injection Hzs as ->.
    split; [| discriminate]. intros _. unfold sum_of. simpl. rewrite Z.add_0_r. reflexivity.
  - destruct zs as [| z' [| z'' zs]]; try discriminate Hzs. injection Hzs as ->.
    rewrite of_int_not_nan in Hv; [discriminate Hv |].
    unfold sum_of in Hb. simpl in Hb. pose proof (sum_of_abs_nonneg []). lia.
  - symmetry in Hzs. apply map_eq_app in Hzs as (zs1 & zs2 & -> & E1 & E2).
    rewrite map_app, sum_of_app in Hb. rewrite sum_of_app.
    pose proof (sum_of_abs zs1). pose proof (sum_of_abs zs2).
    pose proof (sum_of_abs_nonneg zs1). pose proof (sum_of_abs_nonneg zs2).
    destruct (IH1 zs1 (eq_sym E1) ltac:(lia)) as [Hn1 He1].
    destruct (IH2 zs2 (eq_sym E2) ltac:(lia)) as [Hn2 He2].
    destruct zs1 as [| a zs1], zs2 as [| b zs2].
    + split; [intros Hne; destruct (Hne eq_refl) |]. intros _.
      specialize (He1 eq_refl). specialize (He2 eq_refl).
      destruct t1 as [[] | | |], t2 as [[] | | |]; try discriminate; reflexivity.
    + split; [| discriminate]. intros _. rewrite (Hn2 ltac:(discriminate)).
      change (sum_of []) with 0. rewrite Z.add_0_l.
      apply add_zero_of_int; [apply He1; reflexivity | lia].
    + split; [| discriminate]. intros _. rewrite (Hn1 ltac:(discriminate)).
      change (sum_of []) with 0. rewrite Z.add_0_r.
      apply add_zero_of_int; [apply He2; reflexivity | lia].
    + split; [| discriminate]. intros _.
      rewrite (Hn1 ltac:(discriminate)), (Hn2 ltac:(discriminate)).
      apply add_of_int; lia.
  - subst l2. apply Permutation_map_inv in Hp as (zs' & -> & Hp').
    assert (Hb' : sum_of (map Z.abs zs') < 2 ^ 53).
    { rewrite <- (sum_of_permutation (map Z.abs zs) (map Z.abs zs')); [exact Hb |].
      apply Permutation_map, Hp'. }
    destruct (IH zs' eq_refl Hb') as [Hn He]. split.
    + intros Hne. rewrite (sum_of_permutation zs zs' Hp'). apply Hn.
      intros ->. apply Permutation_nil_r in Hp'. contradiction.
    + intros ->. apply He. apply Permutation_nil in Hp'. exact Hp'.
Qed.

(** C5, amended.  [Series.sum()] returns a sum of the entries of its
    column.  The summary of an empty report is all zeros, and a discrepancy
    added to a report adds one to the total and one to every category whose
    marker text occurs in its issue type, whatever the case of the letters
    and wherever in the text, so a discrepancy with tags of several categories
    is counted in each of them.  The two financial totals are sums, in
    binary64, of the signed amount differences and of the signed tax
    differences of all the rows; when the differences are whole numbers
    whose absolute values add up to less than 2^53, the total is their sum
    exactly. *)
Theorem summary_counts_and_totals
    (series_sum : list F64.float -> F64.float)
    (cfg : Settings) (results : list Discrepancy) (d : Discrepancy) :
  (forall values, adds_up values (series_sum values)) ->
  let before := get_summary_text series_sum cfg results in
  let after := get_summary_text series_sum cfg (results ++ [d]) in
  let one (b : bool) : nat := if b then 1%nat else 0%nat in
  get_summary_text series_sum cfg []
  = {| total_discrepancies := 0; n_missing_in_books := 0; n_missing_in_gstr2a := 0;
       n_date_mismatch := 0; n_amount_tax_mismatch := 0; n_gstin_mismatch := 0;
       n_duplicates := 0; total_amount_diff := F64.zero; total_tax_diff := F64.zero;
       used_date_tolerance := date_tolerance cfg;
       used_amount_tolerance := amount_tolerance cfg |} /\
  total_discrepancies after = S (total_discrepancies before) /\
  (n_missing_in_books after
   = n_missing_in_books before
     + one (contains_nocase "Missing in Books" (d_issue_type d)))%nat /\
  (n_missing_in_gstr2a after
   = n_missing_in_gstr2a before
     + one (contains_nocase "Missing in GSTR-2A" (d_issue_type d)))%nat /\
  (n_date_mismatch after
   = n_date_mismatch before + one (contains_nocase "Date diff" (d_issue_type d)))%nat /\
  (n_amount_tax_mismatch after
   = n_amount_tax_mismatch before
     + one (contains_nocase "Amount diff" (d_issue_type d)
            || contains_nocase "Tax diff" (d_issue_type d)))%nat /\
  (n_gstin_mismatch after
   = n_gstin_mismatch before
     + one (contains_nocase "GSTIN mismatch" (d_issue_type d)))%nat /\
  (n_duplicates after
   = n_duplicates before + one (contains_nocase "Duplicate" (d_issue_type d)))%nat /\
  adds_up (map d_amount_diff results) (total_amount_diff before) /\
  adds_up (map d_tax_diff results) (total_tax_diff before) /\
  (forall zs, map d_amount_diff results = map F64.of_int zs ->
     sum_of (map Z.abs zs) < 2 ^ 53 ->
     total_amount_diff before = F64.of_int (sum_of zs)) /\
  (forall zs, map d_tax_diff results = map F64.of_int zs ->
     sum_of (map Z.abs zs) < 2 ^ 53 ->
     total_tax_diff before = F64.of_int (sum_of zs)).
Proof.
  intros Hsum. cbv zeta.
  assert (Hamount : adds_up (map d_amount_diff results)
                      (total_amount_diff (get_summary_text series_sum cfg results))).
  { unfold get_summary_text. cbn [total_amount_diff].
    destruct results; [apply adds_zero; reflexivity | apply Hsum]. }
  assert (Htax : adds_up (map d_tax_diff results)
                   (total_tax_diff (get_summary_text series_sum cfg results))).
  { unfold get_summary_text. cbn [total_tax_diff].
    destruct results; [apply adds_zero; reflexivity | apply Hsum]. }
  assert (Hwhole : forall col total zs,
            adds_up (map col results) total ->
            (results = [] -> total = F64.zero) ->
            map col results = map F64.of_int zs -> sum_of (map Z.abs zs) < 2 ^ 53 ->
            total = F64.of_int (sum_of zs)).
  { intros col total zs Hadds Hempty Hzs Hb.
    destruct (adds_up_whole _ _ Hadds zs Hzs Hb) as [Hn _].
    destruct zs as [| z zs]; [| apply Hn; discriminate].
    destruct results; [| discriminate Hzs]. rewrite (Hempty eq_refl). reflexivity. }
  unfold get_summary_text in *.
  cbn [total_discrepancies n_missing_in_books n_missing_in_gstr2a n_date_mismatch
       n_amount_tax_mismatch n_gstin_mismatch n_duplicates total_amount_diff
       total_tax_diff] in *.
  rewrite !count_where_snoc, length_app.
  repeat split; try reflexivity; try assumption.
  - simpl. lia.
  - intros zs. apply (Hwhole d_amount_diff); [exact Hamount |]. intros ->. reflexivity.
  - intros zs. apply (Hwhole d_tax_diff); [exact Htax |]. intros ->. reflexivity.
Qed.

Lemma summary_witness :
  n_date_mismatch
    (get_summary_text Sample.sum_in_order default_settings
       (perform_reconciliation elements default_settings
          [Sample.inv001 (Sample.day 2023 7 15) 11800;
           Sample.invoice "INV-002" (Sample.day 2023 7 20) "22AAAAA0000A1Z5"
             (Sample.rupees 10000) (Sample.rupees 900) (Sample.rupees 900) F64.zero
             (Sample.rupees 11800)]
          [Sample.inv001 (Sample.day 2023 7 15) 11800]
        ++ [ {| d_invoice_no := "INV-003"; d_source := "Both";
                d_issue_type := "Date diff: 5 days, GSTIN mismatch";
                d_gstr2a_date := None; d_books_date := None;
                d_gstr2a_gstin := ""; d_books_gstin := "";
                d_amount_diff := F64.zero; d_tax_diff := F64.zero;
                d_details := "" |} ])) = 1%nat /\
  total_amount_diff
    (get_summary_text Sample.sum_in_order default_settings
       (perform_reconciliation elements default_settings
          [Sample.inv001 (Sample.day 2023 7 15) 11800;
           Sample.invoice "INV-002" (Sample.day 2023 7 20) "22AAAAA0000A1Z5"
             (Sample.rupees 10000) (Sample.rupees 900) (Sample.rupees 900) F64.zero
             (Sample.rupees 11800)]
          [Sample.inv001 (Sample.day 2023 7 15) 11800]))
  = F64.of_int 11800.
Proof.
  destruct (summary_counts_and_totals Sample.sum_in_order default_settings
              (perform_reconciliation elements default_settings
                 [Sample.inv001 (Sample.day 2023 7 15) 11800;
                  Sample.invoice "INV-002" (Sample.day 2023 7 20) "22AAAAA0000A1Z5"
                    (Sample.rupees 10000) (Sample.rupees 900) (Sample.rupees 900) F64.zero
                    (Sample.rupees 11800)]
                 [Sample.inv001 (Sample.day 2023 7 15) 11800])
              {| d_invoice_no := "INV-003"; d_source := "Both";
                 d_issue_type := "Date diff: 5 days, GSTIN mismatch";
                 d_gstr2a_date := None; d_books_date := None;
                 d_gstr2a_gstin := ""; d_books_gstin := "";
                 d_amount_diff := F64.zero; d_tax_diff := F64.zero;
                 d_details := "" |}
              sum_in_order_adds_up)
    as (_ & _ & _ & _ & Hdate & _ & _ & _ & _ & _ & Hamount & _).
  split.
  - rewrite Hdate. reflexivity.
  - apply (Hamount [11800]); [vm_compute; reflexivity | vm_compute; reflexivity].
Defined.

(** ** Decimal digits *)

Lemma digit_char (n : Z) :
  0 <= n ->
  Text.is_digit (ascii_of_nat (48 + Z.to_nat (n mod 10))) = true /\
  Z.of_nat (nat_of_ascii (ascii_of_nat (48 + Z.to_nat (n mod 10)))) - 48 = n mod 10.
Proof.
  intros Hn. pose proof (Z.mod_pos_bound n 10 eq_refl) as Hb.
  assert (Hm : exists m, (m < 10)%nat /\ n mod 10 = Z.of_nat m)
    by (exists (Z.to_nat (n mod 10)); lia).
  destruct Hm as (m & Hm & ->). rewrite Nat2Z.id.
  do 10 (destruct m as [| m]; [split; reflexivity |]). lia.
Qed.

Lemma append_assoc (s t u : string) : (s +:+ t) +:+ u = s +:+ (t +:+ u).
Proof.
  induction s as [| c r IH]; [reflexivity |].
  change (String c ((r +:+ t) +:+ u) = String c (r +:+ (t +:+ u))). rewrite IH. reflexivity.
Qed.

Lemma digits_of_pos_fuel_app fuel n acc :
  Text.digits_of_pos_fuel fuel n acc = Text.digits_of_pos_fuel fuel n "" +:+ acc.
Proof.
  revert n acc. induction fuel as [| k IH]; intros n acc; [reflexivity |].
  simpl. destruct (n <? 10); [reflexivity |].
  rewrite (IH _ (String _ acc)), (IH _ (String _ "")).
  rewrite append_assoc. reflexivity.
Qed.

Lemma int_of_digits_acc_app s t a :
  Text.int_of_digits_acc (s +:+ t) a = Text.int_of_digits_acc t (Text.int_of_digits_acc s a).
Proof. revert a. induction s as [| c r IH]; intros a; [reflexivity |]. apply IH. Qed.

Lemma int_of_digits_of_pos_fuel fuel n :
  0 <= n < 2 ^ Z.of_nat fuel ->
  Text.int_of_digits (Text.digits_of_pos_fuel fuel n "") = n.
Proof.
  revert n. induction fuel as [| k IH]; intros n Hn.
  - change (2 ^ Z.of_nat 0) with 1 in Hn. simpl. unfold Text.int_of_digits. simpl. lia.
  - cbn [Text.digits_of_pos_fuel].
    destruct (digit_char n (proj1 Hn)) as [_ Hv].
    destruct (n <? 10) eqn:E.
    + apply Z.ltb_lt in E. unfold Text.int_of_digits. cbn [Text.int_of_digits_acc].
      rewrite Hv, Z.mod_small by lia. lia.
    + apply Z.ltb_ge in E. rewrite digits_of_pos_fuel_app.
      unfold Text.int_of_digits. rewrite int_of_digits_acc_app.
      cbn [Text.int_of_digits_acc]. rewrite Hv.
      fold (Text.int_of_digits (Text.digits_of_pos_fuel k (n / 10) "")).
      rewrite IH.
      * pose proof (Z.div_mod n 10). lia.
      * rewrite Nat2Z.inj_succ, Z.pow_succ_r in Hn by lia.
        split; [apply Z.div_pos; lia |].
        apply Z.div_lt_upper_bound; lia.
Qed.

Lemma sforall_digits_of_pos_fuel fuel n acc :
  0 <= n -> Text.sforall Text.is_digit acc = true ->
  Text.sforall Text.is_digit (Text.digits_of_pos_fuel fuel n acc) = true.
Proof.
  revert n acc. induction fuel as [| k IH]; intros n acc Hn Hacc; [exact Hacc |].
  cbn [Text.digits_of_pos_fuel].
  assert (Hacc' : Text.sforall Text.is_digit
                    (String (ascii_of_nat (48 + Z.to_nat (n mod 10))) acc) = true).
  { cbn [Text.sforall]. rewrite (proj1 (digit_char n Hn)). exact Hacc. }
  destruct (n <? 10); [exact Hacc' |].
  apply IH; [apply Z.div_pos; lia | exact Hacc'].
Qed.

Lemma digits_of_pos_fuel_not_empty fuel n acc :
  acc <> "" -> Text.digits_of_pos_fuel fuel n acc <> "".
Proof.
  revert n acc. induction fuel as [| k IH]; intros n acc Hacc; [exact Hacc |].
  cbn [Text.digits_of_pos_fuel]. destruct (n <? 10); [discriminate |].
  apply IH. discriminate.
Qed.

Lemma digits_of_nonneg_digits n :
  0 <= n ->
  Text.sforall Text.is_digit (Text.digits_of_nonneg n) = true /\
  Text.digits_of_nonneg n <> "".
Proof.
  intros Hn. unfold Text.digits_of_nonneg. split.
  - apply sforall_digits_of_pos_fuel; [exact Hn | reflexivity].
  - cbn [Text.digits_of_pos_fuel]. destruct (n <? 10); [discriminate |].
    apply digits_of_pos_fuel_not_empty. discriminate.
Qed.

Lemma int_of_digits_of_nonneg n :
  0 <= n -> Text.int_of_digits (Text.digits_of_nonneg n) = n.
Proof.
  intros Hn. unfold Text.digits_of_nonneg. apply int_of_digits_of_pos_fuel.
  split; [exact Hn |].
  rewrite Nat2Z.inj_succ, Z2Nat.id by apply Z.log2_nonneg.
  destruct (Z.eq_dec n 0) as [-> | Hne]; [reflexivity |].
  apply Z.log2_spec. lia.
Qed.








(** ** Whole numbers read from decimal numerals *)





(** ** The text of a whole number *)


Lemma div_half_even_bounds (a b : Z) :
  0 <= a -> 0 < b ->
  a / b <= F64.div_half_even a b <= a / b + 1 /\
  (a mod b = 0 -> F64.div_half_even a b = a / b).
Proof.
  intros Ha Hb. unfold F64.div_half_even. cbv zeta. split.
  - destruct (2 * (a mod b) ?= b); [destruct (Z.even (a / b)); lia | lia | lia].
  - intros ->. change (2 * 0 ?= b) with (0 ?= b).
    rewrite (proj2 (Z.compare_lt_iff 0 b) Hb). reflexivity.
Qed.












(** ** C7: normalising a normalised table *)




(** ** The rows of a normalised table carry their key *)

Lemma lookup_map {A B} (f : A -> B) (l : list A) (i : nat) :
  map f l !! i = option_map f (l !! i).
Proof.
  revert i. induction l as [| x l IH]; intros [| i]; simpl; try reflexivity. apply IH.
Qed.

Lemma cell_key_key_cell k : cell_key (key_cell k) = k.
Proof. destruct k; reflexivity. Qed.

Lemma build_match_key_no_identifier inv : build_match_key inv "" = None.
Proof. unfold build_match_key. rewrite orb_true_r. reflexivity. Qed.

Lemma build_match_key_no_number gst : build_match_key "" gst = None.
Proof. reflexivity. Qed.

(** Every row read from a table that [clean_and_transform_data] returned has
    the key built from its own invoice number and identifier. *)
Lemma normalised_rows_keyed P cfg df source out log :
  clean_and_transform_data P cfg df source [] = Ok (out, log) ->
  keyed (rows out).
Proof.
  intros Hclean.
  pose proof (normalised_match_key_column P cfg df source out log Hclean) as Hkey.
  unfold keyed, rows. apply List.Forall_forall. intros r Hr.
  apply in_map_iff in Hr as (i & <- & _). simpl.
  rewrite Hkey, lookup_map, lookup_zip_with, !lookup_map.
  destruct (get_col "invoice_no" out !! i) as [a |]; simpl.
  - destruct (get_col "supplier_gstin" out !! i) as [b |]; simpl.
    + apply cell_key_key_cell.
    + rewrite build_match_key_no_identifier. reflexivity.
  - reflexivity.
Qed.

(** ** The properties at sample inputs *)

Lemma match_key_witness :
  build_match_key "INV-001" "22AAAAA0000A1Z5" = Some "INV-001_22AAAAA0000A1Z5" /\
  build_match_key "nan" "22AAAAA0000A1Z5" = None.
Proof.
  destruct match_key_defined_unless_null_text as (H & _). split.
  - apply (proj1 (H "INV-001" "22AAAAA0000A1Z5")); reflexivity.
  - apply (proj2 (H "nan" "22AAAAA0000A1Z5")). left. reflexivity.
Defined.

Lemma settings_witness :
  save_settings default_settings "-3" "2.5" 1
  = (default_settings, Invalid "Date tolerance must be a whole number.") /\
  snd (save_settings default_settings "5" "two" 1)
  = Invalid "Amount/Tax tolerance must be a number." /\
  save_settings default_settings "5" "-0.5" 0
  = ({| date_tolerance := 5; amount_tolerance := F64.zero; auto_clean_gstin := false |},
     Saved).
Proof.
  split; [| split].
  - apply (proj1 (invalid_tolerances_rejected_or_clamped default_settings "-3" "2.5" 1)).
    reflexivity.
  - destruct (invalid_tolerances_rejected_or_clamped default_settings "5" "two" 1)
      as (_ & _ & H).
    destruct (H eq_refl) as [Hrej _]. apply Hrej. reflexivity.
  - destruct (invalid_tolerances_rejected_or_clamped default_settings "5" "-0.5" 0)
      as (_ & _ & H).
    destruct (H eq_refl) as [_ Hclamp].
    apply (Hclamp (F64.of_decimal true 5 (-1))); vm_compute; reflexivity.
Defined.

Lemma numeric_fields_witness :
  forallb (fun c => match c with
                    | CFloat v => negb (F64.is_nan v) && negb (F64.sign v)
                    | _ => false
                    end)
          (convert_numeric_column [CStr "-100"; CStr "Rs 1,180.50"; CNone; CInt (-7)])
  = true /\
  F64.sign (clean_number "-100") = false.
Proof.
  split; [vm_compute; reflexivity |].
  destruct numeric_fields_non_negative as (H & _).
  apply (H "-100").
Defined.

(** * Further properties of the application *)

(** ** [clean_gstin] on its own results *)

Lemma clean_gstin_of_cleaned g :
  String.length g = 15%nat -> Text.sforall is_alnum_upper g = true ->
  clean_gstin (CStr g)
  = (g, if gstin_well_formed g then []
        else ["Warning: GSTIN '" +:+ g +:+ "' appears to be invalid after cleaning."]).
Proof.
  intros Hlen Hall. unfold clean_gstin. simpl isna. simpl str.
  rewrite (strip_alnum g Hall), (upper_alnum g Hall), (sfilter_all _ g Hall).
  assert (Hnull : Text.isin (Text.lower g) [""; "nan"; "none"] = false).
  { apply isin_other_length. rewrite length_lower, Hlen.
    repeat constructor; discriminate. }
  rewrite Hnull, Hlen. simpl.
  destruct (gstin_well_formed g); reflexivity.
Qed.

Lemma clean_gstin_cases c :
  if isna c || Text.isin (Text.lower (Text.strip (str c))) [""; "nan"; "none"]
  then clean_gstin c = ("", [])
  else exists g,
      String.length g = 15%nat /\ Text.sforall is_alnum_upper g = true /\
      clean_gstin c
      = (g, if gstin_well_formed g then []
            else ["Warning: GSTIN '" +:+ g +:+ "' appears to be invalid after cleaning."]).
Proof.
  unfold clean_gstin.
  destruct (isna c || Text.isin (Text.lower (Text.strip (str c))) [""; "nan"; "none"]);
    [reflexivity |].
  set (core := Text.sfilter is_alnum_upper (Text.upper (Text.strip (str c)))).
  assert (Hcore : Text.sforall is_alnum_upper core = true) by apply sforall_sfilter.
  set (g := if Nat.ltb 15 (String.length core) then Text.take 15 core
            else if Nat.ltb (String.length core) 15 then Text.ljust 15 "X" core
            else core).
  assert (Hg : String.length g = 15%nat /\ Text.sforall is_alnum_upper g = true).
  { subst g. destruct (Nat.ltb 15 (String.length core)) eqn:E1.
    - apply Nat.ltb_lt in E1. split.
      + apply length_take. lia.
      + apply sforall_substring, Hcore.
    - apply Nat.ltb_ge in E1.
      destruct (Nat.ltb (String.length core) 15) eqn:E2.
      + apply Nat.ltb_lt in E2. unfold Text.ljust. split.
        * rewrite length_append, length_replicate. lia.
        * rewrite sforall_append, Hcore. apply sforall_replicate. reflexivity.
      + apply Nat.ltb_ge in E2. split; [lia | exact Hcore]. }
  exists g. destruct Hg as [Hlen Hall]. repeat split; [exact Hlen | exact Hall |].
  destruct (gstin_well_formed g); reflexivity.
Qed.

Lemma fullmatch_forall (q : ascii -> bool) classes s :
  Forall (fun p : ascii -> bool => forall c, p c = true -> q c = true) classes ->
  fullmatch classes s = true -> Text.sforall q s = true.
Proof.
  intros Hall. revert s. induction Hall as [| p ps Hp _ IH]; intros [| c r]; simpl;
    try reflexivity; try discriminate.
  intros H. apply andb_true_iff in H as [Hc Hr].
  rewrite (Hp c Hc). apply IH, Hr.
Qed.

Lemma gstin_pattern_alnum s :
  fullmatch gstin_pattern s = true -> Text.sforall is_alnum_upper s = true.
Proof.
  apply fullmatch_forall. unfold gstin_pattern. simpl.
  repeat (apply List.Forall_cons;
          [intros [[] [] [] [] [] [] [] []]; vm_compute; intros H;
           first [discriminate H | reflexivity] |]).
  apply List.Forall_nil.
Qed.

(** X1.  The identifier that [clean_gstin] returns is empty or has exactly
    15 characters, all of them digits or capital letters; it is empty exactly
    for a null cell and for the texts that read as null. *)
Theorem clean_gstin_empty_or_fifteen (c : cell) :
  let v := fst (clean_gstin c) in
  if isna c || Text.isin (Text.lower (Text.strip (str c))) [""; "nan"; "none"]
  then clean_gstin c = ("", [])
  else String.length v = 15%nat /\ Text.sforall is_alnum_upper v = true.
Proof.
  intros v. subst v. pose proof (clean_gstin_cases c) as H.
  destruct (isna c || Text.isin (Text.lower (Text.strip (str c))) [""; "nan"; "none"]);
    [exact H |].
  destruct H as (g & Hlen & Hall & ->). split; assumption.
Qed.

(** X2.  Cleaning is idempotent: [clean_gstin] applied to an identifier it
    returned gives the same identifier and logs the same warning, if any. *)
Theorem clean_gstin_twice (c : cell) :
  clean_gstin (CStr (fst (clean_gstin c))) = clean_gstin c.
Proof.
  pose proof (clean_gstin_cases c) as H.
  destruct (isna c || Text.isin (Text.lower (Text.strip (str c))) [""; "nan"; "none"]).
  - rewrite H. reflexivity.
  - destruct H as (g & Hlen & Hall & ->). apply clean_gstin_of_cleaned; assumption.
Qed.

(** X3.  An identifier that has the structure of a GSTIN is returned as it
    is, with no warning. *)
Theorem well_formed_gstin_unchanged (g : string) :
  gstin_well_formed g = true -> clean_gstin (CStr g) = (g, []).
Proof.
  intros Hwf. pose proof Hwf as H. unfold gstin_well_formed in H.
  apply andb_true_iff in H as [H Hm]. apply andb_true_iff in H as [Hlen _].
  apply Nat.eqb_eq in Hlen.
  rewrite (clean_gstin_of_cleaned g Hlen (gstin_pattern_alnum g Hm)), Hwf. reflexivity.
Qed.

Lemma well_formed_gstin_unchanged_witness :
  clean_gstin (CStr "27ABCDE1234F1Z5") = ("27ABCDE1234F1Z5", []).
Proof. apply well_formed_gstin_unchanged. reflexivity. Defined.


(** ** [clean_gstin] and the case of the letters *)








(** ** Rows matched on a key *)

Lemma append_same_length_suffix s1 s2 t1 t2 :
  s1 +:+ t1 = s2 +:+ t2 -> String.length t1 = String.length t2 -> t1 = t2.
Proof.
  revert s2. induction s1 as [| a r1 IH]; intros [| b r2] H Hlen.
  - exact H.
  - exfalso. change (t1 = String b (r2 +:+ t2)) in H.
    rewrite H in Hlen. simpl in Hlen. rewrite length_append in Hlen. lia.
  - exfalso. change (String a (r1 +:+ t1) = t2) in H.
    rewrite <- H in Hlen. simpl in Hlen. rewrite length_append in Hlen. lia.
  - change (String a (r1 +:+ t1) = String b (r2 +:+ t2)) in H.
    injection H as _ H. exact (IH r2 H Hlen).
Qed.

Lemma first_row_in k r data : first_row k data = Some r -> In (k, r) data.
Proof.
  induction data as [| [k' r'] data IH]; [discriminate |].
  rewrite first_row_cons. simpl fst. simpl snd.
  destruct (String.eqb k' k) eqn:E.
  - apply String.eqb_eq in E. intros [= ->]. left. rewrite E. reflexivity.
  - intros H. right. exact (IH H).
Qed.

Lemma keyed_cleaned_identifier data k r :
  keyed data ->
  Forall (fun r => exists c, supplier_gstin r = fst (clean_gstin c)) data ->
  In (k, r) (dropna data) ->
  k = invoice_no r +:+ "_" +:+ supplier_gstin r /\
  String.length (supplier_gstin r) = 15%nat.
Proof.
  intros Hkeyed Hclean Hin. split; [exact (keyed_row_key data k r Hkeyed Hin) |].
  apply in_dropna in Hin as [Hin Hk].
  pose proof (proj1 (List.Forall_forall _ _) Hkeyed r Hin) as Hb. simpl in Hb.
  destruct (proj1 (List.Forall_forall _ _) Hclean r Hin) as [c Hc].
  destruct (clean_gstin_value c) as [He | [Hlen _]].
  - rewrite He in Hc. rewrite Hc, build_match_key_no_identifier in Hb. congruence.
  - rewrite Hc. exact Hlen.
Qed.

(** X5.  On ledgers whose identifiers were cleaned, the check of the
    identifiers of two rows matched on a key never fires: every discrepancy
    of the comparison carries the same identifier on both sides, the key
    ending with the 15 characters of the identifier. *)
Theorem matched_rows_have_equal_identifiers
    (set_iter : gset string -> list string) (cfg : Settings)
    (gstr2a_data books_data : list Invoice) (d : Discrepancy) :
  keyed gstr2a_data -> keyed books_data ->
  Forall (fun r => exists c, supplier_gstin r = fst (clean_gstin c)) gstr2a_data ->
  Forall (fun r => exists c, supplier_gstin r = fst (clean_gstin c)) books_data ->
  In d (mismatch_results set_iter cfg gstr2a_data books_data) ->
  d_gstr2a_gstin d = d_books_gstin d /\
  exists gstr_row book_row,
    In gstr_row gstr2a_data /\ In book_row books_data /\
    match_key gstr_row = match_key book_row /\
    supplier_gstin gstr_row = supplier_gstin book_row /\
    gstin_issues gstr_row book_row = [] /\
    In d (compare_rows cfg gstr_row book_row).
Proof.
  intros Hka Hkb Hca Hcb Hin. unfold mismatch_results in Hin.
  apply in_concat in Hin as (ds & Hds & Hd).
  apply in_map_iff in Hds as (key & <- & _).
  rewrite !first_row_drop_duplicates in Hd.
  destruct (first_row key (dropna gstr2a_data)) as [gr |] eqn:Eg; [| destruct Hd].
  destruct (first_row key (dropna books_data)) as [br |] eqn:Eb; [| destruct Hd].
  apply first_row_in in Eg, Eb.
  destruct (keyed_cleaned_identifier _ _ _ Hka Hca Eg) as [Hkg Hlg].
  destruct (keyed_cleaned_identifier _ _ _ Hkb Hcb Eb) as [Hkk Hlb].
  assert (Hsame : supplier_gstin gr = supplier_gstin br).
  { rewrite Hkg in Hkk.
    apply append_same_length_suffix in Hkk;
      [| rewrite !length_append, Hlg, Hlb; reflexivity].
    change (String "_" (supplier_gstin gr) = String "_" (supplier_gstin br)) in Hkk.
    injection Hkk as Hkk. exact Hkk. }
  assert (Hissues : gstin_issues gr br = []).
  { unfold gstin_issues, compared_gstin. rewrite Hsame, String.eqb_refl. reflexivity. }
  apply in_dropna in Eg as [Hing Hmg]. apply in_dropna in Eb as [Hinb Hmb].
  split.
  - unfold compare_rows in Hd. destruct (issues_of cfg gr br); [destruct Hd |].
    destruct Hd as [<- | []]. simpl. unfold compared_gstin. rewrite Hsame. reflexivity.
  - exists gr, br. repeat split; try assumption. congruence.
Qed.

Lemma matched_rows_have_equal_identifiers_witness :
  Forall (fun d => d_gstr2a_gstin d = d_books_gstin d)
    (mismatch_results elements default_settings
       [Sample.inv001 (Sample.day 2023 7 15) 11810]
       [Sample.inv001 (Sample.day 2023 7 20) 11800]).
Proof.
  apply List.Forall_forall. intros d Hd.
  apply (matched_rows_have_equal_identifiers elements default_settings
           [Sample.inv001 (Sample.day 2023 7 15) 11810]
           [Sample.inv001 (Sample.day 2023 7 20) 11800] d).
  - repeat constructor.
  - repeat constructor.
  - repeat constructor. exists (CStr "22AAAAA0000A1Z5"). reflexivity.
  - repeat constructor. exists (CStr "22AAAAA0000A1Z5"). reflexivity.
  - exact Hd.
Defined.


(** ** Differences of binary64 values *)

Lemma abs_binary_round s m e :
  SFabs (binary_round F64.prec F64.emax s m e)
  = SFabs (binary_round F64.prec F64.emax false m e).
Proof.
  unfold binary_round. destruct (shl_align _ _ _) as [mz ez].
  unfold binary_round_aux.
  destruct (shr_fexp _ _ _ _ _) as [mrs' e'].
  destruct (shr_fexp _ _ _ _ _) as [mrs'' e''].
  destruct (shr_m mrs''); [reflexivity | | reflexivity].
  destruct (_ <=? _); reflexivity.
Qed.

Lemma abs_binary_normalize z e :
  SFabs (binary_normalize F64.prec F64.emax (- z) e false)
  = SFabs (binary_normalize F64.prec F64.emax z e false).
Proof.
  destruct z as [| p | p]; simpl; [reflexivity | |].
  - apply abs_binary_round.
  - symmetry. apply abs_binary_round.
Qed.

Lemma abs_sub_comm (x y : F64.float) : F64.abs (F64.sub x y) = F64.abs (F64.sub y x).
Proof.
  destruct x as [sx | sx | | sx mx ex], y as [sy | sy | | sy my ey];
    try (destruct sx, sy; reflexivity); try (destruct sx; reflexivity);
    try (destruct sy; reflexivity); try reflexivity.
  unfold F64.abs, F64.sub, SFsub. cbv zeta. rewrite (Z.min_comm ey ex).
  rewrite <- abs_binary_normalize. f_equal. f_equal. lia.
Qed.

Lemma sub_self (x : F64.float) : F64.sub x x = F64.zero \/ F64.sub x x = F64.nan.
Proof.
  destruct x as [[] | [] | | s m e]; try (left; reflexivity); try (right; reflexivity).
  left. unfold F64.sub, SFsub. cbv zeta. rewrite Z.sub_diag. reflexivity.
Qed.

Lemma within_tolerance_of_itself (tol x : F64.float) :
  F64.ltb tol F64.zero = false -> F64.ltb tol (F64.abs (F64.sub x x)) = false.
Proof.
  intros Htol. destruct (sub_self x) as [-> | ->].
  - exact Htol.
  - destruct tol; reflexivity.
Qed.

(** ** A ledger reconciled against itself *)

Lemma compare_rows_same cfg r :
  0 <= date_tolerance cfg -> F64.ltb (amount_tolerance cfg) F64.zero = false ->
  compare_rows cfg r r = [].
Proof.
  intros Hd Ha. unfold compare_rows.
  assert (H : issues_of cfg r r = []); [| rewrite H; reflexivity].
  unfold issues_of, date_issues, gstin_issues, amount_issues, tax_issues,
    amount_diff, tax_diff.
  rewrite String.eqb_refl, !within_tolerance_of_itself by exact Ha.
  destruct (invoice_date r) as [g |]; [| reflexivity].
  cbv zeta. rewrite Z.sub_diag.
  change ((0 <? - 2 ^ 63) || (2 ^ 63 - 1 <? 0)) with false.
  change (0 =? - 2 ^ 63) with false. cbv iota.
  change (Z.abs (0 / ns_per_day)) with 0.
  destruct (date_tolerance cfg <? 0) eqn:E; [apply Z.ltb_lt in E; lia | reflexivity].
Qed.

(** X6.  A ledger reconciled against itself yields its duplicates and
    nothing else, whenever the tolerances are not negative: no key is
    missing on either side and no row differs from itself, not even a row
    whose amounts are infinite or whose date is missing. *)
Theorem ledger_against_itself
    (set_iter : gset string -> list string) (cfg : Settings) (data : list Invoice) :
  (forall s, set_iter s ≡ₚ elements s) ->
  0 <= date_tolerance cfg ->
  F64.ltb (amount_tolerance cfg) F64.zero = false ->
  perform_reconciliation set_iter cfg data data
  = gstr2a_duplicates data ++ books_duplicates data.
Proof.
  intros Hiter Hd Ha. unfold perform_reconciliation.
  assert (Hb : missing_in_books_results set_iter data data = []).
  { unfold missing_in_books_results.
    rewrite difference_diag_L. pose proof (Hiter ∅) as Hp. rewrite elements_empty in Hp.
    apply Permutation_nil_r in Hp. rewrite Hp. reflexivity. }
  assert (Hg : missing_in_gstr2a_results set_iter data data = []).
  { unfold missing_in_gstr2a_results.
    rewrite difference_diag_L. pose proof (Hiter ∅) as Hp. rewrite elements_empty in Hp.
    apply Permutation_nil_r in Hp. rewrite Hp. reflexivity. }
  assert (Hm : mismatch_results set_iter cfg data data = []).
  { unfold mismatch_results. generalize (set_iter (key_set (drop_duplicates (dropna data))
                                          ∩ key_set (drop_duplicates (dropna data)))).
    intros keys. induction keys as [| k keys IH]; [reflexivity |].
    simpl. rewrite IH, app_nil_r.
    destruct (first_row k (drop_duplicates (dropna data))); [| reflexivity].
    apply compare_rows_same; assumption. }
  rewrite Hb, Hg, Hm, !app_nil_r. reflexivity.
Qed.

Lemma ledger_against_itself_witness :
  perform_reconciliation elements default_settings
    [Sample.inv001 None 11800; Sample.inv001 (Sample.day 2023 7 15) 500]
    [Sample.inv001 None 11800; Sample.inv001 (Sample.day 2023 7 15) 500]
  = gstr2a_duplicates [Sample.inv001 None 11800; Sample.inv001 (Sample.day 2023 7 15) 500] ++
    books_duplicates [Sample.inv001 None 11800; Sample.inv001 (Sample.day 2023 7 15) 500].
Proof.
  apply ledger_against_itself.
  - intros s. reflexivity.
  - vm_compute. discriminate.
  - vm_compute. reflexivity.
Defined.

(** ** The two ledgers exchanged *)

Lemma whole_days_apart g b :
  g mod ns_per_day = 0 -> b mod ns_per_day = 0 ->
  Z.abs ((g - b) / ns_per_day) = Z.abs ((b - g) / ns_per_day).
Proof.
  intros Hg Hb.
  apply Z.mod_divide in Hg; [| discriminate]. apply Z.mod_divide in Hb; [| discriminate].
  destruct Hg as [x ->], Hb as [y ->].
  rewrite <- !Z.mul_sub_distr_r, !Z.div_mul by discriminate. lia.
Qed.

(** X7.  The verdicts on a pair of matched rows do not depend on which
    ledger is which: the amount check, the tax check and the identifier
    check give the same answer with the two rows exchanged, and so does the
    date check when both dates fall on midnight and their difference fits a
    [Timedelta]. *)
Theorem verdicts_with_rows_exchanged (cfg : Settings) (gstr_row book_row : Invoice) :
  flagged "Amount diff" (issues_of cfg gstr_row book_row)
  = flagged "Amount diff" (issues_of cfg book_row gstr_row) /\
  flagged "Tax diff" (issues_of cfg gstr_row book_row)
  = flagged "Tax diff" (issues_of cfg book_row gstr_row) /\
  gstin_issues gstr_row book_row = gstin_issues book_row gstr_row /\
  F64.abs (amount_diff gstr_row book_row) = F64.abs (amount_diff book_row gstr_row) /\
  F64.abs (tax_diff gstr_row book_row) = F64.abs (tax_diff book_row gstr_row) /\
  (forall g b, invoice_date gstr_row = Some g -> invoice_date book_row = Some b ->
     g mod ns_per_day = 0 -> b mod ns_per_day = 0 ->
     - 2 ^ 63 < g - b < 2 ^ 63 ->
     flagged "Date diff" (issues_of cfg gstr_row book_row)
     = flagged "Date diff" (issues_of cfg book_row gstr_row)).
Proof.
  destruct (issues_of_flags cfg gstr_row book_row) as (Hd1 & Ha1 & Ht1).
  destruct (issues_of_flags cfg book_row gstr_row) as (Hd2 & Ha2 & Ht2).
  assert (Ha : F64.abs (amount_diff gstr_row book_row)
               = F64.abs (amount_diff book_row gstr_row)) by apply abs_sub_comm.
  assert (Ht : F64.abs (tax_diff gstr_row book_row)
               = F64.abs (tax_diff book_row gstr_row)) by apply abs_sub_comm.
  repeat split; try assumption.
  - rewrite Ha1, Ha2, Ha. reflexivity.
  - rewrite Ht1, Ht2, Ht. reflexivity.
  - unfold gstin_issues. rewrite String.eqb_sym. reflexivity.
  - intros g b Hg Hb Hgm Hbm Hr. rewrite Hd1, Hd2, Hg, Hb, !date_issues_flag by lia.
    rewrite (whole_days_apart g b Hgm Hbm). reflexivity.
Qed.

Lemma verdicts_with_rows_exchanged_witness :
  flagged "Date diff"
    (issues_of default_settings (Sample.inv001 (Sample.day 2023 7 15) 11800)
                                (Sample.inv001 (Sample.day 2023 7 20) 11800))
  = flagged "Date diff"
      (issues_of default_settings (Sample.inv001 (Sample.day 2023 7 20) 11800)
                                  (Sample.inv001 (Sample.day 2023 7 15) 11800)).
Proof.
  destruct (verdicts_with_rows_exchanged default_settings
              (Sample.inv001 (Sample.day 2023 7 15) 11800)
              (Sample.inv001 (Sample.day 2023 7 20) 11800)) as (_ & _ & _ & _ & _ & H).
  apply (H _ _ eq_refl eq_refl); try reflexivity. vm_compute. split; reflexivity.
Defined.

(** With a time of day in the dates the date check does depend on the
    side: three days and a half are four days one way and three the other. *)
Example date_check_one_sided :
  let early := Sample.inv001 (Some 0) 11800 in
  let late := Sample.inv001 (Some (3 * ns_per_day + ns_per_day / 2)) 11800 in
  flagged "Date diff" (issues_of default_settings early late) = true /\
  flagged "Date diff" (issues_of default_settings late early) = false.
Proof. vm_compute. split; reflexivity. Qed.


(** ** [save_settings] *)

Lemma max_zero_not_negative x :
  F64.ltb (max_zero x) F64.zero = false /\ F64.is_nan (max_zero x) = false.
Proof.
  unfold max_zero. destruct x as [[] | [] | | [] m e]; split; reflexivity.
Qed.

(** X8.  The settings never hold a negative tolerance: the settings of
    [__init__] have none, and whatever is typed in the fields, after
    [save_settings] (accepted or rejected) the date tolerance is still not
    negative and the amount tolerance is still neither negative nor NaN. *)
Theorem saved_tolerances_not_negative
    (st : Settings) (date_tol_str amount_tol_str : string) (auto_clean_var : Z) :
  let ok (s : Settings) :=
    0 <= date_tolerance s /\
    F64.ltb (amount_tolerance s) F64.zero = false /\
    F64.is_nan (amount_tolerance s) = false in
  ok default_settings /\
  (ok st -> ok (fst (save_settings st date_tol_str amount_tol_str auto_clean_var))).
Proof.
  intros ok. split; [repeat split; vm_compute; discriminate |].
  intros (Hd & Ha & Hn). unfold save_settings.
  destruct (negb (Text.isdigit date_tol_str)); [repeat split; assumption |].
  destruct (float_of_str amount_tol_str) as [x |];
    cbn [fst date_tolerance amount_tolerance].
  - repeat split; [apply Z.le_max_l | apply max_zero_not_negative ..].
  - repeat split; [apply Z.le_max_l | assumption ..].
Qed.

Lemma saved_tolerances_not_negative_witness :
  0 <= date_tolerance (fst (save_settings default_settings "7" "-2.5" 1)) /\
  F64.ltb (amount_tolerance (fst (save_settings default_settings "7" "-2.5" 1))) F64.zero
  = false /\
  F64.is_nan (amount_tolerance (fst (save_settings default_settings "7" "-2.5" 1))) = false.
Proof.
  apply (saved_tolerances_not_negative default_settings "7" "-2.5" 1).
  repeat split; vm_compute; discriminate.
Defined.

(** X9.  The date tolerance shown in the settings form is read back as
    it is: the field shows [str(self.date_tolerance)], and saving that text
    of a tolerance that is not negative, with any amount that is a number,
    is accepted and leaves the date tolerance unchanged. *)
Theorem shown_date_tolerance_saved_back
    (st : Settings) (amount_tol_str : string) (auto_clean_var : Z) (x : F64.float) :
  0 <= date_tolerance st ->
  float_of_str amount_tol_str = Some x ->
  Text.isdigit (Text.str_of_int (date_tolerance st)) = true /\
  Text.int_of_digits (Text.str_of_int (date_tolerance st)) = date_tolerance st /\
  save_settings st (Text.str_of_int (date_tolerance st)) amount_tol_str auto_clean_var
  = ({| date_tolerance := date_tolerance st;
        amount_tolerance := max_zero x;
        auto_clean_gstin := negb (auto_clean_var =? 0) |}, Saved).
Proof.
  intros Hd Hx.
  assert (Hs : Text.str_of_int (date_tolerance st) = Text.digits_of_nonneg (date_tolerance st)).
  { unfold Text.str_of_int. destruct (date_tolerance st <? 0) eqn:E; [| reflexivity].
    apply Z.ltb_lt in E. lia. }
  destruct (digits_of_nonneg_digits _ Hd) as [Hall Hne].
  assert (Hdig : Text.isdigit (Text.str_of_int (date_tolerance st)) = true).
  { rewrite Hs. unfold Text.isdigit.
    destruct (Text.digits_of_nonneg (date_tolerance st)); [congruence | exact Hall]. }
  assert (Hint : Text.int_of_digits (Text.str_of_int (date_tolerance st)) = date_tolerance st).
  { rewrite Hs. apply int_of_digits_of_nonneg, Hd. }
  repeat split; [exact Hdig | exact Hint |].
  unfold save_settings. rewrite Hdig, Hx, Hint. simpl. rewrite Z.max_r by lia. reflexivity.
Qed.

Lemma shown_date_tolerance_saved_back_witness :
  save_settings default_settings (Text.str_of_int (date_tolerance default_settings)) "2.5" 0
  = ({| date_tolerance := 3;
        amount_tolerance := max_zero (F64.of_decimal false 25 (-1));
        auto_clean_gstin := false |}, Saved).
Proof.
  apply (shown_date_tolerance_saved_back default_settings "2.5" 0
           (F64.of_decimal false 25 (-1))).
  - vm_compute. discriminate.
  - vm_compute. reflexivity.
Defined.


(** ** The shape of a normalised frame *)

Lemma clean_columns_schema P cfg df source custom_mapping out log :
  clean_and_transform_data P cfg df source custom_mapping = Ok (out, log) ->
  columns out = standard_columns source.
Proof.
  destruct (empty df) eqn:E.
  - unfold clean_and_transform_data. rewrite E. intros [= <- _].
    unfold columns, standard_columns. destruct (String.eqb source books); reflexivity.
  - destruct custom_mapping as [| m ms].
    + rewrite (clean_and_transform_data_columns P cfg df source E).
      destruct (existsb _ _); [discriminate |]. intros [= <- _].
      unfold normalized_columns, standard_columns, columns.
      destruct (String.eqb source books); reflexivity.
    + unfold clean_and_transform_data. rewrite E. discriminate.
Qed.

(** X10.  Whatever the input table is, the frame that
    [clean_and_transform_data] returns has the columns of the schema of its
    source, in the order of the schema, and nothing else. *)
Theorem normalised_frame_has_the_schema
    (P : DateParsers) (cfg : Settings) (df : DataFrame) (source : string)
    (custom_mapping : list (string * string)) (out : DataFrame) (log : list string) :
  clean_and_transform_data P cfg df source custom_mapping = Ok (out, log) ->
  columns out = standard_columns source.
Proof. apply clean_columns_schema. Qed.

Lemma normalised_frame_has_the_schema_witness :
  exists out log,
    clean_and_transform_data Sample.parsers default_settings Sample.one_invoice_table
      "Books" [] = Ok (out, log) /\
    columns out
    = ["invoice_no"; "invoice_date"; "supplier_gstin"; "taxable_value"; "cgst"; "sgst";
       "igst"; "total_amount"; "place_of_supply"; "book_entry_date"; "match_key"].
Proof.
  let r := eval vm_compute in
        (clean_and_transform_data Sample.parsers default_settings
           Sample.one_invoice_table "Books" []) in
  assert (H : clean_and_transform_data Sample.parsers default_settings
                Sample.one_invoice_table "Books" [] = r) by (vm_compute; reflexivity).
  eexists _, _. split; [exact H |].
  exact (normalised_frame_has_the_schema Sample.parsers default_settings
           Sample.one_invoice_table "Books" [] _ _ H).
Defined.

Lemma length_loc_assign_na col values : length (loc_assign_na col values) = length col.
Proof.
  revert values. induction col as [| [t |] col IH]; intros values; simpl;
    [reflexivity | rewrite IH; reflexivity |].
  destruct values; simpl; rewrite IH; reflexivity.
Qed.

Lemma length_convert_date_column P col :
  (forall c, length (to_datetime_dayfirst P c) = length c) ->
  length (convert_date_column P col) = length col.
Proof.
  intros H. unfold convert_date_column. rewrite length_map, length_loc_assign_na. apply H.
Qed.

Lemma length_gstin_column cfg col : length (gstin_column cfg col) = length col.
Proof.
  unfold gstin_column, fillna. destruct (auto_clean_gstin cfg);
    rewrite ?length_map, ?length_astype_str, ?length_map; reflexivity.
Qed.

Lemma length_prepared_column source df c :
  well_formed (nrows df) df ->
  In c (map fst (standard_columns_map source)) ->
  length (get_col c (prepare source df)) = nrows df.
Proof.
  intros Hwf Hc. unfold prepare.
  destruct (ensure_columns_spec (nrows df) (map fst (standard_columns_map source))
              (rename (standard_name source) (rename normalize_colname df))) as [Hw Hh].
  { apply well_formed_rename, well_formed_rename, Hwf. }
  apply length_get_col; [exact Hw |]. apply Hh. left. exact Hc.
Qed.

Lemma length_rows (df : DataFrame) : length (rows df) = nrows df.
Proof. unfold rows. rewrite length_map. apply length_seq. Qed.

Lemma clean_well_formed P cfg df source out log :
  well_formed (nrows df) df ->
  (forall c, length (to_datetime_dayfirst P c) = length c) ->
  clean_and_transform_data P cfg df source [] = Ok (out, log) ->
  well_formed (nrows df) out /\ nrows out = nrows df /\ length (rows out) = nrows df.
Proof.
  intros Hwf HP Hclean.
  pose proof length_rows as Hrows.
  destruct (empty df) eqn:E.
  - unfold clean_and_transform_data in Hclean. rewrite E in Hclean.
    injection Hclean as <- _. unfold empty in E. apply Nat.eqb_eq in E. rewrite E.
    rewrite Hrows. unfold well_formed, standard_columns.
    destruct (String.eqb source books); repeat split; repeat constructor.
  - rewrite (clean_and_transform_data_columns P cfg df source E) in Hclean.
    destruct (existsb _ _); [discriminate |]. injection Hclean as <- _.
    rewrite Hrows, nrows_normalized_columns.
    destruct (standard_names_in source) as [Hin Hbook].
    assert (Hlen : forall c,
              In c ["invoice_no"; "invoice_date"; "supplier_gstin"; "taxable_value"; "cgst";
                    "sgst"; "igst"; "total_amount"; "place_of_supply"] ->
              length (get_col c (prepare source df)) = nrows df).
    { intros c Hc. apply length_prepared_column; [exact Hwf |].
      exact (proj1 (List.Forall_forall _ _) Hin c Hc). }
    split; [| split; apply Hlen; simpl; tauto].
    unfold well_formed, normalized_columns, match_key_column, convert_numeric_column, fillna.
    repeat (apply List.Forall_cons;
            [cbn [snd];
             rewrite ?length_map, ?length_zip_with, ?length_convert_date_column,
               ?length_astype_str, ?length_map, ?length_gstin_column, ?length_map by exact HP;
             rewrite ?Hlen by (simpl; tauto); try reflexivity; lia |]).
    apply List.Forall_app. split.
    + destruct (String.eqb source books) eqn:Eb; [| constructor].
      repeat constructor. cbn [snd]. rewrite length_convert_date_column by exact HP.
      apply length_prepared_column; [exact Hwf | apply Hbook; reflexivity].
    + repeat constructor. cbn [snd].
      rewrite ?length_map, ?length_zip_with, ?length_astype_str, ?length_map,
        ?length_gstin_column, ?Hlen by (simpl; tauto). lia.
Qed.

(** X11.  One row per input row: on a table whose columns have equal
    length, read with a date parser that returns one value per cell, every
    column of the normalised frame has as many rows as the input; no row
    is dropped, whatever it holds. *)
Theorem one_row_per_input_row
    (P : DateParsers) (cfg : Settings) (df : DataFrame) (source : string)
    (out : DataFrame) (log : list string) :
  well_formed (nrows df) df ->
  (forall c, length (to_datetime_dayfirst P c) = length c) ->
  clean_and_transform_data P cfg df source [] = Ok (out, log) ->
  well_formed (nrows df) out /\ nrows out = nrows df /\ length (rows out) = nrows df.
Proof. apply clean_well_formed. Qed.

Lemma one_row_per_input_row_witness :
  exists out log,
    clean_and_transform_data Sample.parsers default_settings Sample.one_invoice_table
      "GSTR-2A" [] = Ok (out, log) /\
    length (rows out) = 1%nat.
Proof.
  let r := eval vm_compute in
        (clean_and_transform_data Sample.parsers default_settings
           Sample.one_invoice_table "GSTR-2A" []) in
  assert (H : clean_and_transform_data Sample.parsers default_settings
                Sample.one_invoice_table "GSTR-2A" [] = r) by (vm_compute; reflexivity).
  assert (Hwf : well_formed (nrows Sample.one_invoice_table) Sample.one_invoice_table)
    by (repeat constructor).
  assert (HP : forall c, length (to_datetime_dayfirst Sample.parsers c) = length c)
    by (intros c; apply length_map).
  eexists _, _. split; [exact H |].
  exact (proj2 (proj2 (one_row_per_input_row Sample.parsers default_settings
                         Sample.one_invoice_table "GSTR-2A" _ _ Hwf HP H))).
Defined.


(** ** Columns the schema does not know, and columns that are missing *)

Lemma get_col_ensure_columns n names d a :
  get_col a (ensure_columns n names d)
  = if has_col a d then get_col a d
    else if Text.isin a names then repeat CNone n else [].
Proof.
  unfold ensure_columns. revert d. induction names as [| b names IH]; intros d.
  - simpl. destruct (has_col a d) eqn:E; [reflexivity |].
    unfold has_col, columns in E. induction d as [| [x c] d IHd]; [reflexivity |].
    simpl in E |- *. rewrite (String.eqb_sym a x) in E.
    destruct (String.eqb x a); [discriminate E | exact (IHd E)].
  - cbn [foldl]. rewrite IH. unfold Text.isin. cbn [existsb].
    destruct (has_col b d) eqn:Eb.
    + destruct (has_col a d) eqn:Ea; [reflexivity |].
      destruct (String.eqb a b) eqn:Eab; [| reflexivity].
      apply String.eqb_eq in Eab. congruence.
    + rewrite has_col_set_col. destruct (String.eqb a b) eqn:Eab.
      * apply String.eqb_eq in Eab. subst b. rewrite Eb, get_set_col_eq. reflexivity.
      * rewrite get_set_col_ne by (rewrite String.eqb_sym; exact Eab). reflexivity.
Qed.

Lemma get_col_prepare source df a :
  get_col a (prepare source df)
  = let d := rename (standard_name source) (rename normalize_colname df) in
    if has_col a d then get_col a d
    else if Text.isin a (map fst (standard_columns_map source))
         then repeat CNone (nrows df) else [].
Proof. apply get_col_ensure_columns. Qed.



Lemma columns_filter_insert (p : string -> bool) (l1 l2 : DataFrame) x :
  p (fst x) = false ->
  List.filter p (columns (l1 ++ x :: l2)) = List.filter p (columns (l1 ++ l2)).
Proof.
  intros Hx. unfold columns. rewrite !map_app, !List.filter_app. simpl. rewrite Hx.
  reflexivity.
Qed.








Lemma has_col_renamed source (df : DataFrame) a :
  Forall (fun label => standard_name source (normalize_colname label) <> a) (columns df) ->
  has_col a (rename (standard_name source) (rename normalize_colname df)) = false.
Proof.
  unfold has_col, columns, rename. rewrite !map_map. cbn [fst].
  induction df as [| [label c] df IH]; intros H; [reflexivity |].
  apply List.Forall_cons_iff in H as [Hl Hrest]. cbn [map existsb fst].
  rewrite (IH Hrest), orb_false_r. apply String.eqb_neq.
  intros Heq. apply Hl. symmetry. exact Heq.
Qed.

Lemma astype_str_no_values n : astype_str (repeat CNone n) = repeat "None" n.
Proof. destruct n as [| n]; [reflexivity |]. unfold astype_str. apply map_repeat. Qed.

Lemma gstin_column_no_values cfg n :
  map fst (gstin_column cfg (repeat CNone n)) = repeat "" n.
Proof.
  unfold gstin_column. destruct (auto_clean_gstin cfg).
  - rewrite map_repeat, map_repeat. reflexivity.
  - unfold fillna. rewrite map_repeat. cbn [isna].
    assert (H : astype_str (repeat (CStr "") n) = repeat "" n).
    { destruct n as [| n]; [reflexivity |]. unfold astype_str. apply map_repeat. }
    rewrite H, !map_repeat. reflexivity.
Qed.

Lemma match_key_column_undefined (invoice_no supplier_gstin : list string) :
  Forall (fun a => a = "None") invoice_no \/ Forall (fun g => g = "") supplier_gstin ->
  Forall (fun c => c = key_cell None) (match_key_column invoice_no supplier_gstin).
Proof.
  unfold match_key_column. revert supplier_gstin.
  induction invoice_no as [| a l IH]; intros [| g gs] H; try constructor.
  - destruct H as [H | H].
    + apply List.Forall_cons_iff in H as [-> _]. reflexivity.
    + apply List.Forall_cons_iff in H as [-> _]. cbn [fst snd].
      rewrite build_match_key_no_identifier. reflexivity.
  - apply IH. destruct H as [H | H]; [left | right];
      apply List.Forall_cons_iff in H as [_ H]; exact H.
Qed.

Lemma Forall_repeat {A} (P : A -> Prop) x n : P x -> List.Forall P (repeat x n).
Proof. intros H. induction n; constructor; assumption. Qed.

(** X13.  A table in which no label is read as the invoice number, or none
    as the identifier, yields no key at all: the missing column is filled
    with [None], and every row of the normalised frame has an undefined
    match key, so that none of them takes part in the matching. *)
Theorem table_without_key_column_has_no_key
    (P : DateParsers) (cfg : Settings) (df : DataFrame) (source : string)
    (out : DataFrame) (log : list string) :
  Forall (fun label => standard_name source (normalize_colname label) <> "invoice_no")
         (columns df) \/
  Forall (fun label => standard_name source (normalize_colname label) <> "supplier_gstin")
         (columns df) ->
  clean_and_transform_data P cfg df source [] = Ok (out, log) ->
  Forall (fun r => match_key r = None) (rows out) /\ dropna (rows out) = [].
Proof.
  intros Hmissing Hclean.
  assert (Hall : Forall (fun r => match_key r = None) (rows out)).
  { destruct (empty df) eqn:E.
    - unfold clean_and_transform_data in Hclean. rewrite E in Hclean.
      injection Hclean as <- _. constructor.
    - rewrite (clean_and_transform_data_columns P cfg df source E) in Hclean.
      destruct (existsb _ _); [discriminate |]. injection Hclean as <- _.
      destruct (get_col_normalized_columns P cfg source (prepare source df))
        as (_ & _ & _ & _ & _ & _ & Hkey).
      assert (Hcol : Forall (fun c => c = key_cell None)
                       (get_col "match_key"
                          (normalized_columns P cfg source (prepare source df)))).
      { rewrite Hkey. apply match_key_column_undefined.
        destruct (standard_names_in source) as [Hin _].
        destruct Hmissing as [H | H]; [left | right].
        - rewrite get_col_prepare. cbv zeta. rewrite (has_col_renamed _ _ _ H).
          assert (Hi : Text.isin "invoice_no" (map fst (standard_columns_map source)) = true).
          { apply isin_In. apply (proj1 (List.Forall_forall _ _) Hin). simpl. tauto. }
          rewrite Hi, astype_str_no_values. apply Forall_repeat. reflexivity.
        - rewrite get_col_prepare. cbv zeta. rewrite (has_col_renamed _ _ _ H).
          assert (Hi : Text.isin "supplier_gstin" (map fst (standard_columns_map source))
                       = true).
          { apply isin_In. apply (proj1 (List.Forall_forall _ _) Hin). simpl. tauto. }
          rewrite Hi, gstin_column_no_values. apply Forall_repeat. reflexivity. }
      unfold rows. apply List.Forall_forall. intros r Hr.
      apply in_map_iff in Hr as (i & <- & _). cbn [match_key].
      destruct (get_col "match_key" (normalized_columns P cfg source (prepare source df)) !! i)
        as [c |] eqn:Ei; [| reflexivity].
      apply list_elem_of_lookup_2, list_elem_of_In in Ei.
      rewrite (proj1 (List.Forall_forall _ _) Hcol c Ei). reflexivity. }
  split; [exact Hall |].
  induction Hall as [| r l Hr _ IH]; [reflexivity |].
  rewrite dropna_cons, Hr. exact IH.
Qed.

Lemma table_without_key_column_has_no_key_witness :
  exists out log,
    clean_and_transform_data Sample.parsers default_settings
      [("Voucher", [CStr "INV-001"]); ("GSTIN", [CStr "22AAAAA0000A1Z5"])] "GSTR-2A" []
    = Ok (out, log) /\
    dropna (rows out) = [].
Proof.
  let r := eval vm_compute in
        (clean_and_transform_data Sample.parsers default_settings
           [("Voucher", [CStr "INV-001"]); ("GSTIN", [CStr "22AAAAA0000A1Z5"])]
           "GSTR-2A" []) in
  assert (H : clean_and_transform_data Sample.parsers default_settings
                [("Voucher", [CStr "INV-001"]); ("GSTIN", [CStr "22AAAAA0000A1Z5"])]
                "GSTR-2A" [] = r) by (vm_compute; reflexivity).
  eexists _, _. split; [exact H |].
  refine (proj2 (table_without_key_column_has_no_key Sample.parsers default_settings
                   [("Voucher", [CStr "INV-001"]); ("GSTIN", [CStr "22AAAAA0000A1Z5"])]
                   "GSTR-2A" _ _ _ H)).
  left. repeat constructor; vm_compute; discriminate.
Defined.

(** X14.  An amount column that the table does not have reads as zero:
    when no label is read as one of the five numeric names, that column of
    the normalised frame holds 0.0 in every row. *)
Theorem missing_amount_column_reads_zero
    (P : DateParsers) (cfg : Settings) (df : DataFrame) (source : string)
    (out : DataFrame) (log : list string) (c : string) :
  In c numeric_cols ->
  Forall (fun label => standard_name source (normalize_colname label) <> c) (columns df) ->
  clean_and_transform_data P cfg df source [] = Ok (out, log) ->
  get_col c out = repeat (CFloat F64.zero) (nrows df).
Proof.
  intros Hc Hmissing Hclean.
  destruct (empty df) eqn:E.
  - unfold clean_and_transform_data in Hclean. rewrite E in Hclean.
    injection Hclean as <- _. unfold empty in E. apply Nat.eqb_eq in E. rewrite E.
    unfold numeric_cols in Hc. simpl in Hc.
    destruct Hc as [<- | [<- | [<- | [<- | [<- | []]]]]]; reflexivity.
  - rewrite (clean_and_transform_data_columns P cfg df source E) in Hclean.
    destruct (existsb _ _); [discriminate |]. injection Hclean as <- _.
    destruct (get_col_normalized_columns P cfg source (prepare source df))
      as (_ & _ & _ & Hnums & _).
    rewrite (proj1 (List.Forall_forall _ _) Hnums c Hc).
    rewrite get_col_prepare. cbv zeta. rewrite (has_col_renamed _ _ _ Hmissing).
    assert (Hi : Text.isin c (map fst (standard_columns_map source)) = true).
    { apply isin_In. destruct (standard_names_in source) as [Hin _].
      apply (proj1 (List.Forall_forall _ _) Hin).
      unfold numeric_cols in Hc. simpl in Hc |- *. tauto. }
    rewrite Hi. unfold convert_numeric_column.
    rewrite astype_str_no_values, map_repeat. reflexivity.
Qed.

Lemma missing_amount_column_reads_zero_witness :
  exists out log,
    clean_and_transform_data Sample.parsers default_settings Sample.one_invoice_table
      "GSTR-2A" [] = Ok (out, log) /\
    get_col "igst" out = [CFloat F64.zero].
Proof.
  let r := eval vm_compute in
        (clean_and_transform_data Sample.parsers default_settings
           Sample.one_invoice_table "GSTR-2A" []) in
  assert (H : clean_and_transform_data Sample.parsers default_settings
                Sample.one_invoice_table "GSTR-2A" [] = r) by (vm_compute; reflexivity).
  eexists _, _. split; [exact H |].
  refine (missing_amount_column_reads_zero Sample.parsers default_settings
            Sample.one_invoice_table "GSTR-2A" _ _ "igst" _ _ H).
  - unfold numeric_cols. simpl. tauto.
  - repeat constructor; vm_compute; discriminate.
Defined.


(** ** The labels that are recognised *)

(** X15.  Every variation listed for a standard name leads to that name and
    to no other, for both sources: a label of the table that is normalised to
    the same text as a listed variation (so in any case, with any blanks
    or punctuation around or inside) is renamed to the standard name of that
    variation. *)
Theorem listed_variations_are_recognised
    (source std : string) (variations : list string) (variation label : string) :
  In (std, variations) (standard_columns_map source) ->
  In variation variations ->
  normalize_colname label = normalize_colname variation ->
  standard_name source (normalize_colname label) = std.
Proof.
  intros Hstd Hvar ->. unfold standard_name, reverse_standard_map.
  unfold standard_columns_map in Hstd |- *.
  destruct (String.eqb source books); simpl in Hstd;
    repeat (destruct Hstd as [[= <- <-] | Hstd];
            [simpl in Hvar;
             repeat (destruct Hvar as [<- | Hvar]; [vm_compute; reflexivity |]);
             destruct Hvar |]);
    destruct Hstd.
Qed.

Lemma listed_variations_are_recognised_witness :
  standard_name "Books" (normalize_colname "  Bill-No. ") = "invoice_no".
Proof.
  apply (listed_variations_are_recognised "Books" "invoice_no"
           ["invoice no"; "invoiceno"; "bill no"; "billno"; "invoice"] "bill no").
  - vm_compute. tauto.
  - simpl. tauto.
  - vm_compute. reflexivity.
Defined.


(** ** The rows of a ledger frame *)

Lemma rows_row_at (df : DataFrame) : rows df = map (row_at df) (seq 0 (nrows df)).
Proof. reflexivity. Qed.

Lemma get_col_map_columns (g : string -> list cell -> list cell) (df : DataFrame) a :
  get_col a (map (fun nc => (fst nc, g (fst nc) (snd nc))) df)
  = if has_col a df then g a (get_col a df) else [].
Proof.
  unfold has_col, columns. induction df as [| [n c] df IH]; [reflexivity |].
  cbn [map get_col fst snd existsb]. rewrite (String.eqb_sym a n).
  destruct (String.eqb n a) eqn:E; [| exact IH].
  apply String.eqb_eq in E. subst n. reflexivity.
Qed.

Lemma get_col_absent a (df : DataFrame) : has_col a df = false -> get_col a df = [].
Proof.
  unfold has_col, columns. induction df as [| [n c] df IH]; [reflexivity |].
  cbn [map get_col fst existsb]. rewrite (String.eqb_sym a n).
  destruct (String.eqb n a); [discriminate | exact IH].
Qed.

Lemma get_col_tail_frame a df : get_col a (tail_frame df) = tl (get_col a df).
Proof.
  unfold tail_frame. rewrite (get_col_map_columns (fun _ c => tl c)).
  destruct (has_col a df) eqn:E; [reflexivity |]. rewrite (get_col_absent a df E). reflexivity.
Qed.

Lemma get_col_select_rows a mask df :
  get_col a (select_rows mask df) = mask_filter mask (get_col a df).
Proof.
  unfold select_rows. rewrite (get_col_map_columns (fun _ c => mask_filter mask c)).
  destruct (has_col a df) eqn:E; [reflexivity |]. rewrite (get_col_absent a df E).
  destruct mask; reflexivity.
Qed.

Lemma row_at_tail_frame df i : row_at (tail_frame df) i = row_at df (S i).
Proof. unfold row_at. rewrite !get_col_tail_frame, !lookup_tail. reflexivity. Qed.

Lemma nrows_tail_frame df : nrows (tail_frame df) = pred (nrows df).
Proof. destruct df as [| [n [| x c]] df]; reflexivity. Qed.

Lemma rows_cons df m :
  nrows df = S m -> rows df = row_at df 0 :: rows (tail_frame df).
Proof.
  intros Hn. rewrite !rows_row_at, nrows_tail_frame, Hn. cbn [pred seq map].
  f_equal. rewrite <- seq_shift, map_map. apply map_ext. intros i.
  symmetry. apply row_at_tail_frame.
Qed.

Lemma rows_no_row df : nrows df = O -> rows df = [].
Proof. intros Hn. rewrite rows_row_at, Hn. reflexivity. Qed.

Lemma mask_filter_nil {A} (mask : list bool) : mask_filter mask (@nil A) = [].
Proof. destruct mask; reflexivity. Qed.

Lemma select_rows_cons mask (df : DataFrame) :
  tail_frame (select_rows (true :: mask) df) = select_rows mask (tail_frame df) /\
  select_rows (false :: mask) df = select_rows mask (tail_frame df).
Proof.
  unfold select_rows, tail_frame. rewrite !map_map. split; apply map_ext;
    intros [n [| x c]]; cbn [fst snd mask_filter tl]; rewrite ?mask_filter_nil; reflexivity.
Qed.

(** The rows of the frame selected by a mask are the rows selected by the
    mask. *)
Lemma rows_select_rows mask df : rows (select_rows mask df) = mask_filter mask (rows df).
Proof.
  revert df. induction mask as [| b mask IH]; intros df.
  - rewrite rows_no_row; [reflexivity |]. destruct df as [| [n c] df]; reflexivity.
  - destruct (nrows df) as [| m] eqn:Hn.
    + rewrite (rows_no_row df Hn), rows_no_row; [reflexivity |].
      destruct df as [| [n [| x c]] df]; try reflexivity. discriminate Hn.
    + rewrite (rows_cons df m Hn). cbn [mask_filter].
      destruct (select_rows_cons mask df) as [Ht Hf]. destruct b.
      * assert (Hs : exists k, nrows (select_rows (true :: mask) df) = S k).
        { destruct df as [| [n [| x c]] df]; try discriminate Hn. eexists. reflexivity. }
        destruct Hs as [k Hk]. rewrite (rows_cons _ k Hk), Ht, IH. f_equal.
        unfold row_at. rewrite !get_col_select_rows.
        assert (H0 : forall c : list cell, mask_filter (true :: mask) c !! 0%nat = c !! 0%nat)
          by (intros [| x c]; reflexivity).
        rewrite !H0. reflexivity.
      * rewrite Hf. apply IH.
Qed.

Lemma mask_filter_match_key (g : option string -> bool) df :
  length (get_col "match_key" df) = nrows df ->
  mask_filter (map (fun c => g (cell_key c)) (get_col "match_key" df)) (rows df)
  = List.filter (fun r => g (match_key r)) (rows df).
Proof.
  remember (nrows df) as n eqn:Hn. revert df Hn.
  induction n as [| m IH]; intros df Hn Hlen.
  - rewrite (rows_no_row df (eq_sym Hn)). apply mask_filter_nil.
  - rewrite (rows_cons df m (eq_sym Hn)).
    destruct (get_col "match_key" df) as [| c0 cs] eqn:Ec; [discriminate Hlen |].
    cbn [map mask_filter List.filter].
    assert (Hk : match_key (row_at df 0) = cell_key c0).
    { unfold row_at. cbn [match_key]. rewrite Ec. reflexivity. }
    assert (Ht : get_col "match_key" (tail_frame df) = cs).
    { rewrite get_col_tail_frame, Ec. reflexivity. }
    assert (IH' : mask_filter (map (fun c => g (cell_key c)) cs) (rows (tail_frame df))
                  = List.filter (fun r => g (match_key r)) (rows (tail_frame df))).
    { rewrite <- Ht. apply IH.
      - rewrite nrows_tail_frame, <- Hn. reflexivity.
      - rewrite Ht. simpl in Hlen. lia. }
    rewrite Hk, IH'. reflexivity.
Qed.


(** ** Ledgers put together *)

Lemma has_col_columns a (df df' : DataFrame) :
  columns df = columns df' -> has_col a df = has_col a df'.
Proof. unfold has_col. intros ->. reflexivity. Qed.

Lemma pd_concat_same_columns (a b : DataFrame) :
  columns a = columns b ->
  pd_concat a b = map (fun nc => (fst nc, snd nc ++ get_col (fst nc) b)) a.
Proof.
  intros Hc. unfold pd_concat.
  assert (Hf : List.filter (fun nc => negb (has_col (fst nc) a)) b = []).
  { assert (Hall : forall nc, In nc b -> has_col (fst nc) a = true).
    { intros nc Hin. unfold has_col. rewrite Hc. apply existsb_exists.
      exists (fst nc). split; [apply in_map, Hin | apply String.eqb_refl]. }
    clear Hc. induction b as [| nc b IH]; [reflexivity |].
    cbn [List.filter]. rewrite (Hall nc (or_introl eq_refl)). cbn [negb].
    apply IH. intros x Hx. apply Hall. right. exact Hx. }
  rewrite Hf, app_nil_r. apply map_ext_in. intros nc Hin.
  assert (Hb : has_col (fst nc) b = true).
  { unfold has_col. rewrite <- Hc. apply existsb_exists.
    exists (fst nc). split; [apply in_map, Hin | apply String.eqb_refl]. }
  rewrite Hb. reflexivity.
Qed.

Lemma get_col_pd_concat (a b : DataFrame) name :
  columns a = columns b ->
  get_col name (pd_concat a b) = get_col name a ++ get_col name b.
Proof.
  intros Hc. rewrite (pd_concat_same_columns a b Hc).
  rewrite (get_col_map_columns (fun n c => c ++ get_col n b)).
  destruct (has_col name a) eqn:E; [reflexivity |].
  rewrite (get_col_absent name a E), (get_col_absent name b); [reflexivity |].
  rewrite <- (has_col_columns name a b Hc). exact E.
Qed.

Lemma nrows_pd_concat (a b : DataFrame) :
  columns a = columns b -> nrows (pd_concat a b) = (nrows a + nrows b)%nat.
Proof.
  intros Hc. rewrite (pd_concat_same_columns a b Hc).
  destruct a as [| [n c] a], b as [| [n' c'] b]; try discriminate Hc; [reflexivity |].
  injection Hc as Hn _. cbn in Hn. subst n'.
  cbn [map nrows fst snd get_col]. rewrite String.eqb_refl. apply length_app.
Qed.

Lemma length_column n a (df : DataFrame) :
  well_formed n df -> length (get_col a df) = n \/ get_col a df = [].
Proof.
  intros Hwf. destruct (has_col a df) eqn:E.
  - left. apply length_get_col; assumption.
  - right. apply get_col_absent, E.
Qed.

Lemma well_formed_pd_concat (a b : DataFrame) :
  columns a = columns b ->
  well_formed (nrows a) a -> well_formed (nrows b) b ->
  well_formed (nrows (pd_concat a b)) (pd_concat a b).
Proof.
  intros Hc Ha Hb. rewrite (nrows_pd_concat a b Hc), (pd_concat_same_columns a b Hc).
  unfold well_formed. apply List.Forall_forall. intros x Hx.
  apply in_map_iff in Hx as ([n c] & <- & Hin). cbn [fst snd].
  rewrite length_app. f_equal.
  - exact (proj1 (List.Forall_forall _ _) Ha (n, c) Hin).
  - apply length_get_col; [exact Hb |]. unfold has_col. rewrite <- Hc.
    apply existsb_exists. exists n. split; [| apply String.eqb_refl].
    apply (in_map fst a (n, c)), Hin.
Qed.

Lemma row_at_pd_concat (a b : DataFrame) i :
  columns a = columns b -> well_formed (nrows a) a ->
  row_at (pd_concat a b) i
  = if Nat.ltb i (nrows a) then row_at a i else row_at b (i - nrows a).
Proof.
  intros Hc Ha.
  assert (H : forall name,
             get_col name (pd_concat a b) !! i
             = if Nat.ltb i (nrows a) then get_col name a !! i
               else get_col name b !! (i - nrows a)%nat).
  { intros name. rewrite (get_col_pd_concat a b name Hc).
    destruct (has_col name a) eqn:E.
    - pose proof (length_get_col _ name a Ha E) as Hl.
      destruct (Nat.ltb i (nrows a)) eqn:Ei.
      + apply Nat.ltb_lt in Ei. apply lookup_app_l. lia.
      + apply Nat.ltb_ge in Ei. rewrite lookup_app_r by lia. rewrite Hl. reflexivity.
    - rewrite (get_col_absent name a E), (get_col_absent name b)
        by (rewrite <- (has_col_columns name a b Hc); exact E).
      destruct (Nat.ltb i (nrows a)); reflexivity. }
  unfold row_at. rewrite !H. destruct (Nat.ltb i (nrows a)); reflexivity.
Qed.

(** The rows of two ledgers put together are the rows of the first followed
    by the rows of the second. *)
Lemma rows_pd_concat (a b : DataFrame) :
  columns a = columns b -> well_formed (nrows a) a ->
  rows (pd_concat a b) = rows a ++ rows b.
Proof.
  intros Hc Ha. rewrite !rows_row_at, (nrows_pd_concat a b Hc), seq_app, map_app.
  f_equal.
  - apply map_ext_in. intros i Hi. apply in_seq in Hi.
    rewrite (row_at_pd_concat a b i Hc Ha).
    destruct (Nat.ltb i (nrows a)) eqn:E; [reflexivity |]. apply Nat.ltb_ge in E. lia.
  - assert (Hs : seq (0 + nrows a) (nrows b) = map (Nat.add (nrows a)) (seq 0 (nrows b))).
    { cbn [Nat.add]. rewrite <- (Nat.add_0_r (nrows a)) at 1.
      symmetry. apply (fmap_add_seq (nrows a) 0). }
    rewrite Hs, map_map. apply map_ext. intros i.
    rewrite (row_at_pd_concat a b _ Hc Ha).
    destruct (Nat.ltb (nrows a + i) (nrows a)) eqn:E.
    + apply Nat.ltb_lt in E. lia.
    + f_equal. lia.
Qed.

Lemma ledger_ok_pd_concat source (a b : DataFrame) :
  ledger_ok source a -> ledger_ok source b -> ledger_ok source (pd_concat a b).
Proof.
  intros (Hca & Hwa & Hka) (Hcb & Hwb & Hkb).
  assert (Hc : columns a = columns b) by congruence.
  repeat split.
  - rewrite (pd_concat_same_columns a b Hc). unfold columns. rewrite map_map. exact Hca.
  - apply well_formed_pd_concat; assumption.
  - rewrite (rows_pd_concat a b Hc Hwa). apply List.Forall_app. split; assumption.
Qed.

Lemma ledger_ok_empty source : ledger_ok source (empty_ledger source).
Proof.
  unfold ledger_ok, empty_ledger, standard_columns, columns, well_formed, keyed.
  destruct (String.eqb source books); repeat split; repeat constructor.
Qed.

Lemma ledger_ok_clean P cfg df source custom_mapping out log :
  (forall c, length (to_datetime_dayfirst P c) = length c) ->
  well_formed (nrows df) df ->
  clean_and_transform_data P cfg df source custom_mapping = Ok (out, log) ->
  ledger_ok source out.
Proof.
  intros HP Hwf Hclean. destruct custom_mapping as [| m ms].
  - repeat split.
    + exact (clean_columns_schema _ _ _ _ _ _ _ Hclean).
    + destruct (clean_well_formed _ _ _ _ _ _ Hwf HP Hclean) as (Hw & Hn & _).
      rewrite Hn. exact Hw.
    + exact (normalised_rows_keyed _ _ _ _ _ _ Hclean).
  - unfold clean_and_transform_data in Hclean. destruct (empty df); [| discriminate].
    injection Hclean as <- _. apply ledger_ok_empty.
Qed.

Lemma Forall_mask_filter {A} (P : A -> Prop) mask (l : list A) :
  List.Forall P l -> List.Forall P (mask_filter mask l).
Proof.
  intros H. revert mask. induction H as [| x l Hx _ IH]; intros [| [] mask];
    cbn [mask_filter]; try constructor; auto.
Qed.

Lemma length_mask_filter {A B} mask (l : list A) (l' : list B) :
  length l = length l' -> length (mask_filter mask l) = length (mask_filter mask l').
Proof.
  revert l l'. induction mask as [| b mask IH]; intros [| x l] [| y l'] H;
    try reflexivity; try discriminate H.
  injection H as H. destruct b; cbn [mask_filter length]; rewrite (IH l l' H); reflexivity.
Qed.

Lemma ledger_ok_select_rows source mask (data : DataFrame) :
  ledger_ok source data -> ledger_ok source (select_rows mask data).
Proof.
  intros (Hc & Hw & Hk). repeat split.
  - unfold select_rows, columns. rewrite map_map. exact Hc.
  - destruct data as [| [n c] data]; [constructor |].
    unfold well_formed, select_rows in *. cbn [nrows] in Hw.
    change (nrows (map (fun nc => (fst nc, mask_filter mask (snd nc))) ((n, c) :: data)))
      with (length (mask_filter mask c)).
    apply List.Forall_forall. intros x Hx.
    apply in_map_iff in Hx as ([n' c'] & <- & Hin). cbn [fst snd].
    apply length_mask_filter. exact (proj1 (List.Forall_forall _ _) Hw (n', c') Hin).
  - rewrite rows_select_rows. apply Forall_mask_filter, Hk.
Qed.

Lemma well_formed_entry_data fields entries :
  well_formed (nrows (entry_data fields entries)) (entry_data fields entries).
Proof.
  unfold entry_data, well_formed. destruct fields as [| f fields]; [constructor |].
  cbn [map nrows length]. apply List.Forall_forall. intros x Hx.
  destruct Hx as [<- | Hx]; [reflexivity |].
  apply in_map_iff in Hx as (g & <- & _). reflexivity.
Qed.

(** X16.  The commands keep the ledgers in order.  A ledger starts, and is
    cleared to, a frame with the columns of the schema and no row; loading a
    table, adding an entry of the form and deleting the selected entries all
    leave it with the columns of the schema, all of one length, and with the
    key of every row built from the invoice number and the identifier of
    that row, whatever the table, the form and the selection hold and
    whether the command succeeds or not. *)
Theorem commands_keep_the_ledger_in_order
    (P : DateParsers) (cfg : Settings) (source : string) (data : DataFrame) :
  (forall c, length (to_datetime_dayfirst P c) = length c) ->
  ledger_ok source data ->
  ledger_ok source (empty_ledger source) /\
  (forall confirmed, ledger_ok source (clear_import source confirmed data)) /\
  (forall df mapping_vars,
     well_formed (nrows df) df ->
     ledger_ok source (fst (load_data P cfg source data df mapping_vars))) /\
  (forall fields entries,
     ledger_ok source (fst (add_manual P cfg source fields data entries))) /\
  (forall selected confirmed,
     ledger_ok source (fst (delete_manual data selected confirmed))).
Proof.
  intros HP Hdata. split; [apply ledger_ok_empty |]. split; [| split; [| split]].
  - intros [|]; [apply ledger_ok_empty | exact Hdata].
  - intros df vars Hwf. unfold load_data.
    destruct (clean_and_transform_data P cfg df source (custom_mapping_of vars))
      as [[out log] | e] eqn:E; [| exact Hdata].
    apply ledger_ok_pd_concat; [exact Hdata |].
    exact (ledger_ok_clean _ _ _ _ _ _ _ HP Hwf E).
  - intros fields entries. unfold add_manual.
    destruct (clean_and_transform_data P cfg (entry_data fields entries) source [])
      as [[out log] | e] eqn:E; [| exact Hdata].
    destruct (empty out || first_row_all_null out); [exact Hdata |].
    apply ledger_ok_pd_concat; [exact Hdata |].
    exact (ledger_ok_clean _ _ _ _ _ _ _ HP (well_formed_entry_data fields entries) E).
  - intros selected confirmed. unfold delete_manual.
    destruct selected as [| v selected]; [exact Hdata |].
    destruct confirmed; [| exact Hdata].
    apply ledger_ok_select_rows, Hdata.
Qed.

Lemma commands_keep_the_ledger_in_order_witness :
  ledger_ok "GSTR-2A"
    (fst (add_manual Sample.parsers default_settings "GSTR-2A" gstr2a_fields
            (empty_ledger "GSTR-2A") (fun _ => "7"))).
Proof.
  assert (HP : forall c, length (to_datetime_dayfirst Sample.parsers c) = length c)
    by (intros c; apply length_map).
  assert (H0 : ledger_ok "GSTR-2A" (empty_ledger "GSTR-2A"))
    by (repeat split; repeat constructor).
  destruct (commands_keep_the_ledger_in_order Sample.parsers default_settings "GSTR-2A"
              (empty_ledger "GSTR-2A") HP H0) as (_ & _ & _ & Hadd & _).
  apply Hadd.
Defined.


(** ** [add_gstr2a_manual], [add_books_manual] *)

Lemma entry_normalised P cfg source fields entries :
  (source = "GSTR-2A" /\ fields = gstr2a_fields) \/
  (source = books /\ fields = books_fields) ->
  let value := Text.strip (entries "invoice_no") in
  let out := normalized_columns P cfg source (prepare source (entry_data fields entries)) in
  clean_and_transform_data P cfg (entry_data fields entries) source []
  = Ok (out, concat (map snd (gstin_column cfg
                       (get_col "supplier_gstin"
                          (prepare source (entry_data fields entries)))))) /\
  get_col "invoice_no" out
  = [CStr (if String.eqb value "e.g. INV-2023-001" then "" else value)] /\
  nrows out = 1%nat /\
  first_row_all_null out = false.
Proof.
  intros Hcase value out.
  assert (Hinv : get_col "invoice_no" (prepare source (entry_data fields entries))
                 = [CStr (if String.eqb value "e.g. INV-2023-001" then "" else value)]).
  { destruct Hcase as [[-> ->] | [-> ->]]; reflexivity. }
  assert (Hdup : existsb (fun std => Nat.ltb 1 (count_col std
                    (rename (standard_name source)
                       (rename normalize_colname (entry_data fields entries)))))
                   (map fst (standard_columns_map source)) = false).
  { destruct Hcase as [[-> ->] | [-> ->]]; vm_compute; reflexivity. }
  assert (Hout : get_col "invoice_no" out
                 = [CStr (if String.eqb value "e.g. INV-2023-001" then "" else value)]).
  { subst out. destruct (get_col_normalized_columns P cfg source
                           (prepare source (entry_data fields entries))) as [H _].
    rewrite H, Hinv. reflexivity. }
  split; [| split; [exact Hout | split]].
  - rewrite clean_and_transform_data_columns, Hdup; [reflexivity |].
    destruct Hcase as [[-> ->] | [-> ->]]; reflexivity.
  - subst out. rewrite nrows_normalized_columns, Hinv. reflexivity.
  - subst out. unfold normalized_columns, first_row_all_null.
    cbn [app forallb snd]. rewrite Hinv. reflexivity.
Qed.

(** X17.  The form never refuses an entry.  Whatever the fields hold, the
    empty form and the untouched placeholders included, the entry is
    normalised without error to one row whose invoice number is text, the
    test for an entry without data fails, and the row is appended to the
    ledger with the report of success. *)
Theorem manual_entry_never_refused
    (P : DateParsers) (cfg : Settings) (data : DataFrame) (entries : string -> string) :
  (exists out log,
     clean_and_transform_data P cfg (entry_data gstr2a_fields entries) "GSTR-2A" []
     = Ok (out, log) /\
     nrows out = 1%nat /\ first_row_all_null out = false /\
     add_gstr2a_manual P cfg data entries = (pd_concat data out, Done)) /\
  (exists out log,
     clean_and_transform_data P cfg (entry_data books_fields entries) books []
     = Ok (out, log) /\
     nrows out = 1%nat /\ first_row_all_null out = false /\
     add_books_manual P cfg data entries = (pd_concat data out, Done)).
Proof.
  split.
  - destruct (entry_normalised P cfg "GSTR-2A" gstr2a_fields entries)
      as (Hclean & _ & Hn & Hnull); [left; split; reflexivity |].
    eexists _, _. split; [exact Hclean |]. split; [exact Hn |]. split; [exact Hnull |].
    unfold add_gstr2a_manual, add_manual, empty. rewrite Hclean, Hn, Hnull. reflexivity.
  - destruct (entry_normalised P cfg books books_fields entries)
      as (Hclean & _ & Hn & Hnull); [right; split; reflexivity |].
    eexists _, _. split; [exact Hclean |]. split; [exact Hn |]. split; [exact Hnull |].
    unfold add_books_manual, add_manual, empty. rewrite Hclean, Hn, Hnull. reflexivity.
Qed.

(** The empty form adds a row without invoice number, identifier and key. *)
Example empty_form_is_added :
  add_gstr2a_manual Sample.parsers default_settings (empty_ledger "GSTR-2A") (fun _ => "")
  = ([("invoice_no", [CStr ""]); ("invoice_date", [CTime None]);
      ("supplier_gstin", [CStr ""]); ("taxable_value", [CFloat F64.zero]);
      ("cgst", [CFloat F64.zero]); ("sgst", [CFloat F64.zero]); ("igst", [CFloat F64.zero]);
      ("total_amount", [CFloat F64.zero]); ("place_of_supply", [CStr ""]);
      ("match_key", [CFloat F64.nan])], Done).
Proof. vm_compute. reflexivity. Qed.

(** ** [delete_gstr2a_manual], [delete_books_manual] *)

Lemma ledger_ok_match_key_length source data :
  ledger_ok source data -> length (get_col "match_key" data) = nrows data.
Proof.
  intros (Hc & Hw & _). apply length_get_col; [exact Hw |].
  unfold has_col. rewrite Hc. unfold standard_columns.
  destruct (String.eqb source books); reflexivity.
Qed.

(** The rows that a deletion keeps: those without key and those whose key
    is not among the keys rebuilt from the selection. *)
Lemma rows_after_deletion source data v selected :
  ledger_ok source data ->
  let keys := map (fun v => selected_match_key (fst v) (snd v)) (v :: selected) in
  rows (fst (delete_manual data (v :: selected) true))
  = List.filter (fun r => match match_key r with
                          | Some k => negb (Text.isin k keys)
                          | None => true
                          end) (rows data).
Proof.
  intros Hok keys. unfold delete_manual. cbn [fst]. fold keys.
  rewrite rows_select_rows.
  rewrite <- (mask_filter_match_key
                (fun o => match o with Some k => negb (Text.isin k keys) | None => true end))
    by exact (ledger_ok_match_key_length source data Hok).
  f_equal. apply map_ext. intros [| s | z | f | t]; reflexivity.
Qed.

Lemma filter_filter_implied {A} (p q : A -> bool) (l : list A) :
  (forall x, p x = true -> q x = true) ->
  List.filter p (List.filter q l) = List.filter p l.
Proof.
  intros H. induction l as [| x l IH]; [reflexivity |]. cbn [List.filter].
  destruct (q x) eqn:Eq; cbn [List.filter].
  - rewrite IH. reflexivity.
  - destruct (p x) eqn:Ep; [| exact IH]. rewrite (H x Ep) in Eq. discriminate Eq.
Qed.

(** X18.  A row without key cannot be deleted: whatever is selected, the
    rows of the ledger whose match key is undefined are all still there
    after the command, in their order. *)
Theorem rows_without_key_are_never_deleted
    (source : string) (data : DataFrame) (selected : list (string * string))
    (confirmed : bool) :
  ledger_ok source data ->
  List.filter (fun r => match match_key r with Some _ => false | None => true end)
              (rows (fst (delete_manual data selected confirmed)))
  = List.filter (fun r => match match_key r with Some _ => false | None => true end)
                (rows data).
Proof.
  intros Hok. destruct selected as [| v selected]; [reflexivity |].
  destruct confirmed; [| reflexivity].
  rewrite (rows_after_deletion source data v selected Hok).
  apply filter_filter_implied. intros r. destruct (match_key r); [discriminate | reflexivity].
Qed.

Lemma small_ledger_ok : ledger_ok "GSTR-2A" Sample.small_ledger.
Proof.
  split; [reflexivity |]. split; [repeat constructor |].
  apply List.Forall_forall. intros r [<- | [<- | [<- | []]]]; reflexivity.
Qed.

Lemma rows_without_key_are_never_deleted_witness :
  List.filter (fun r => match match_key r with Some _ => false | None => true end)
    (rows (fst (delete_manual Sample.small_ledger
                  [("INV-001", "22AAAAA0000A1Z5")] true)))
  = List.filter (fun r => match match_key r with Some _ => false | None => true end)
      (rows Sample.small_ledger).
Proof.
  exact (rows_without_key_are_never_deleted "GSTR-2A" Sample.small_ledger
           [("INV-001", "22AAAAA0000A1Z5")] true small_ledger_ok).
Defined.

(** ** [run_reconciliation] *)

Lemma ledger_has_required_columns (source : string) (data : DataFrame) :
  columns data = standard_columns source ->
  List.filter (fun col => negb (has_col col data)) required_cols = [].
Proof.
  intros Hc. unfold has_col. rewrite Hc. unfold standard_columns.
  destruct (String.eqb source books); reflexivity.
Qed.

(** X19.  On ledgers as the commands keep them, the check of the required
    columns never fails: a run is refused when one of the two ledgers has
    no row, and otherwise completes with the report of
    [perform_reconciliation] on the rows of the two ledgers. *)
Theorem run_on_kept_ledgers
    (set_iter : gset string -> list string) (cfg : Settings)
    (gstr2a_data books_data : DataFrame) :
  ledger_ok "GSTR-2A" gstr2a_data -> ledger_ok books books_data ->
  run_reconciliation set_iter cfg gstr2a_data books_data
  = if empty gstr2a_data || empty books_data then DataMissing
    else Completed (perform_reconciliation set_iter cfg (rows gstr2a_data) (rows books_data)).
Proof.
  intros (Hca & _) (Hcb & _). unfold run_reconciliation.
  rewrite (ledger_has_required_columns "GSTR-2A" gstr2a_data Hca).
  rewrite (ledger_has_required_columns books books_data Hcb). reflexivity.
Qed.

Lemma small_books_ledger_ok : ledger_ok books Sample.small_books_ledger.
Proof.
  split; [reflexivity |]. split; [repeat constructor |].
  apply List.Forall_forall. intros r [<- | [<- | []]]; reflexivity.
Qed.

Lemma run_on_kept_ledgers_witness :
  run_reconciliation elements default_settings Sample.small_ledger Sample.small_books_ledger
  = Completed (perform_reconciliation elements default_settings
                 (rows Sample.small_ledger) (rows Sample.small_books_ledger)).
Proof.
  exact (run_on_kept_ledgers elements default_settings Sample.small_ledger
           Sample.small_books_ledger small_ledger_ok small_books_ledger_ok).
Defined.

(** ** The characters of the issue texts *)

Lemma prefix_sforall (p : ascii -> bool) (sub s : string) :
  String.prefix sub s = true -> Text.sforall p s = true -> Text.sforall p sub = true.
Proof.
  revert s. induction sub as [| a sub IH]; intros s Hpre Hs; [reflexivity |].
  destruct s as [| b s]; [discriminate Hpre |].
  cbn [String.prefix] in Hpre. destruct (ascii_dec a b) as [-> | _]; [| discriminate Hpre].
  cbn [Text.sforall] in *. apply andb_true_iff in Hs as [Hb Hs].
  rewrite Hb. exact (IH s Hpre Hs).
Qed.

(** A text found inside another is made of characters of that other. *)
Lemma contains_sforall (p : ascii -> bool) (sub s : string) :
  Text.contains sub s = true -> Text.sforall p s = true -> Text.sforall p sub = true.
Proof.
  induction s as [| c s IH]; cbn [Text.contains]; intros Hc Hs.
  - destruct (String.prefix sub "") eqn:E; [| discriminate Hc].
    exact (prefix_sforall p sub "" E Hs).
  - destruct (String.prefix sub (String c s)) eqn:E.
    + exact (prefix_sforall p sub _ E Hs).
    + cbn [Text.sforall] in Hs. apply andb_true_iff in Hs as [_ Hs]. exact (IH Hc Hs).
Qed.

Lemma not_contained (p : ascii -> bool) (sub s : string) :
  Text.sforall p s = true -> Text.sforall p sub = false -> Text.contains sub s = false.
Proof.
  intros Hs Hsub. destruct (Text.contains sub s) eqn:E; [| reflexivity].
  rewrite (contains_sforall p sub s E Hs) in Hsub. discriminate Hsub.
Qed.

Lemma sforall_smap (p : ascii -> bool) (f : ascii -> ascii) (s : string) :
  Text.sforall p (Text.smap f s) = Text.sforall (fun c => p (f c)) s.
Proof. induction s as [| c s IH]; simpl; [reflexivity |]. rewrite IH. reflexivity. Qed.

Lemma sforall_join (p : ascii -> bool) (sep : string) (parts : list string) :
  Text.sforall p sep = true -> Forall (fun x => Text.sforall p x = true) parts ->
  Text.sforall p (Text.join sep parts) = true.
Proof.
  intros Hsep. induction 1 as [| x rest Hx Hrest IH]; [reflexivity |].
  destruct rest as [| y rest]; [exact Hx |].
  change (Text.join sep (x :: y :: rest)) with (x +:+ sep +:+ Text.join sep (y :: rest)).
  rewrite !sforall_append, Hx, Hsep, IH. reflexivity.
Qed.

Lemma scaled_round_nonneg (m : positive) (e s : Z) : 0 <= F64.scaled_round m e s.
Proof.
  unfold F64.scaled_round, F64.scaled. cbn [fst snd].
  assert (Hn : 0 <= Zpos m * (if 0 <=? e then 2 ^ e else 1) * (if 0 <=? s then 10 ^ s else 1)).
  { apply Z.mul_nonneg_nonneg; [apply Z.mul_nonneg_nonneg; [lia |] |].
    - destruct (0 <=? e); [apply Z.pow_nonneg |]; lia.
    - destruct (0 <=? s); [apply Z.pow_nonneg |]; lia. }
  assert (Hd : 0 < (if 0 <=? e then 1 else 2 ^ (- e)) * (if 0 <=? s then 1 else 10 ^ (- s))).
  { apply Z.mul_pos_pos.
    - destruct (0 <=? e) eqn:E; [lia |]. apply Z.leb_gt in E. apply Z.pow_pos_nonneg; lia.
    - destruct (0 <=? s) eqn:E; [lia |]. apply Z.leb_gt in E. apply Z.pow_pos_nonneg; lia. }
  destruct (div_half_even_bounds _ _ Hn Hd) as [[Hl _] _].
  pose proof (Z.div_pos _ _ Hn Hd). lia.
Qed.

Section IssueTexts.

Variable p : ascii -> bool.
Hypothesis p_digit : forall c, Text.is_digit c = true -> p c = true.
Hypothesis p_number : Text.sforall p "-.infnan" = true.

Lemma p_digits (n : Z) : 0 <= n -> Text.sforall p (Text.digits_of_nonneg n) = true.
Proof.
  intros Hn. destruct (digits_of_nonneg_digits n Hn) as [H _].
  revert H. apply sforall_impl, p_digit.
Qed.

Lemma p_among (fixed s : string) :
  Text.sforall p fixed = true ->
  Text.sforall (fun c => Text.is_digit c || Text.contains (String c "") fixed) s = true ->
  Text.sforall p s = true.
Proof.
  intros Hfixed. apply sforall_impl. intros c Hc. apply orb_true_iff in Hc as [Hc | Hc].
  - apply p_digit, Hc.
  - pose proof (contains_sforall p (String c "") _ Hc Hfixed) as H.
    cbn [Text.sforall] in H. apply andb_true_iff in H as [H _]. exact H.
Qed.

(** The characters of [f"{x:.2f}"]: digits, the sign, the point and the
    letters of inf and nan. *)
Lemma p_format_2f (x : F64.float) : Text.sforall p (F64.format_2f x) = true.
Proof.
  destruct x as [[] | [] | | s m e]; try (apply (p_among _ _ p_number); reflexivity).
  unfold F64.format_2f.
  pose proof (scaled_round_nonneg m e 2) as Hc.
  rewrite !sforall_append. unfold Text.zfill. rewrite sforall_append.
  rewrite (p_digits _ (Z.div_pos _ 100 Hc eq_refl)).
  rewrite (p_digits _ (proj1 (Z.mod_pos_bound (F64.scaled_round m e 2) 100 eq_refl))).
  rewrite (p_among _ "." p_number), (p_among _ (if s then "-" else "") p_number)
    by (try destruct s; reflexivity).
  rewrite sforall_replicate; [reflexivity |].
  apply p_digit. reflexivity.
Qed.

Hypothesis p_words :
  Text.sforall p "Date diff:  daysOne invoice date missingAmount diff: ₹Tax diff: ₹" = true.

(** The issues of a pair of rows; the text of the identifier check and
    the text of the exception of the date check need be looked at only
    when they can occur. *)
Lemma issues_of_chars cfg gr br :
  (gstin_issues gr br <> [] -> Text.sforall p "GSTIN mismatch" = true) ->
  ((forall g b, invoice_date gr = Some g -> invoice_date br = Some b ->
                - 2 ^ 63 <= g - b < 2 ^ 63) \/
   Text.sforall p ("Date comparison error: " +:+ out_of_bounds_timedelta) = true) ->
  Forall (fun x => Text.sforall p x = true) (issues_of cfg gr br).
Proof.
  intros Hg Hfit. unfold issues_of.
  apply Forall_app. split; [| apply Forall_app; split; [| apply Forall_app; split]].
  - unfold date_issues. destruct (invoice_date gr) as [g |], (invoice_date br) as [b |];
      try (repeat constructor; apply (p_among _ _ p_words); reflexivity).
    cbv zeta.
    destruct ((g - b <? - 2 ^ 63) || (2 ^ 63 - 1 <? g - b)) eqn:Eo.
    { destruct Hfit as [Hfit | Hfit]; [| repeat constructor; exact Hfit].
      specialize (Hfit g b eq_refl eq_refl).
      apply orb_true_iff in Eo as [Eo | Eo]; apply Z.ltb_lt in Eo; lia. }
    clear Eo. destruct (g - b =? - 2 ^ 63); [constructor |].
    destruct (date_tolerance cfg <? _); [| constructor]. repeat constructor.
    rewrite !sforall_append. unfold Text.str_of_int.
    replace (Z.abs ((g - b) / ns_per_day) <? 0) with false
      by (symmetry; apply Z.ltb_ge; lia).
    rewrite p_digits by lia. rewrite !(p_among _ _ p_words) by reflexivity. reflexivity.
  - destruct (gstin_issues gr br) as [| x rest] eqn:E; [constructor |].
    unfold gstin_issues in E. destruct (String.eqb _ _); [discriminate E |].
    injection E as <- <-. repeat constructor. apply Hg. discriminate.
  - unfold amount_issues. cbv zeta. destruct (F64.ltb _ _); [| constructor].
    repeat constructor.
    rewrite sforall_append, p_format_2f, (p_among _ _ p_words) by reflexivity.
    reflexivity.
  - unfold tax_issues. cbv zeta. destruct (F64.ltb _ _); [| constructor].
    repeat constructor.
    rewrite sforall_append, p_format_2f, (p_among _ _ p_words) by reflexivity.
    reflexivity.
Qed.

End IssueTexts.

(** ** [update_results_ui]: the tree of each discrepancy *)

(** No letter of k, r, h, p, in either case. *)
Lemma digit_shown c :
  Text.is_digit c = true ->
  negb (Text.contains (String (Text.to_lower c) "") "krhp") = true.
Proof.
  destruct c as [[] [] [] [] [] [] [] []]; vm_compute; intros H;
    first [discriminate H | reflexivity].
Qed.

Lemma specific_tree_none (issue_type : string) :
  Text.sforall (fun c => negb (Text.contains (String (Text.to_lower c) "") "krhp"))
               issue_type = true ->
  specific_tree issue_type = None.
Proof.
  intros H. unfold specific_tree. cbv zeta.
  assert (Hl : Text.sforall (fun c => negb (Text.contains (String c "") "krhp"))
                 (Text.lower issue_type) = true).
  { unfold Text.lower. rewrite sforall_smap. exact H. }
  rewrite (not_contained _ "missing in books" _ Hl eq_refl).
  rewrite (not_contained _ "missing in gstr2a" _ Hl eq_refl).
  rewrite (not_contained _ "mismatch" _ Hl eq_refl).
  rewrite (not_contained _ "gstin mismatch" _ Hl eq_refl).
  rewrite (not_contained _ "duplicate" _ Hl eq_refl).
  rewrite !andb_false_r. reflexivity.
Qed.

(** X20.  The tree in which [update_results_ui] shows a row of the report
    of a run, besides the tree of all discrepancies: a row tagged missing
    in Books is shown in the tree of the invoices missing in Books and a
    duplicate in the tree of the duplicates; a row tagged missing in GSTR-2A
    is shown in no other tree, the text looked for being written without
    its hyphen; and a mismatch of a pair with the same identifier on both
    sides, whose dates are not too far apart for a [Timedelta], is shown in
    no other tree either, whatever its date, amount and tax differences,
    the word looked for being in the text of the identifier check only. *)
Theorem tree_of_a_reported_row
    (set_iter : gset string -> list string) (cfg : Settings)
    (gstr2a_data books_data : list Invoice) (d : Discrepancy) :
  (forall s, set_iter s ≡ₚ elements s) ->
  In d (perform_reconciliation set_iter cfg gstr2a_data books_data) ->
  (d_issue_type d = "Missing in Books" ->
   update_results_ui [d] = [("all", tree_values d); ("missing_in_books", tree_values d)]) /\
  (d_issue_type d = "Missing in GSTR-2A" ->
   update_results_ui [d] = [("all", tree_values d)]) /\
  (d_issue_type d = "Duplicate in GSTR-2A" \/ d_issue_type d = "Duplicate in Books" ->
   update_results_ui [d] = [("all", tree_values d); ("duplicates", tree_values d)]) /\
  (d_source d = "Both" ->
   d_gstr2a_gstin d = d_books_gstin d ->
   (forall g b, d_gstr2a_date d = Some g -> d_books_date d = Some b ->
                - 2 ^ 63 <= g - b < 2 ^ 63) ->
   update_results_ui [d] = [("all", tree_values d)]).
Proof.
  intros Hiter Hin. unfold update_results_ui. cbn [map concat app].
  split; [| split; [| split]].
  - intros ->. reflexivity.
  - intros ->. reflexivity.
  - intros [-> | ->]; reflexivity.
  - intros Hsrc Hgst Hfit.
    apply in_perform_reconciliation in Hin as [H | [H | [H | [H | H]]]].
    + apply in_gstr2a_duplicates in H as (r & _ & ->). discriminate Hsrc.
    + apply in_books_duplicates in H as (r & _ & ->). discriminate Hsrc.
    + apply (in_missing_in_books_results _ _ _ _ Hiter) in H as (k & r & _ & _ & ->).
      discriminate Hsrc.
    + apply (in_missing_in_gstr2a_results _ _ _ _ Hiter) in H as (k & r & _ & _ & ->).
      discriminate Hsrc.
    + apply (in_mismatch_results _ _ _ _ _ Hiter) in H as (k & gr & br & _ & _ & Hd).
      apply in_compare_rows in Hd as [_ ->].
      cbn [d_issue_type d_gstr2a_gstin d_books_gstin d_gstr2a_date d_books_date] in *.
      rewrite specific_tree_none; [rewrite app_nil_r; reflexivity |].
      apply sforall_join; [reflexivity |].
      apply issues_of_chars.
      * exact digit_shown.
      * reflexivity.
      * vm_compute. reflexivity.
      * intros Hne. exfalso. apply Hne. unfold gstin_issues, compared_gstin.
        rewrite Hgst, String.eqb_refl. reflexivity.
      * left. exact Hfit.
Qed.

Lemma tree_of_a_reported_row_witness :
  update_results_ui
    [ {| d_invoice_no := "INV-001"; d_source := "Both";
         d_issue_type := "Date diff: 4 days, Amount diff: ₹2.00";
         d_gstr2a_date := Sample.day 2023 7 15; d_books_date := Sample.day 2023 7 19;
         d_gstr2a_gstin := "22AAAAA0000A1Z5"; d_books_gstin := "22AAAAA0000A1Z5";
         d_amount_diff := F64.of_int 2; d_tax_diff := F64.zero;
         d_details := "Date diff: 4 days; Amount diff: ₹2.00" |} ]
  = [ ("all",
       ["INV-001"; "Both"; "Date diff: 4 days, Amount diff: ₹2.00"; "15/07/2023";
        "19/07/2023"; "22AAAAA0000A1Z5"; "22AAAAA0000A1Z5"; "₹2.00"; "₹0.00";
        "Date diff: 4 days; Amount diff: ₹2.00"]) ].
Proof.
  refine (proj2 (proj2 (proj2
            (tree_of_a_reported_row elements default_settings
               [Sample.inv001 (Sample.day 2023 7 15) 11802]
               [Sample.inv001 (Sample.day 2023 7 19) 11800]
               {| d_invoice_no := "INV-001"; d_source := "Both";
                  d_issue_type := "Date diff: 4 days, Amount diff: ₹2.00";
                  d_gstr2a_date := Sample.day 2023 7 15;
                  d_books_date := Sample.day 2023 7 19;
                  d_gstr2a_gstin := "22AAAAA0000A1Z5"; d_books_gstin := "22AAAAA0000A1Z5";
                  d_amount_diff := F64.of_int 2; d_tax_diff := F64.zero;
                  d_details := "Date diff: 4 days; Amount diff: ₹2.00" |}
               (fun s => Permutation_refl (elements s)) _))) eq_refl eq_refl _).
  - vm_compute. left. reflexivity.
  - intros g b [= <-] [= <-]. vm_compute. split; [discriminate | reflexivity].
Defined.

(** ** [generate_visualizations_charts]: the label of a discrepancy *)

Lemma split_first_whole (sep : ascii) (x : string) :
  Text.sforall (fun c => negb (Ascii.eqb c sep)) x = true ->
  Text.split_first sep x = x.
Proof.
  induction x as [| c x IH]; [reflexivity |]. cbn [Text.sforall Text.split_first].
  intros H. apply andb_true_iff in H as [Hc Hx]. apply negb_true_iff in Hc.
  rewrite Hc, (IH Hx). reflexivity.
Qed.

Lemma split_first_append (sep : ascii) (x r : string) :
  Text.sforall (fun c => negb (Ascii.eqb c sep)) x = true ->
  Text.split_first sep (x +:+ String sep r) = x.
Proof.
  induction x as [| c x IH].
  - intros _. change ("" +:+ String sep r) with (String sep r).
    cbn [Text.split_first]. rewrite Ascii.eqb_refl. reflexivity.
  - cbn [Text.sforall]. intros H. apply andb_true_iff in H as [Hc Hx].
    apply negb_true_iff in Hc.
    change (String c x +:+ String sep r) with (String c (x +:+ String sep r)).
    cbn [Text.split_first]. rewrite Hc, (IH Hx). reflexivity.
Qed.

Lemma rstrip_append (a b : string) :
  b <> "" -> Text.sforall (fun c => negb (Text.is_space c)) b = true ->
  Text.rstrip (a +:+ b) = a +:+ b.
Proof.
  intros Hb Hs. induction a as [| c a IH].
  - change ("" +:+ b) with b. apply rstrip_no_space, Hs.
  - change (String c a +:+ b) with (String c (a +:+ b)). cbn [Text.rstrip]. rewrite IH.
    destruct (a +:+ b) as [| c' r] eqn:E; [| reflexivity].
    exfalso. destruct a; [apply Hb; exact E | discriminate E].
Qed.

Lemma digit_not_space c : Text.is_digit c = true -> negb (Text.is_space c) = true.
Proof.
  destruct c as [[] [] [] [] [] [] [] []]; vm_compute; intros H;
    first [discriminate H | reflexivity].
Qed.

Lemma digit_not_comma c : Text.is_digit c = true -> negb (Ascii.eqb c ",") = true.
Proof.
  destruct c as [[] [] [] [] [] [] [] []]; vm_compute; intros H;
    first [discriminate H | reflexivity].
Qed.

Lemma format_2f_not_empty (x : F64.float) : F64.format_2f x <> "".
Proof.
  destruct x as [[] | [] | | s m e]; try discriminate.
  unfold F64.format_2f. intros H. apply (f_equal String.length) in H.
  rewrite !length_append in H. simpl in H. lia.
Qed.

(** The text of an issue holds no comma and is not changed by [strip]. *)
Lemma issue_text_tidy cfg gr br x :
  In x (issues_of cfg gr br) ->
  Text.sforall (fun c => negb (Ascii.eqb c ",")) x = true /\ Text.strip x = x.
Proof.
  intros Hin. split.
  - assert (H : Forall (fun x => Text.sforall (fun c => negb (Ascii.eqb c ",")) x = true)
                  (issues_of cfg gr br)).
    { apply issues_of_chars.
      - exact digit_not_comma.
      - reflexivity.
      - vm_compute. reflexivity.
      - intros _. reflexivity.
      - right. vm_compute. reflexivity. }
    rewrite List.Forall_forall in H. apply H, Hin.
  - assert (Hnum : forall f, Text.strip ("Amount diff: ₹" +:+ F64.format_2f f)
                             = "Amount diff: ₹" +:+ F64.format_2f f /\
                             Text.strip ("Tax diff: ₹" +:+ F64.format_2f f)
                             = "Tax diff: ₹" +:+ F64.format_2f f).
    { intros f. unfold Text.strip.
      assert (Hf : Text.sforall (fun c => negb (Text.is_space c)) (F64.format_2f f) = true)
        by (apply p_format_2f; [exact digit_not_space | reflexivity]).
      split.
      - change (Text.lstrip ("Amount diff: ₹" +:+ F64.format_2f f))
          with ("Amount diff: ₹" +:+ F64.format_2f f).
        apply rstrip_append; [apply format_2f_not_empty | exact Hf].
      - change (Text.lstrip ("Tax diff: ₹" +:+ F64.format_2f f))
          with ("Tax diff: ₹" +:+ F64.format_2f f).
        apply rstrip_append; [apply format_2f_not_empty | exact Hf]. }
    unfold issues_of in Hin. rewrite !in_app_iff in Hin.
    destruct Hin as [H | [H | [H | H]]].
    + unfold date_issues in H.
      destruct (invoice_date gr) as [g |], (invoice_date br) as [b |];
        try (destruct H as [<- | []]; vm_compute; reflexivity); try destruct H.
      cbv zeta in H. destruct (_ || _); [destruct H as [<- | []]; vm_compute; reflexivity |].
      destruct (g - b =? - 2 ^ 63); [destruct H |].
      destruct (date_tolerance cfg <? _); [| destruct H]. destruct H as [<- | []].
      set (n := Text.str_of_int (Z.abs ((g - b) / ns_per_day))).
      unfold Text.strip.
      change (Text.lstrip ("Date diff: " +:+ n +:+ " days"))
        with ("Date diff: " +:+ n +:+ " days").
      change (n +:+ " days") with (n +:+ (" " +:+ "days")).
      rewrite <- (append_assoc n " " "days"), <- (append_assoc "Date diff: " _ "days").
      apply rstrip_append; [discriminate | reflexivity].
    + unfold gstin_issues in H. destruct (String.eqb _ _); [destruct H |].
      destruct H as [<- | []]. vm_compute. reflexivity.
    + unfold amount_issues in H. cbv zeta in H. destruct (F64.ltb _ _); [| destruct H].
      destruct H as [<- | []]. apply Hnum.
    + unfold tax_issues in H. cbv zeta in H. destruct (F64.ltb _ _); [| destruct H].
      destruct H as [<- | []]. apply Hnum.
Qed.

Lemma primary_of_joined cfg gr br x rest :
  issues_of cfg gr br = x :: rest ->
  primary_issue_type (Text.join ", " (x :: rest)) = x.
Proof.
  intros E.
  destruct (issue_text_tidy cfg gr br x) as [Hcomma Hstrip]; [rewrite E; left; reflexivity |].
  unfold primary_issue_type. destruct rest as [| y rest].
  - cbn [Text.join]. rewrite split_first_whole by exact Hcomma. exact Hstrip.
  - change (Text.join ", " (x :: y :: rest))
      with (x +:+ String "," (" " +:+ Text.join ", " (y :: rest))).
    rewrite split_first_append by exact Hcomma. exact Hstrip.
Qed.

(** X21.  The charts of the discrepancy types and of their financial impact
    put a row of the report of a run under one label: the issue type itself
    for a duplicate and for an invoice missing on one side, and for a
    mismatch the first of the issues of the pair, in the order date,
    identifier, amount, tax, whatever the issues after it. *)
Theorem chart_label_of_a_reported_row
    (set_iter : gset string -> list string) (cfg : Settings)
    (gstr2a_data books_data : list Invoice) (d : Discrepancy) :
  (forall s, set_iter s ≡ₚ elements s) ->
  In d (perform_reconciliation set_iter cfg gstr2a_data books_data) ->
  (d_source d <> "Both" -> primary_issue_type (d_issue_type d) = d_issue_type d) /\
  (d_source d = "Both" ->
   exists k gstr_row book_row first_issue others,
     first_with_key k gstr_row gstr2a_data /\ first_with_key k book_row books_data /\
     issues_of cfg gstr_row book_row = first_issue :: others /\
     d_issue_type d = Text.join ", " (first_issue :: others) /\
     primary_issue_type (d_issue_type d) = first_issue).
Proof.
  intros Hiter Hin.
  apply in_perform_reconciliation in Hin as [H | [H | [H | [H | H]]]].
  - apply in_gstr2a_duplicates in H as (r & _ & ->).
    split; [reflexivity | discriminate].
  - apply in_books_duplicates in H as (r & _ & ->).
    split; [reflexivity | discriminate].
  - apply (in_missing_in_books_results _ _ _ _ Hiter) in H as (k & r & _ & _ & ->).
    split; [reflexivity | discriminate].
  - apply (in_missing_in_gstr2a_results _ _ _ _ Hiter) in H as (k & r & _ & _ & ->).
    split; [reflexivity | discriminate].
  - apply (in_mismatch_results _ _ _ _ _ Hiter) in H as (k & gr & br & Hg & Hb & Hd).
    apply in_compare_rows in Hd as [Hne ->]. cbn [d_source d_issue_type].
    split; [intros Hs; destruct (Hs eq_refl) |]. intros _.
    destruct (issues_of cfg gr br) as [| x rest] eqn:E; [destruct (Hne eq_refl) |].
    exists k, gr, br, x, rest. repeat split; try assumption.
    apply (primary_of_joined cfg gr br x rest E).
Qed.

Lemma chart_label_of_a_reported_row_witness :
  exists k gstr_row book_row first_issue others,
    first_with_key k gstr_row [Sample.inv001 (Sample.day 2023 7 15) 11802] /\
    first_with_key k book_row [Sample.inv001 (Sample.day 2023 7 19) 11800] /\
    issues_of default_settings gstr_row book_row = first_issue :: others /\
    "Date diff: 4 days, Amount diff: ₹2.00" = Text.join ", " (first_issue :: others) /\
    primary_issue_type "Date diff: 4 days, Amount diff: ₹2.00" = first_issue.
Proof.
  refine (proj2 (chart_label_of_a_reported_row elements default_settings
                   [Sample.inv001 (Sample.day 2023 7 15) 11802]
                   [Sample.inv001 (Sample.day 2023 7 19) 11800]
                   {| d_invoice_no := "INV-001"; d_source := "Both";
                      d_issue_type := "Date diff: 4 days, Amount diff: ₹2.00";
                      d_gstr2a_date := Sample.day 2023 7 15;
                      d_books_date := Sample.day 2023 7 19;
                      d_gstr2a_gstin := "22AAAAA0000A1Z5";
                      d_books_gstin := "22AAAAA0000A1Z5";
                      d_amount_diff := F64.of_int 2; d_tax_diff := F64.zero;
                      d_details := "Date diff: 4 days; Amount diff: ₹2.00" |}
                   (fun s => Permutation_refl (elements s)) _) eq_refl).
  vm_compute. left. reflexivity.
Defined.
